(** * Verification of the nengo-examples tutorial notebooks

    The repository holds Jupyter notebooks.  The file
    [htbab_tutorials/ch2-scalars.ipynb] carries two notebook documents: the
    "Representing a scalar" tutorial and the "Training an Autoencoder With
    TensorNodes" tutorial.  The development has these parts:

    - [Json], [Documents], [Notebook]: the notebook documents as the JSON data
      they are, with the functions that read cells and scan their source
      lines;
    - [Python]: the values, the platform (the interpreter's run time and the
      imported libraries, which the notebooks only call) and the
      state-and-exception monad in which the code cells are embedded;
    - [Scalars] and [Autoencoder]: the code cells of the two notebooks as
      monadic programs, statement by statement;
    - [Kernel], [Logic], [Toy]: running cells, what is stated about a run,
      and a small platform to run the notebooks on;
    - the facts: exceptions pass through every statement, a step-by-step run
      of a cell, and the theorems about the documents and the cells. *)

From Stdlib Require Import ZArith Ascii String Floats.PrimFloat Floats.FloatOps.
From stdpp Require Import base numbers list strings.

Local Open Scope string_scope.
Local Open Scope Z_scope.
Local Open Scope list_scope.

(** ** JSON values *)

Module Json.

(** Objects keep the order of their members, as the file does. *)
#[local] Set Warnings "-register-all".
Inductive json : Type :=
| JNull
| JBool (b : bool)
| JNum (z : Z)
| JStr (s : string)
| JArr (items : list json)
| JObj (members : list (string * json)).

(** The quote and the newline, from their character codes. *)
Definition dq : string := String (Ascii.ascii_of_nat 34) EmptyString.
Definition nl : string := String (Ascii.ascii_of_nat 10) EmptyString.

(** A source line that ends in a newline. *)
Definition jline (s : string) : json := JStr (s +:+ nl).

Fixpoint assoc (k : string) (ms : list (string * json)) : option json :=
  match ms with
  | [] => None
  | (k', v) :: ms' => if String.eqb k k' then Some v else assoc k ms'
  end.

(** Member [k] of an object; [None] for a missing key or a non-object. *)
Definition jget (k : string) (j : json) : option json :=
  match j with
  | JObj ms => assoc k ms
  | _ => None
  end.

Definition jitems (j : json) : list json :=
  match j with
  | JArr l => l
  | _ => []
  end.

Definition jstring (j : json) : option string :=
  match j with
  | JStr s => Some s
  | _ => None
  end.

End Json.
Import Json.

(** ** The two notebook documents, cell by cell *)

Module Documents.

Definition ch2_scalars_cell0 : json :=
  JObj [
    ("cell_type", JStr "markdown");
    ("metadata", JObj []);
    ("source", JArr [
      jline "# Representing a scalar";
      jline EmptyString;
      JStr "You can construct and manipulate a population of neurons (ensemble) in nengo. This model shows shows how the activity of neural populations can be thought of as representing a mathematical variable (a scalar value). "])].

Definition ch2_scalars_cell1 : json :=
  JObj [
    ("cell_type", JStr "code");
    ("execution_count", JNull);
    ("metadata", JObj [
      ("collapsed", JBool false)]);
    ("outputs", JArr []);
    ("source", JArr [
      jline "# Setup the environment";
      jline "import numpy as np";
      jline "import matplotlib.pyplot as plt";
      jline "%matplotlib inline";
      jline EmptyString;
      jline "import nengo";
      jline "from nengo.dists import Uniform";
      jline "from nengo.utils.matplotlib import rasterplot";
      JStr "from nengo.utils.ensemble import tuning_curves"])].

Definition ch2_scalars_cell2 : json :=
  JObj [
    ("cell_type", JStr "markdown");
    ("metadata", JObj []);
    ("source", JArr [
      jline "## Create the Model";
      jline EmptyString;
      JStr "This model has paramenters as described in the book and uses a single population (ensemble) of 100 LIF neurons. Note that the default max rates in Nengo 2.0 are (200, 400), so you have to explicitly specify them to be (100, 200) to create the model with the same parameters as described in the book. Moreover the 'Node Factory' feature of ensembles mentioned in the book maps to the 'neuron_type' in Nengo 2.0 which is set to LIF by default. The default values of tauRC, tauRef, radius and intercepts in Nengo 2.0 are the same as those mentioned in the book."])].

Definition ch2_scalars_cell3 : json :=
  JObj [
    ("cell_type", JStr "code");
    ("execution_count", JNull);
    ("metadata", JObj [
      ("collapsed", JBool false)]);
    ("outputs", JArr []);
    ("source", JArr [
      jline "model = nengo.Network(label='Many Neurons')";
      jline "with model:";
      jline "    # Input";
      jline "    input = nengo.Node(lambda t: np.sin(16 * t))      # Input sine wave with range 1";
      jline "    # input = nengo.Node(lambda t: 4*np.sin(16 * t))   # Input sine wave with range increased to 4";
      jline "    ";
      jline "    # Ensemble with 100 LIF neurons  ";
      jline "    x = nengo.Ensemble(100, dimensions=1, max_rates = Uniform(100, 200))";
      jline "    ";
      jline "    # Connecting input to ensemble";
      JStr "    nengo.Connection(input, x) "])].

Definition ch2_scalars_cell4 : json :=
  JObj [
    ("cell_type", JStr "markdown");
    ("metadata", JObj []);
    ("source", JArr [
      JStr "## Run the model"])].

Definition ch2_scalars_cell5 : json :=
  JObj [
    ("cell_type", JStr "markdown");
    ("metadata", JObj []);
    ("source", JArr [
      JStr "Import the nengo_gui visualizer to run and visualize the model."])].

Definition ch2_scalars_cell6 : json :=
  JObj [
    ("cell_type", JStr "code");
    ("execution_count", JNull);
    ("metadata", JObj [
      ("collapsed", JBool false)]);
    ("outputs", JArr []);
    ("source", JArr [
      jline "from nengo_gui.ipython import IPythonViz";
      JStr ("IPythonViz(model, " +:+ dq +:+ "ch2-scalars.py.cfg" +:+ dq +:+ ")")])].

Definition ch2_scalars_cell7 : json :=
  JObj [
    ("cell_type", JStr "markdown");
    ("metadata", JObj []);
    ("source", JArr [
      jline "Press the play button in the visualizer to run the simulation. You should see the graphs as shown in the figure below.";
      jline EmptyString;
      JStr "The graph on the top left shows the input and the graph on the top right shows the the decoded value of the neural spiking (a linearly decoded estimate of the input). The graph on the bottom right shows the spike raster which is the spiking output of the neuron population (x)."])].

Definition ch2_scalars_cell8 : json :=
  JObj [
    ("cell_type", JStr "code");
    ("execution_count", JNull);
    ("metadata", JObj [
      ("collapsed", JBool false)]);
    ("outputs", JArr []);
    ("source", JArr [
      jline "from IPython.display import Image";
      JStr "Image(filename='ch2-scalars.png')"])].

Definition ch2_scalars_cell9 : json :=
  JObj [
    ("cell_type", JStr "markdown");
    ("metadata", JObj []);
    ("source", JArr [
      JStr "### Increasing the range of Input"])].

Definition ch2_scalars_cell10 : json :=
  JObj [
    ("cell_type", JStr "markdown");
    ("metadata", JObj []);
    ("source", JArr [
      JStr "You have seen that the population of neurons does a reasonably good job of representing the input. However, neurons cannot represent arbitrary values well and you can verify this by increasing the range of the input to 4 ( input = nengo.Node(lambda t: 4*np.sin(16 * t)) ). You will observe the same saturation effects as described in the book, showing that the neurons do a much better job at representing information within the defined radius."])].

Definition ch2_scalars_cell11 : json :=
  JObj [
    ("cell_type", JStr "markdown");
    ("metadata", JObj []);
    ("source", JArr [
      JStr "### Plotting the Tuninig Curves"])].

Definition ch2_scalars_cell12 : json :=
  JObj [
    ("cell_type", JStr "markdown");
    ("metadata", JObj []);
    ("source", JArr [
      jline "The tuning curve of a neurons tells us how it responds to an incoming input signal. Looking at the tuning curves of the neurons in an ensemble is one of the most common ways to debug failures in a model. ";
      jline EmptyString;
      JStr "For a one-dimensional ensemble, since the input is a scalar, we can use the input as x-axis and the neuron response as y-axis."])].

Definition ch2_scalars_cell13 : json :=
  JObj [
    ("cell_type", JStr "code");
    ("execution_count", JNull);
    ("metadata", JObj [
      ("collapsed", JBool false)]);
    ("outputs", JArr []);
    ("source", JArr [
      jline "# Alternative way to run the model";
      jline "with nengo.Simulator(model) as sim: # Create the simulator";
      JStr "    sim.run(1)                      # Run the simulation for 1 second"])].

Definition ch2_scalars_cell14 : json :=
  JObj [
    ("cell_type", JStr "code");
    ("execution_count", JNull);
    ("metadata", JObj [
      ("collapsed", JBool false)]);
    ("outputs", JArr []);
    ("source", JArr [
      jline "# Plot the tuning curves of the ensemble";
      jline "plt.figure()";
      jline ("plt.plot(" +:+ "*tuning_curves(x, sim))");
      jline ("plt.ylabel(" +:+ dq +:+ "Firing rate (Hz)" +:+ dq +:+ ")");
      JStr ("plt.xlabel(" +:+ dq +:+ "Input scalar, x" +:+ dq +:+ ");")])].

Definition ch2_scalars_cell15 : json :=
  JObj [
    ("cell_type", JStr "markdown");
    ("metadata", JObj []);
    ("source", JArr [
      JStr "If there is some biological or functional reason to impose some pattern to the neuron responses, you can do so by changing the parameters of the ensemble."])].

Definition ch2_scalars_cell16 : json :=
  JObj [
    ("cell_type", JStr "code");
    ("execution_count", JNull);
    ("metadata", JObj [
      ("collapsed", JBool false)]);
    ("outputs", JArr []);
    ("source", JArr [
      jline "from nengo.dists import Choice";
      jline "x.intercepts = Choice([-0.2])  # change the intercept of all neurons -0.2";
      jline EmptyString;
      jline "with nengo.Simulator(model) as sim:";
      jline ("    plt.plot(" +:+ "*tuning_curves(x, sim))");
      jline ("plt.ylabel(" +:+ dq +:+ "Firing rate (Hz)" +:+ dq +:+ ")");
      JStr ("plt.xlabel(" +:+ dq +:+ "Input scalar, x" +:+ dq +:+ ");")])].

Definition ch2_scalars_cell17 : json :=
  JObj [
    ("cell_type", JStr "markdown");
    ("metadata", JObj []);
    ("source", JArr [
      JStr "Note that in the above figure, some neurons start firing at -0.2, while others stop firing at 0.2. This is because the input signal, x, is multipled by a neuron's encoder when it is converted to input current. You can also constrain the tuning curves by changing the encoders of the ensemble."])].

Definition ch2_scalars_cell18 : json :=
  JObj [
    ("cell_type", JStr "code");
    ("execution_count", JNull);
    ("metadata", JObj [
      ("collapsed", JBool false)]);
    ("outputs", JArr []);
    ("source", JArr [
      jline "x.encoders = Choice([[1]])  # change the encoder of all neurons to [1]";
      jline EmptyString;
      jline "with nengo.Simulator(model) as sim:";
      jline ("    plt.plot(" +:+ "*tuning_curves(x, sim))");
      jline ("plt.plot(" +:+ "*tuning_curves(x, sim))");
      jline ("plt.ylabel(" +:+ dq +:+ "Firing rate (Hz)" +:+ dq +:+ ")");
      JStr ("plt.xlabel(" +:+ dq +:+ "Input scalar, x" +:+ dq +:+ ");")])].

Definition ch2_scalars_cell19 : json :=
  JObj [
    ("cell_type", JStr "markdown");
    ("metadata", JObj []);
    ("source", JArr [
      JStr "This gives us an ensemble of neurons that respond very predictably to input. In some cases, this is important for the proper functioning of a model, or to match what we know about the physiology of a brain area or neuron type."])].

Definition ch2_scalars_metadata : json :=
  JObj [
    ("kernelspec", JObj [
      ("display_name", JStr "Python 2");
      ("language", JStr "python");
      ("name", JStr "python2")]);
    ("language_info", JObj [
      ("codemirror_mode", JObj [
        ("name", JStr "ipython");
        ("version", JNum 2)]);
      ("file_extension", JStr ".py");
      ("mimetype", JStr "text/x-python");
      ("name", JStr "python");
      ("nbconvert_exporter", JStr "python");
      ("pygments_lexer", JStr "ipython2");
      ("version", JStr "2.7.10")]);
    ("widgets", JObj [
      ("state", JObj []);
      ("version", JStr "1.1.2")])].

Definition ch2_scalars_ipynb : json :=
  JObj [
    ("cells", JArr [
      ch2_scalars_cell0;
      ch2_scalars_cell1;
      ch2_scalars_cell2;
      ch2_scalars_cell3;
      ch2_scalars_cell4;
      ch2_scalars_cell5;
      ch2_scalars_cell6;
      ch2_scalars_cell7;
      ch2_scalars_cell8;
      ch2_scalars_cell9;
      ch2_scalars_cell10;
      ch2_scalars_cell11;
      ch2_scalars_cell12;
      ch2_scalars_cell13;
      ch2_scalars_cell14;
      ch2_scalars_cell15;
      ch2_scalars_cell16;
      ch2_scalars_cell17;
      ch2_scalars_cell18;
      ch2_scalars_cell19]);
    ("metadata", ch2_scalars_metadata);
    ("nbformat", JNum 4);
    ("nbformat_minor", JNum 0)].

Definition autoencoder_cell0 : json :=
  JObj [
    ("cell_type", JStr "markdown");
    ("metadata", JObj []);
    ("source", JArr [
      jline "## Training an Autoencoder With TensorNodes";
      jline EmptyString;
      jline "When working with TensorNodes you can train them just like normal parts of a Nengo model. The only deviation from the standard procedure is the definition of the custom classes which encapsulate the TensorFlow portions. ";
      jline EmptyString;
      jline "In this example we will illustrate this trainability by training an autoencoder on the MNIST dataset. The autoencoder takes the input in with a dimensionality of `784` (28\*28) and reduces it to a dimensionality of `36`. This is the encoding phase where the network is effectively compressing the input. The decode phase then takes that `36` dimensional representation and attempts to reconstruct the original input with it.";
      jline EmptyString;
      JStr "We show at the bottom of the notebook how the training changes the output. The output starts off as pure noise and gradually looks more and more like the input."])].

Definition autoencoder_cell1 : json :=
  JObj [
    ("cell_type", JStr "code");
    ("execution_count", JNull);
    ("metadata", JObj [
      ("collapsed", JBool true)]);
    ("outputs", JArr []);
    ("source", JArr [
      jline "%matplotlib inline";
      jline EmptyString;
      jline "import nengo";
      jline "import nengo_dl";
      jline "import numpy as np";
      jline "import tensorflow as tf";
      JStr "import matplotlib.pyplot as plt"])].

Definition autoencoder_cell2 : json :=
  JObj [
    ("cell_type", JStr "code");
    ("execution_count", JNull);
    ("metadata", JObj []);
    ("outputs", JArr []);
    ("source", JArr [
      jline "# Import MNIST data";
      jline "from tensorflow.examples.tutorials.mnist import input_data";
      JStr ("mnist = input_data.read_data_sets(" +:+ dq +:+ "MNIST_data" +:+ dq +:+ ", one_hot=True)")])].

Definition autoencoder_cell3 : json :=
  JObj [
    ("cell_type", JStr "markdown");
    ("metadata", JObj []);
    ("source", JArr [
      jline "The network architecture consists of one input layer followed by 4 densely connected layers. The layers architecture is mirrored such that:";
      jline EmptyString;
      jline "```";
      jline "Layer 1: 784 Elements - Input";
      jline "Layer 2: 128 Elements - Encode 1";
      jline "Layer 3: 36 Elements - Encode 2";
      jline "Layer 4: 128 Elements - Decode 1";
      jline "Layer 5: 784 Elements - Decode 2/Output";
      JStr "```"])].

Definition autoencoder_cell4 : json :=
  JObj [
    ("cell_type", JStr "code");
    ("execution_count", JNull);
    ("metadata", JObj [
      ("collapsed", JBool true)]);
    ("outputs", JArr []);
    ("source", JArr [
      jline "# Network Parameters";
      jline "n_hidden_1 = 128 # 1st layer num features";
      jline "n_hidden_2 = 36 # 2nd layer num features";
      JStr "n_input = 784 # MNIST data input (img shape: 28*28)"])].

Definition autoencoder_cell5 : json :=
  JObj [
    ("cell_type", JStr "markdown");
    ("metadata", JObj []);
    ("source", JArr [
      jline "The TensorNodes are broken up into two classes: an Encoder, which compresses the input, and a Decoder, which decompresses the output to attempt to recreate the original.";
      jline EmptyString;
      JStr "Both of the TensorNode types consist of two fully connected (dense) layers which are in turn connected to each other"])].

Definition autoencoder_cell6 : json :=
  JObj [
    ("cell_type", JStr "code");
    ("execution_count", JNull);
    ("metadata", JObj [
      ("collapsed", JBool true)]);
    ("outputs", JArr []);
    ("source", JArr [
      jline "# Building the encoder";
      jline "class Encoder(object):";
      jline "    def pre_build(self, shape_in, shape_out):";
      jline "        self.n_mini = shape_in[0]";
      jline "        self.size_in = shape_in[1]";
      jline "        self.size_out = shape_out[1]";
      jline "        ";
      jline "    ";
      jline "    def __call__(self, t, x):    ";
      jline "        dense = tf.contrib.layers.fully_connected(x, n_hidden_1)";
      jline "        dense = tf.contrib.layers.fully_connected(dense, n_hidden_2)";
      jline EmptyString;
      jline "        return dense";
      jline EmptyString;
      jline EmptyString;
      jline "# Building the encoder";
      jline "class Decoder(object):";
      jline "    def pre_build(self, shape_in, shape_out):";
      jline "        self.n_mini = shape_in[0]";
      jline "        self.size_in = shape_in[1]";
      jline "        self.size_out = shape_out[1]";
      jline "    ";
      jline "    def __call__(self, t, x):    ";
      jline "        dense = tf.contrib.layers.fully_connected(x, n_hidden_1)";
      jline "        dense = tf.contrib.layers.fully_connected(dense, self.size_out)";
      jline EmptyString;
      jline "        return dense";
      jline EmptyString;
      jline EmptyString;
      jline "with nengo.Network() as net:";
      jline "    net.config[nengo.Connection].synapse = None";
      jline "    net.config[nengo.Ensemble].neuron_type = nengo.RectifiedLinear()";
      jline "    net.config[nengo.Ensemble].gain = nengo.dists.Choice([1])";
      jline "    net.config[nengo.Ensemble].bias = nengo.dists.Choice([0])";
      jline "    ";
      jline "     # create node to feed in images";
      jline "    inp = nengo.Node(nengo.processes.PresentInput(mnist.test.images, 0.001))";
      jline "    ";
      jline "    # create TensorNodes to insert into the network";
      jline "    tf_encode = nengo_dl.TensorNode(Encoder(), size_in=n_input, size_out=n_hidden_2, label='H1')";
      jline "    tf_decode = nengo_dl.TensorNode(Decoder(), size_in=n_hidden_2, size_out=n_input, label='H2')";
      jline "    ";
      jline "    # connecting all the nodes together";
      jline "    nengo.Connection(inp, tf_encode)";
      jline "    nengo.Connection(tf_encode, tf_decode)";
      jline "    ";
      jline "    # defining probes";
      jline "    input_probe = nengo.Probe(inp)";
      jline "    encode_probe = nengo.Probe(tf_encode)";
      JStr "    decode_probe = nengo.Probe(tf_decode)"])].

Definition autoencoder_cell7 : json :=
  JObj [
    ("cell_type", JStr "markdown");
    ("metadata", JObj []);
    ("source", JArr [
      JStr "Luckily for this network the training data for output and input are the same, therefore the same data can be used for both."])].

Definition autoencoder_cell8 : json :=
  JObj [
    ("cell_type", JStr "code");
    ("execution_count", JNull);
    ("metadata", JObj [
      ("collapsed", JBool true)]);
    ("outputs", JArr []);
    ("source", JArr [
      jline "train_inputs = {inp: mnist.train.images[:, None, :]}";
      jline "train_targets = {decode_probe: train_inputs[inp]}";
      jline "test_inputs = {inp: mnist.test.images[:, None, :]}";
      JStr "test_targets = {decode_probe: test_inputs[inp]}"])].

Definition autoencoder_cell9 : json :=
  JObj [
    ("cell_type", JStr "markdown");
    ("metadata", JObj []);
    ("source", JArr [
      JStr "We break the training up into single epochs so that we can visualize the effect of the training over time."])].

Definition autoencoder_cell10 : json :=
  JObj [
    ("cell_type", JStr "code");
    ("execution_count", JNull);
    ("metadata", JObj [
      ("collapsed", JBool true);
      ("scrolled", JBool true)]);
    ("outputs", JArr []);
    ("source", JArr [
      jline "n_examples = 100";
      jline "losses = []";
      jline "learning_rate = 0.05";
      jline "repetitions = 5";
      jline ("with nengo_dl.Simulator(net, minibatch_size=n_examples, device=" +:+ dq +:+ "/cpu:0" +:+ dq +:+ ") as sim:");
      jline "    optimizer = tf.train.MomentumOptimizer(learning_rate, 0.9)";
      jline "    ";
      jline "    for e in range(repetitions):";
      jline "        losses.append(sim.loss(test_inputs, test_targets, 'mse'))";
      jline "        print(losses)";
      jline "        ";
      jline "        sim.step(input_feeds={inp: test_inputs[inp][:n_examples]})";
      jline "        ";
      jline "        sim.train(train_inputs, train_targets, optimizer)";
      jline "        ";
      JStr "    sim.step(input_feeds={inp: test_inputs[inp][:n_examples]})"])].

Definition autoencoder_cell11 : json :=
  JObj [
    ("cell_type", JStr "markdown");
    ("metadata", JObj []);
    ("source", JArr [
      JStr "The plot below shows the input on the top row, the compressed representation in the middle, and then the reconstructed output on the bottom. We can see that as training progresses (moving left to right) the reconstructions become more and more accurate. "])].

Definition autoencoder_cell12 : json :=
  JObj [
    ("cell_type", JStr "code");
    ("execution_count", JNull);
    ("metadata", JObj []);
    ("outputs", JArr []);
    ("source", JArr [
      jline "figure, axis = plt.subplots(3, repetitions+1, figsize=(10, 5))";
      jline "for i in range(repetitions+1):";
      jline "    axis[0][i].imshow(np.reshape(sim.data[input_probe][0, i], (28, 28)))";
      jline "    axis[1][i].imshow(np.reshape(sim.data[encode_probe][0, i], (6, 6)))";
      JStr "    axis[2][i].imshow(np.reshape(sim.data[decode_probe][0, i], (28, 28)))"])].

Definition autoencoder_cell13 : json :=
  JObj [
    ("cell_type", JStr "code");
    ("execution_count", JNull);
    ("metadata", JObj [
      ("collapsed", JBool true)]);
    ("outputs", JArr []);
    ("source", JArr [])].

Definition autoencoder_metadata : json :=
  JObj [
    ("kernelspec", JObj [
      ("display_name", JStr "Python 3");
      ("language", JStr "python");
      ("name", JStr "python3")]);
    ("language_info", JObj [
      ("codemirror_mode", JObj [
        ("name", JStr "ipython");
        ("version", JNum 3)]);
      ("file_extension", JStr ".py");
      ("mimetype", JStr "text/x-python");
      ("name", JStr "python");
      ("nbconvert_exporter", JStr "python");
      ("pygments_lexer", JStr "ipython3");
      ("version", JStr "3.5.4")])].

Definition autoencoder_ipynb : json :=
  JObj [
    ("cells", JArr [
      autoencoder_cell0;
      autoencoder_cell1;
      autoencoder_cell2;
      autoencoder_cell3;
      autoencoder_cell4;
      autoencoder_cell5;
      autoencoder_cell6;
      autoencoder_cell7;
      autoencoder_cell8;
      autoencoder_cell9;
      autoencoder_cell10;
      autoencoder_cell11;
      autoencoder_cell12;
      autoencoder_cell13]);
    ("metadata", autoencoder_metadata);
    ("nbformat", JNum 4);
    ("nbformat_minor", JNum 2)].

End Documents.
Import Documents.

(** ** Reading a notebook document *)

Module Notebook.

Definition cells (doc : json) : list json :=
  from_option jitems [] (jget "cells" doc).

Definition cell_type (c : json) : option string :=
  jget "cell_type" c ≫= jstring.

Definition is_code (c : json) : bool :=
  match cell_type c with
  | Some t => String.eqb t "code"
  | None => false
  end.

(** The source lines of a cell, in order. *)
Definition source_lines (c : json) : list string :=
  omap jstring (from_option jitems [] (jget "source" c)).

(** The code cells of a document, each as its list of source lines. *)
Definition code_cells (doc : json) : list (list string) :=
  source_lines <$> List.filter is_code (cells doc).

(** *** The notebook format (nbformat 4) *)

Definition is_string (j : json) : Prop := ∃ s, j = JStr s.

(** A cell has a type, a metadata object and a source (a list of lines). *)
Definition well_formed_cell (c : json) : Prop :=
  ∃ ty md src,
    jget "cell_type" c = Some (JStr ty) ∧
    jget "metadata" c = Some (JObj md) ∧
    jget "source" c = Some (JArr src) ∧
    Forall is_string src.

Definition well_formed_notebook (doc : json) : Prop :=
  (∃ members, doc = JObj members) ∧
  (∃ cs, jget "cells" doc = Some (JArr cs) ∧ Forall well_formed_cell cs) ∧
  (∃ md ks, jget "metadata" doc = Some (JObj md) ∧
            jget "kernelspec" (JObj md) = Some (JObj ks)) ∧
  jget "nbformat" doc = Some (JNum 4).

Definition is_stringb (j : json) : bool :=
  match j with JStr _ => true | _ => false end.

Definition well_formed_cellb (c : json) : bool :=
  match jget "cell_type" c, jget "metadata" c, jget "source" c with
  | Some (JStr _), Some (JObj _), Some (JArr src) => forallb is_stringb src
  | _, _, _ => false
  end.

Definition well_formed_notebookb (doc : json) : bool :=
  match doc, jget "cells" doc, jget "metadata" doc, jget "nbformat" doc with
  | JObj _, Some (JArr cs), Some (JObj md), Some (JNum 4) =>
      forallb well_formed_cellb cs &&
      match assoc "kernelspec" md with
      | Some (JObj _) => true
      | _ => false
      end
  | _, _, _, _ => false
  end.

(** *** Scanning source lines *)

Definition is_ident_char (a : ascii) : bool :=
  let n := Ascii.nat_of_ascii a in
  ((48 <=? n) && (n <=? 57) || (65 <=? n) && (n <=? 90) ||
   (97 <=? n) && (n <=? 122) || (n =? 95))%nat.

(** The maximal runs of characters satisfying [p]; the head of the result is
    the run that [s] starts with (empty if it starts with another character). *)
Fixpoint runs (p : ascii → bool) (s : string) : list string :=
  match s with
  | EmptyString => [EmptyString]
  | String a s' =>
      if p a then
        match runs p s' with
        | w :: ws => String a w :: ws
        | [] => [String a EmptyString]
        end
      else EmptyString :: runs p s'
  end.

Definition nonempty (s : string) : bool :=
  match s with EmptyString => false | _ => true end.

(** Every identifier, keyword or number of a line, comments and string
    literals included. *)
Definition words (line : string) : list string :=
  List.filter nonempty (runs is_ident_char line).

Definition all_words (doc : json) : list string :=
  concat (words <$> concat (code_cells doc)).

(** The words of the code cells that are among [vocabulary]. *)
Definition uses (vocabulary : list string) (doc : json) : list string :=
  List.filter (λ w, existsb (String.eqb w) vocabulary) (all_words doc).

(** The statements with which Python catches, raises or re-routes an
    exception, and its conditional forms. *)
Definition handler_keywords : list string :=
  ["try"; "except"; "finally"; "raise"; "assert"].
Definition branch_keywords : list string := ["if"; "elif"; "else"].

(** The names with which Python code starts a thread, a process or an
    asynchronous task, and the modules that provide them. *)
Definition concurrency_words : list string :=
  ["async"; "await"; "yield"; "asyncio"; "threading"; "thread"; "_thread";
   "Thread"; "Timer"; "multiprocessing"; "Process"; "Pool"; "concurrent";
   "futures"; "ThreadPoolExecutor"; "ProcessPoolExecutor"; "subprocess";
   "Popen"; "fork"; "spawn"; "os"; "signal"; "sched"; "queue"; "Queue"].

Definition is_blank (a : ascii) : bool :=
  let n := Ascii.nat_of_ascii a in ((n =? 32) || (n =? 10) || (n =? 9))%nat.

Fixpoint rtrim (s : string) : string :=
  match s with
  | EmptyString => EmptyString
  | String a s' =>
      match rtrim s' with
      | EmptyString => if is_blank a then EmptyString else String a EmptyString
      | r => String a r
      end
  end.

Fixpoint ltrim (s : string) : string :=
  match s with
  | String a s' => if is_blank a then ltrim s' else s
  | EmptyString => EmptyString
  end.

Definition trim (s : string) : string := ltrim (rtrim s).

(** The blank-separated fields of a line. *)
Definition fields (line : string) : list string :=
  List.filter nonempty (runs (λ a, negb (is_blank a)) line).

(** The module a line imports, for [import m ...] and [from m import ...]. *)
Definition imported_module (line : string) : option string :=
  match fields line with
  | kw :: m :: _ =>
      if String.eqb kw "import" || String.eqb kw "from" then Some m else None
  | _ => None
  end.

Definition imports (doc : json) : list string :=
  omap imported_module (concat (code_cells doc)).

(** *** Class definitions *)

Fixpoint indent (s : string) : nat :=
  match s with
  | String a s' => if Ascii.eqb a " "%char then S (indent s') else 0%nat
  | EmptyString => 0%nat
  end.

(** A class statement as the scan sees it: its header line, the headers of
    the methods of its body, and the other statements of its body (none of
    them inside a method). *)
Record class_def := ClassDef {
  header : string;
  methods : list string;
  others : list string
}.

Definition flush (cur : option class_def) : list class_def :=
  match cur with
  | Some c => [c]
  | None => []
  end.

Fixpoint scan_classes (cur : option class_def) (lines : list string) : list class_def :=
  match lines with
  | [] => flush cur
  | l :: ls =>
      let t := trim l in
      if negb (nonempty t) then scan_classes cur ls
      else if (indent l =? 0)%nat then
        if String.prefix "class " t
        then flush cur ++ scan_classes (Some (ClassDef t [] [])) ls
        else flush cur ++ scan_classes None ls
      else
        match cur with
        | None => scan_classes None ls
        | Some c =>
            if (indent l =? 4)%nat then
              if String.prefix "def " t
              then scan_classes (Some (ClassDef (header c) (methods c ++ [t]) (others c))) ls
              else if String.prefix "#" t then scan_classes cur ls
              else scan_classes (Some (ClassDef (header c) (methods c) (others c ++ [t]))) ls
            else scan_classes cur ls
        end
  end.

(** The classes a document defines, cell by cell. *)
Definition classes (doc : json) : list class_def :=
  concat (scan_classes None <$> code_cells doc).

End Notebook.

(** ** Python values, the platform and the execution monad *)

Module Python.

(** The functions that the notebooks write in place. *)
Inductive lambda : Type :=
| InputSine.  (* lambda t: np.sin(16 * t) *)

(** The values the notebooks handle.  An object that belongs to a library or
    to the interpreter is a reference [VRef]; what the notebooks build
    themselves (numbers, strings, tuples, lists, dictionaries, slices, the
    lambda, classes and their instances) is kept by value. *)
#[local] Set Warnings "-register-all".
Inductive value : Type :=
| VNone
| VBool (b : bool)
| VInt (z : Z)
| VFloat (f : float)
| VStr (s : string)
| VRef (h : nat)
| VBuiltin (name : string)
| VTuple (items : list value)
| VList (items : list value)
| VDict (entries : list (value * value))
| VSlice (lo hi step : value)
| VRange (n : Z)
| VLambda (f : lambda)
| VClass (name : string)
| VInst (cls : string) (attrs : list (string * value)).

(** What the notebook asks of its platform: the interpreter's run time and
    the imported libraries.  Each request may answer with a value or raise. *)
Inductive op : Type :=
| Global (x : string)                      (* a name the namespace does not bind *)
| Import (module : string)                 (* import module *)
| ImportFrom (module x : string)           (* from module import x *)
| Magic (line : string)                    (* a line that starts with % *)
| GetAttr (o : value) (a : string)         (* o.a *)
| SetAttr (o : value) (a : string) (v : value)  (* o.a = v *)
| GetItem (o k : value)                    (* o[k] *)
| BinOp (sym : string) (a b : value)       (* a sym b *)
| Iter (o : value)                         (* the items of o, for a loop or a starred argument *)
| Unpack (o : value) (n : nat)             (* the n items of o, for a tuple assignment *)
| Call (f : value) (args : list value) (kwargs : list (string * value))
| Enter (mgr : value)                      (* mgr.__enter__() *)
| Exit (mgr : value) (exc : option value). (* mgr.__exit__(...), with the exception if any *)

Inductive outcome (A : Type) : Type :=
| Return (a : A)
| Raise (e : value).
Arguments Return {A} a.
Arguments Raise {A} e.

(** A platform has a state of its own and answers every request from it. *)
Record platform : Type := Platform {
  world : Type;
  exec : op → world → outcome value * world
}.

(** One request and its answer. *)
Definition event : Type := op * outcome value.

(** *** Equality of keys *)

(** Two floats are the same datum when their IEEE decodings agree. *)
Definition float_same (x y : float) : bool :=
  match FloatOps.Prim2SF x, FloatOps.Prim2SF y with
  | SpecFloat.S754_zero a, SpecFloat.S754_zero b => Bool.eqb a b
  | SpecFloat.S754_infinity a, SpecFloat.S754_infinity b => Bool.eqb a b
  | SpecFloat.S754_nan, SpecFloat.S754_nan => true
  | SpecFloat.S754_finite a m e, SpecFloat.S754_finite b n f =>
      Bool.eqb a b && Pos.eqb m n && Z.eqb e f
  | _, _ => false
  end.

Definition lambda_same (f g : lambda) : bool :=
  match f, g with InputSine, InputSine => true end.

(** A dictionary finds a key that is the same object as the one stored (the
    interpreter tests identity before equality); by value that is structural
    equality, by reference the identity of the reference. *)
Fixpoint same (a b : value) {struct a} : bool :=
  match a, b with
  | VNone, VNone => true
  | VBool x, VBool y => Bool.eqb x y
  | VInt x, VInt y => Z.eqb x y
  | VFloat x, VFloat y => float_same x y
  | VStr x, VStr y => String.eqb x y
  | VRef x, VRef y => Nat.eqb x y
  | VBuiltin x, VBuiltin y => String.eqb x y
  | VTuple xs, VTuple ys | VList xs, VList ys =>
      (fix all2 (xs ys : list value) : bool :=
         match xs, ys with
         | [], [] => true
         | x :: xs', y :: ys' => same x y && all2 xs' ys'
         | _, _ => false
         end) xs ys
  | VDict xs, VDict ys =>
      (fix all2 (xs ys : list (value * value)) : bool :=
         match xs, ys with
         | [], [] => true
         | (k, v) :: xs', (k', v') :: ys' => same k k' && same v v' && all2 xs' ys'
         | _, _ => false
         end) xs ys
  | VSlice a1 a2 a3, VSlice b1 b2 b3 => same a1 b1 && same a2 b2 && same a3 b3
  | VRange x, VRange y => Z.eqb x y
  | VLambda f, VLambda g => lambda_same f g
  | VClass x, VClass y => String.eqb x y
  | VInst c xs, VInst d ys =>
      String.eqb c d &&
      (fix all2 (xs ys : list (string * value)) : bool :=
         match xs, ys with
         | [], [] => true
         | (k, v) :: xs', (k', v') :: ys' => String.eqb k k' && same v v' && all2 xs' ys'
         | _, _ => false
         end) xs ys
  | _, _ => false
  end.

Fixpoint dict_get (k : value) (entries : list (value * value)) : option value :=
  match entries with
  | [] => None
  | (k', v) :: rest => if same k' k then Some v else dict_get k rest
  end.

Fixpoint field_get (a : string) (attrs : list (string * value)) : option value :=
  match attrs with
  | [] => None
  | (a', v) :: rest => if String.eqb a' a then Some v else field_get a rest
  end.

Fixpoint field_set (a : string) (v : value) (attrs : list (string * value))
  : list (string * value) :=
  match attrs with
  | [] => [(a, v)]
  | (a', v') :: rest =>
      if String.eqb a' a then (a, v) :: rest else (a', v') :: field_set a v rest
  end.

(** The truth value the interpreter takes from a value (a reference counts
    as true, the default of an object). *)
Definition truthy (v : value) : bool :=
  match v with
  | VNone => false
  | VBool b => b
  | VInt z => negb (z =? 0)
  | VFloat f => negb (PrimFloat.eqb f 0%float)
  | VStr s => negb (String.eqb s EmptyString)
  | VTuple l | VList l => negb (Nat.eqb (length l) 0)
  | VDict l => negb (Nat.eqb (length l) 0)
  | VRange n => 0 <? n
  | _ => true
  end.

(** [a < b] on two floats or on two integers, as the interpreter compares
    them. *)
Definition less (a b : value) : bool :=
  match a, b with
  | VInt x, VInt y => x <? y
  | VFloat x, VFloat y => PrimFloat.ltb x y
  | _, _ => false
  end.


(** *** The execution monad *)

(** The notebook's kernel: the platform's own state, the requests made so far
    with their answers (latest first), and the global namespace (latest
    binding first). *)
Record state (P : platform) : Type := State {
  st_world : world P;
  st_log : list event;
  st_vars : list (string * value)
}.
Arguments State {P} _ _ _.
Arguments st_world {P} _.
Arguments st_log {P} _.
Arguments st_vars {P} _.

Definition M (P : platform) (A : Type) : Type := state P → outcome A * state P.

Section Monad.
Context {P : platform}.

#[export] Instance M_ret : MRet (M P) := λ A a s, (Return a, s).

#[export] Instance M_bind : MBind (M P) := λ A B k m s,
  match m s with
  | (Return a, s') => k a s'
  | (Raise e, s') => (Raise e, s')
  end.

(** A request to the platform, recorded with its answer. *)
Definition ext (o : op) : M P value := λ s,
  let '(r, w) := exec P o (st_world s) in
  (r, State w ((o, r) :: st_log s) (st_vars s)).

Definition lookup_var (x : string) (s : state P) : option value :=
  field_get x (st_vars s).

Definition store (x : string) (v : value) : M P unit := λ s,
  (Return tt, State (st_world s) (st_log s) ((x, v) :: st_vars s)).

Definition raise {A} (e : value) : M P A := λ s, (Raise e, s).

(** Runs [m] and hands its outcome over as a value: what the interpreter
    does with the body of a [with] statement. *)
Definition attempt {A} (m : M P A) : M P (outcome A) := λ s,
  let '(r, s') := m s in (Return r, s').

(** *** Expressions *)

(** The names the interpreter knows without an import. *)
Definition builtins : list string := ["range"; "print"; "object"].

(** A name: the namespace first, then the builtins; the platform answers for
    any other name (a NameError). *)
Definition name (x : string) : M P value := λ s,
  match lookup_var x s with
  | Some v => (Return v, s)
  | None =>
      if existsb (String.eqb x) builtins then (Return (VBuiltin x), s)
      else ext (Global x) s
  end.

Definition lit (v : value) : M P value := mret v.

Fixpoint sequence (es : list (M P value)) : M P (list value) :=
  match es with
  | [] => mret []
  | e :: es' => v ← e; vs ← sequence es'; mret (v :: vs)
  end.

Fixpoint sequence_kw (es : list (string * M P value)) : M P (list (string * value)) :=
  match es with
  | [] => mret []
  | (k, e) :: es' => v ← e; vs ← sequence_kw es'; mret ((k, v) :: vs)
  end.

Definition tuple_ (es : list (M P value)) : M P value :=
  vs ← sequence es; mret (VTuple vs).
Definition list_ (es : list (M P value)) : M P value :=
  vs ← sequence es; mret (VList vs).

(** [{k: v}] *)
Definition dict1 (k v : M P value) : M P value :=
  kv ← k; vv ← v; mret (VDict [(kv, vv)]).

(** [e.a], where [e] is an object of the platform (a module, a library
    object): the platform answers. *)
Definition attr (e : M P value) (a : string) : M P value := o ← e; ext (GetAttr o a).

(** [self.a] inside a method of a notebook class: an attribute that the
    instance has is read from the instance, any other is the platform's (an
    AttributeError). *)
Definition self_attr (self : value) (a : string) : M P value :=
  match self with
  | VInst _ attrs =>
      match field_get a attrs with
      | Some v => mret v
      | None => ext (GetAttr self a)
      end
  | _ => ext (GetAttr self a)
  end.

(** [e[k]], where [e] is an object of the platform (an array, a
    configuration): the platform answers. *)
Definition subscript (e k : M P value) : M P value :=
  o ← e; kv ← k; ext (GetItem o kv).

(** [o[k]] on data of the notebook: a dictionary, tuple or list answers
    itself when it holds the key or index; anything else is the platform's
    (a KeyError, an IndexError). *)
Definition index (o k : value) : M P value :=
  match o, k with
  | VDict entries, _ =>
      match dict_get k entries with
      | Some v => mret v
      | None => ext (GetItem o k)
      end
  | VTuple items, VInt i | VList items, VInt i =>
      let j := if i <? 0 then i + Z.of_nat (length items) else i in
      if j <? 0 then ext (GetItem o k)
      else match items !! Z.to_nat j with
           | Some v => mret v
           | None => ext (GetItem o k)
           end
  | _, _ => ext (GetItem o k)
  end.

Definition item (e k : M P value) : M P value := o ← e; kv ← k; index o kv.

(** [a + b] and [a * b] on integers are exact; other operands are the
    platform's. *)
Definition binop (sym : string) (ea eb : M P value) : M P value :=
  a ← ea; b ← eb;
  match a, b with
  | VInt x, VInt y =>
      if String.eqb sym "+" then mret (VInt (x + y))
      else if String.eqb sym "*" then mret (VInt (x * y))
      else ext (BinOp sym a b)
  | _, _ => ext (BinOp sym a b)
  end.

(** [f(args, kwargs)], where [f] is an object of the platform: the callee,
    then the arguments left to right, then the platform answers. *)
Definition call (f : M P value) (args : list (M P value))
    (kwargs : list (string * M P value)) : M P value :=
  fv ← f; avs ← sequence args; kvs ← sequence_kw kwargs; ext (Call fv avs kvs).

(** Calling a class of the notebook or a builtin: a notebook class without
    constructor arguments makes an instance without attributes, [range(n)] is
    the range; any other call is the platform's. *)
Definition call_value (f : value) (args : list value) (kwargs : list (string * value))
  : M P value :=
  match f, args, kwargs with
  | VClass c, [], [] => mret (VInst c [])
  | VBuiltin b, [VInt n], [] =>
      if String.eqb b "range" then mret (VRange n) else ext (Call f args kwargs)
  | _, _, _ => ext (Call f args kwargs)
  end.

Definition invoke (f : M P value) (args : list (M P value))
    (kwargs : list (string * M P value)) : M P value :=
  fv ← f; avs ← sequence args; kvs ← sequence_kw kwargs; call_value fv avs kvs.

(** The items of an iterable. *)
Definition items_of (v : value) : M P (list value) :=
  match v with
  | VTuple l | VList l => mret l
  | VRange n => mret (VInt <$> seqZ 0 n)
  | _ =>
      r ← ext (Iter v);
      mret (match r with VTuple l | VList l => l | _ => [] end)
  end.

(** [f( *e )] *)
Definition call_star (f e : M P value) : M P value :=
  fv ← f; v ← e; avs ← items_of v; ext (Call fv avs []).

(** *** Statements *)

(** [x = e] *)
Definition assign (x : string) (e : M P value) : M P unit := v ← e; store x v.

(** An expression statement. *)
Definition expr (e : M P value) : M P unit := e;; mret tt.

(** [o.a = e]: the right-hand side, then the target object, then the
    platform stores the attribute. *)
Definition setattr_ (o : M P value) (a : string) (e : M P value) : M P unit :=
  v ← e; ov ← o; ext (SetAttr ov a v);; mret tt.

(** [x, y = e]: a pair is taken apart as it is; for any other value the
    platform hands over the two items (or raises), and an answer that is no
    pair binds nothing. *)
Definition assign2 (x y : string) (e : M P value) : M P unit :=
  v ← e;
  match v with
  | VTuple [a; b] | VList [a; b] => store x a;; store y b
  | _ =>
      r ← ext (Unpack v 2);
      match r with
      | VTuple [a; b] | VList [a; b] => store x a;; store y b
      | _ => mret tt
      end
  end.

(** [x.append(e)] for a global [x]: a notebook list grows in place by one
    item; on any other object the call is the platform's. *)
Definition append_ (x : string) (e : M P value) : M P unit :=
  l ← name x;
  match l with
  | VList items => v ← e; store x (VList (items ++ [v]))
  | _ => f ← ext (GetAttr l "append"); v ← e; ext (Call f [v] []);; mret tt
  end.

Definition import_as (module x : string) : M P unit :=
  v ← ext (Import module); store x v.

Definition from_import (module x : string) : M P unit :=
  v ← ext (ImportFrom module x); store x v.

Definition magic (line : string) : M P unit := ext (Magic line);; mret tt.

(** [class c(bases): ...] with a body of method definitions only. *)
Definition class_ (c : string) (bases : list (M P value)) : M P unit :=
  sequence bases;; store c (VClass c).

Fixpoint each (x : string) (items : list value) (body : M P unit) : M P unit :=
  match items with
  | [] => mret tt
  | v :: rest => store x v;; body;; each x rest body
  end.

(** [for x in e: body] *)
Definition for_ (x : string) (e : M P value) (body : M P unit) : M P unit :=
  v ← e; items ← items_of v; each x items body.

(** [with e as target: body], as the language defines it: enter the context
    manager, bind the target, run the body, and leave; when the body raises,
    [__exit__] receives the exception, which goes on unless [__exit__]
    answers true (or raises itself). *)
Definition with_ (e : M P value) (target : option string) (body : M P unit) : M P unit :=
  mgr ← e;
  v ← ext (Enter mgr);
  match target with Some x => store x v | None => mret tt end;;
  r ← attempt body;
  match r with
  | Return _ => ext (Exit mgr None);; mret tt
  | Raise x =>
      a ← ext (Exit mgr (Some x));
      if truthy a then mret tt else raise x
  end.

End Monad.

End Python.
Import Python.

#[local] Set Warnings "-inexact-float".

(** ** The notebook "Representing a scalar" *)

Module Scalars.
Section Cells.
Context {P : platform}.

(** [lambda t: np.sin(16 * t)], as the platform calls it back. *)
Definition input_sine (t : value) : M P value :=
  call (attr (name "np") "sin") [binop "*" (lit (VInt 16)) (lit t)] [].

Definition cell_setup : M P unit :=
  import_as "numpy" "np";;
  import_as "matplotlib.pyplot" "plt";;
  magic "%matplotlib inline";;
  import_as "nengo" "nengo";;
  from_import "nengo.dists" "Uniform";;
  from_import "nengo.utils.matplotlib" "rasterplot";;
  from_import "nengo.utils.ensemble" "tuning_curves".

Definition cell_model : M P unit :=
  assign "model"
    (call (attr (name "nengo") "Network") [] [("label", lit (VStr "Many Neurons"))]);;
  with_ (name "model") None
    (assign "input" (call (attr (name "nengo") "Node") [lit (VLambda InputSine)] []);;
     assign "x"
       (call (attr (name "nengo") "Ensemble") [lit (VInt 100)]
          [("dimensions", lit (VInt 1));
           ("max_rates", call (name "Uniform") [lit (VInt 100); lit (VInt 200)] [])]);;
     expr (call (attr (name "nengo") "Connection") [name "input"; name "x"] [])).

Definition cell_viz : M P unit :=
  from_import "nengo_gui.ipython" "IPythonViz";;
  expr (call (name "IPythonViz") [name "model"; lit (VStr "ch2-scalars.py.cfg")] []).

Definition cell_image : M P unit :=
  from_import "IPython.display" "Image";;
  expr (call (name "Image") [] [("filename", lit (VStr "ch2-scalars.png"))]).

Definition cell_run : M P unit :=
  with_ (call (attr (name "nengo") "Simulator") [name "model"] []) (Some "sim")
    (expr (call (attr (name "sim") "run") [lit (VInt 1)] [])).

Definition plot_tuning_curves : M P unit :=
  expr (call_star (attr (name "plt") "plot")
          (call (name "tuning_curves") [name "x"; name "sim"] [])).

Definition label_axes : M P unit :=
  expr (call (attr (name "plt") "ylabel") [lit (VStr "Firing rate (Hz)")] []);;
  expr (call (attr (name "plt") "xlabel") [lit (VStr "Input scalar, x")] []).

Definition cell_tuning : M P unit :=
  expr (call (attr (name "plt") "figure") [] []);;
  plot_tuning_curves;;
  label_axes.

Definition cell_intercepts : M P unit :=
  from_import "nengo.dists" "Choice";;
  setattr_ (name "x") "intercepts"
    (call (name "Choice") [list_ [lit (VFloat (-0.2))]] []);;
  with_ (call (attr (name "nengo") "Simulator") [name "model"] []) (Some "sim")
    plot_tuning_curves;;
  label_axes.

Definition cell_encoders : M P unit :=
  setattr_ (name "x") "encoders"
    (call (name "Choice") [list_ [list_ [lit (VInt 1)]]] []);;
  with_ (call (attr (name "nengo") "Simulator") [name "model"] []) (Some "sim")
    plot_tuning_curves;;
  plot_tuning_curves;;
  label_axes.

(** The code cells in document order. *)
Definition code : list (M P unit) :=
  [cell_setup; cell_model; cell_viz; cell_image; cell_run; cell_tuning;
   cell_intercepts; cell_encoders].

End Cells.
End Scalars.

(** ** The notebook "Training an Autoencoder With TensorNodes" *)

Module Autoencoder.

(** [self.a = v] inside a method: on a notebook instance the attribute is set
    on the instance, which the function hands back. *)
Definition set_self {P : platform} (self : value) (a : string) (v : value) : M P value :=
  match self with
  | VInst c attrs => mret (VInst c (field_set a v attrs))
  | _ => ext (SetAttr self a v);; mret self
  end.

Module Encoder.
Section Methods.
Context {P : platform}.

(** Returns [self] as the method leaves it. *)
Definition pre_build (self shape_in shape_out : value) : M P value :=
  v ← index shape_in (VInt 0); self ← set_self self "n_mini" v;
  v ← index shape_in (VInt 1); self ← set_self self "size_in" v;
  v ← index shape_out (VInt 1); self ← set_self self "size_out" v;
  mret self.

Definition __call__ (self t x : value) : M P value :=
  dense ← call (attr (attr (attr (name "tf") "contrib") "layers") "fully_connected")
            [lit x; name "n_hidden_1"] [];
  dense ← call (attr (attr (attr (name "tf") "contrib") "layers") "fully_connected")
            [lit dense; name "n_hidden_2"] [];
  mret dense.

End Methods.
End Encoder.

Module Decoder.
Section Methods.
Context {P : platform}.

Definition pre_build (self shape_in shape_out : value) : M P value :=
  v ← index shape_in (VInt 0); self ← set_self self "n_mini" v;
  v ← index shape_in (VInt 1); self ← set_self self "size_in" v;
  v ← index shape_out (VInt 1); self ← set_self self "size_out" v;
  mret self.

Definition __call__ (self t x : value) : M P value :=
  dense ← call (attr (attr (attr (name "tf") "contrib") "layers") "fully_connected")
            [lit x; name "n_hidden_1"] [];
  dense ← call (attr (attr (attr (name "tf") "contrib") "layers") "fully_connected")
            [lit dense; self_attr self "size_out"] [];
  mret dense.

End Methods.
End Decoder.

Section Cells.
Context {P : platform}.

Definition cell_setup : M P unit :=
  magic "%matplotlib inline";;
  import_as "nengo" "nengo";;
  import_as "nengo_dl" "nengo_dl";;
  import_as "numpy" "np";;
  import_as "tensorflow" "tf";;
  import_as "matplotlib.pyplot" "plt".

Definition cell_mnist : M P unit :=
  from_import "tensorflow.examples.tutorials.mnist" "input_data";;
  assign "mnist"
    (call (attr (name "input_data") "read_data_sets") [lit (VStr "MNIST_data")]
       [("one_hot", lit (VBool true))]).

Definition cell_parameters : M P unit :=
  assign "n_hidden_1" (lit (VInt 128));;
  assign "n_hidden_2" (lit (VInt 36));;
  assign "n_input" (lit (VInt 784)).

(** [net.config[nengo.c].a = e] *)
Definition configure (c a : string) (e : M P value) : M P unit :=
  setattr_ (subscript (attr (name "net") "config") (attr (name "nengo") c)) a e.

Definition cell_network : M P unit :=
  class_ "Encoder" [name "object"];;
  class_ "Decoder" [name "object"];;
  with_ (call (attr (name "nengo") "Network") [] []) (Some "net")
    (configure "Connection" "synapse" (lit VNone);;
     configure "Ensemble" "neuron_type" (call (attr (name "nengo") "RectifiedLinear") [] []);;
     configure "Ensemble" "gain"
       (call (attr (attr (name "nengo") "dists") "Choice") [list_ [lit (VInt 1)]] []);;
     configure "Ensemble" "bias"
       (call (attr (attr (name "nengo") "dists") "Choice") [list_ [lit (VInt 0)]] []);;
     assign "inp"
       (call (attr (name "nengo") "Node")
          [call (attr (attr (name "nengo") "processes") "PresentInput")
             [attr (attr (name "mnist") "test") "images"; lit (VFloat 0.001)] []] []);;
     assign "tf_encode"
       (call (attr (name "nengo_dl") "TensorNode") [invoke (name "Encoder") [] []]
          [("size_in", name "n_input"); ("size_out", name "n_hidden_2");
           ("label", lit (VStr "H1"))]);;
     assign "tf_decode"
       (call (attr (name "nengo_dl") "TensorNode") [invoke (name "Decoder") [] []]
          [("size_in", name "n_hidden_2"); ("size_out", name "n_input");
           ("label", lit (VStr "H2"))]);;
     expr (call (attr (name "nengo") "Connection") [name "inp"; name "tf_encode"] []);;
     expr (call (attr (name "nengo") "Connection") [name "tf_encode"; name "tf_decode"] []);;
     assign "input_probe" (call (attr (name "nengo") "Probe") [name "inp"] []);;
     assign "encode_probe" (call (attr (name "nengo") "Probe") [name "tf_encode"] []);;
     assign "decode_probe" (call (attr (name "nengo") "Probe") [name "tf_decode"] [])).

(** [:] and [:hi] *)
Definition whole : value := VSlice VNone VNone VNone.
Definition upto (hi : M P value) : M P value := h ← hi; mret (VSlice VNone h VNone).

(** [mnist.part.images[:, None, :]] *)
Definition images (part : string) : M P value :=
  subscript (attr (attr (name "mnist") part) "images") (lit (VTuple [whole; VNone; whole])).

Definition cell_data : M P unit :=
  assign "train_inputs" (dict1 (name "inp") (images "train"));;
  assign "train_targets"
    (dict1 (name "decode_probe") (item (name "train_inputs") (name "inp")));;
  assign "test_inputs" (dict1 (name "inp") (images "test"));;
  assign "test_targets"
    (dict1 (name "decode_probe") (item (name "test_inputs") (name "inp"))).

(** [sim.step(input_feeds={inp: test_inputs[inp][:n_examples]})] *)
Definition step_test_batch : M P unit :=
  expr (call (attr (name "sim") "step") []
          [("input_feeds",
            dict1 (name "inp")
              (subscript (item (name "test_inputs") (name "inp"))
                 (upto (name "n_examples"))))]).

(** One repetition of the training loop. *)
Definition repetition : M P unit :=
  append_ "losses"
    (call (attr (name "sim") "loss")
       [name "test_inputs"; name "test_targets"; lit (VStr "mse")] []);;
  expr (invoke (name "print") [name "losses"] []);;
  step_test_batch;;
  expr (call (attr (name "sim") "train")
          [name "train_inputs"; name "train_targets"; name "optimizer"] []).

Definition cell_train : M P unit :=
  assign "n_examples" (lit (VInt 100));;
  assign "losses" (list_ []);;
  assign "learning_rate" (lit (VFloat 0.05));;
  assign "repetitions" (lit (VInt 5));;
  with_ (call (attr (name "nengo_dl") "Simulator") [name "net"]
           [("minibatch_size", name "n_examples"); ("device", lit (VStr "/cpu:0"))])
    (Some "sim")
    (assign "optimizer"
       (call (attr (attr (name "tf") "train") "MomentumOptimizer")
          [name "learning_rate"; lit (VFloat 0.9)] []);;
     for_ "e" (invoke (name "range") [name "repetitions"] []) repetition;;
     step_test_batch).

(** [axis[row][i].imshow(np.reshape(sim.data[probe][0, i], (h, w)))] *)
Definition show (row : Z) (probe : string) (h w : Z) : M P unit :=
  expr (call
          (attr (subscript (subscript (name "axis") (lit (VInt row))) (name "i")) "imshow")
          [call (attr (name "np") "reshape")
             [subscript (subscript (attr (name "sim") "data") (name probe))
                (tuple_ [lit (VInt 0); name "i"]);
              lit (VTuple [VInt h; VInt w])] []] []).

Definition cell_plot : M P unit :=
  assign2 "figure" "axis"
    (call (attr (name "plt") "subplots")
       [lit (VInt 3); binop "+" (name "repetitions") (lit (VInt 1))]
       [("figsize", lit (VTuple [VInt 10; VInt 5]))]);;
  for_ "i" (invoke (name "range") [binop "+" (name "repetitions") (lit (VInt 1))] [])
    (show 0 "input_probe" 28 28;;
     show 1 "encode_probe" 6 6;;
     show 2 "decode_probe" 28 28).

Definition cell_empty : M P unit := mret tt.

(** The code cells in document order. *)
Definition code : list (M P unit) :=
  [cell_setup; cell_mnist; cell_parameters; cell_network; cell_data; cell_train;
   cell_plot; cell_empty].

(** The cells up to and including the training cell. *)
Definition through_training : list (M P unit) :=
  [cell_setup; cell_mnist; cell_parameters; cell_network; cell_data; cell_train].

(** How the training framework uses the block of a TensorNode declared with
    [size_in] and [size_out] on minibatches of [n_mini] items: it calls
    [pre_build] with the shapes [(n_mini, size_in)] and [(n_mini, size_out)],
    then calls the block on the time and the input tensor. *)
Definition drive (pre_build call_ : value → value → value → M P value)
    (block n_mini size_in size_out t x : value) : M P value :=
  self ← pre_build block (VTuple [n_mini; size_in]) (VTuple [n_mini; size_out]);
  call_ self t x.

End Cells.

(** *** What a run of the training cell looks like *)

(** The objects the training cell works with. *)
Record training : Type := Training {
  simulator : value;        (* nengo_dl.Simulator *)
  manager : value;          (* nengo_dl.Simulator(net, ...) *)
  sim : value;
  momentum : value * value; (* tf.train, tf.train.MomentumOptimizer *)
  optimizer : value;
  inp : value;
  test_inputs : value;
  test_targets : value;
  train_inputs : value;
  train_targets : value;
  test_images : value       (* test_inputs[inp] *)
}.

(** The answers of the platform in one repetition. *)
Record pass : Type := Pass {
  loss_method : value;
  loss : value;
  printed : value;
  step_method : value;
  batch : value;
  stepped : value;
  train_method : value;
  trained : value
}.

Definition step_events (c : training) (step_method batch stepped : value) : list event :=
  [(GetAttr (sim c) "step", Return step_method);
   (GetItem (test_images c) (VSlice VNone (VInt 100) VNone), Return batch);
   (Call step_method [] [("input_feeds", VDict [(inp c, batch)])], Return stepped)].

(** The requests of one repetition, after the losses [before]. *)
Definition pass_events (c : training) (before : list value) (p : pass) : list event :=
  [(GetAttr (sim c) "loss", Return (loss_method p));
   (Call (loss_method p) [test_inputs c; test_targets c; VStr "mse"] [], Return (loss p));
   (Call (VBuiltin "print") [VList (before ++ [loss p])] [], Return (printed p))] ++
  step_events c (step_method p) (batch p) (stepped p) ++
  [(GetAttr (sim c) "train", Return (train_method p));
   (Call (train_method p) [train_inputs c; train_targets c; optimizer c] [],
    Return (trained p))].

Fixpoint passes_events (c : training) (before : list value) (ps : list pass) : list event :=
  match ps with
  | [] => []
  | p :: ps' => pass_events c before p ++ passes_events c (before ++ [loss p]) ps'
  end.

(** The requests of the whole cell: the simulator and the optimizer are
    made, the repetitions follow, and a last step precedes the exit. *)
Definition train_events (nengo_dl net tf : value) (c : training) (ps : list pass)
    (last : value * value * value) (left : value) : list event :=
  [(GetAttr nengo_dl "Simulator", Return (simulator c));
   (Call (simulator c) [net] [("minibatch_size", VInt 100); ("device", VStr "/cpu:0")],
    Return (manager c));
   (Enter (manager c), Return (sim c));
   (GetAttr tf "train", Return (momentum c).1);
   (GetAttr (momentum c).1 "MomentumOptimizer", Return (momentum c).2);
   (Call (momentum c).2 [VFloat 0.05; VFloat 0.9] [], Return (optimizer c))] ++
  passes_events c [] ps ++
  step_events c last.1.1 last.1.2 last.2 ++
  [(Exit (manager c) None, Return left)].

(** The bindings one repetition makes: the loop variable, then the list. *)
Fixpoint passes_vars (before : list value) (e : Z) (ps : list pass) : list (string * value) :=
  match ps with
  | [] => []
  | p :: ps' =>
      passes_vars (before ++ [loss p]) (e + 1) ps' ++
      [("losses", VList (before ++ [loss p])); ("e", VInt e)]
  end.

(** The bindings of the whole cell, latest first. *)
Definition train_vars (c : training) (ps : list pass) : list (string * value) :=
  passes_vars [] 0 ps ++
  [("optimizer", optimizer c); ("sim", sim c); ("repetitions", VInt 5);
   ("learning_rate", VFloat 0.05); ("losses", VList []); ("n_examples", VInt 100)].

End Autoencoder.

(** ** Running cells *)

Module Kernel.
Section Run.
Context {P : platform}.

(** A fresh kernel on a platform in state [w]. *)
Definition fresh (w : world P) : state P := State w [] [].

(** Runs cells in order and stops at the first one that raises (Run All). *)
Fixpoint run_all (cells : list (M P unit)) : M P unit :=
  match cells with
  | [] => mret tt
  | c :: rest => c;; run_all rest
  end.

(** The requests of a run in the order they were made. *)
Definition trace (s : state P) : list event := rev (st_log s).

(** The requests that [s'] has beyond [s], in the order they were made. *)
Definition since (s s' : state P) : list event :=
  rev (take (length (st_log s') - length (st_log s)) (st_log s')).

(** The values that [x] was bound to, oldest first. *)
Definition history (x : string) (s : state P) : list value :=
  rev (omap (λ b : string * value, if String.eqb b.1 x then Some b.2 else None)
         (st_vars s)).

End Run.

Definition answered (ev : event) : bool :=
  match ev.2 with
  | Return _ => true
  | Raise _ => false
  end.

(** No request raised. *)
Definition quiet (evs : list event) : Prop := forallb answered evs = true.

(** The calls made right after fetching the attribute [a] (as in
    [sim.loss(...)]): their positional and keyword arguments. *)
Fixpoint calls_of (a : string) (evs : list event)
  : list (list value * list (string * value)) :=
  match evs with
  | [] => []
  | (GetAttr _ a', _) :: (((Call _ args kwargs, _) :: _) as rest) =>
      if String.eqb a' a then (args, kwargs) :: calls_of a rest else calls_of a rest
  | _ :: rest => calls_of a rest
  end.

(** The values these calls answered. *)
Fixpoint answers_of (a : string) (evs : list event) : list value :=
  match evs with
  | [] => []
  | (GetAttr _ a', _) :: (((Call _ _ _, Return v) :: _) as rest) =>
      if String.eqb a' a then v :: answers_of a rest else answers_of a rest
  | _ :: rest => answers_of a rest
  end.

(** The methods among [names] that were called (fetched and called at
    once), in order. *)
Fixpoint methods_called (names : list string) (evs : list event) : list string :=
  match evs with
  | [] => []
  | (GetAttr _ a, _) :: (((Call _ _ _, _) :: _) as rest) =>
      if existsb (String.eqb a) names then a :: methods_called names rest
      else methods_called names rest
  | _ :: rest => methods_called names rest
  end.

(** Requests that build or run a simulator. *)
Definition simulates (o : op) : bool :=
  match o with
  | GetAttr _ a => existsb (String.eqb a) ["Simulator"; "run"; "run_steps"; "step"]
  | _ => false
  end.

(** [l] falls strictly from each item to the next. *)
Fixpoint strictly_decreasing (l : list value) : bool :=
  match l with
  | a :: ((b :: _) as rest) => less b a && strictly_decreasing rest
  | _ => true
  end.

End Kernel.


(** ** Statements about programs *)

Module Logic.
Section Logic.
Context {P : platform}.

(** A context manager of the platform stepped in: its [__exit__], called
    with an exception, answered true or raised. *)
Definition intervened (ev : event) : Prop :=
  ∃ mgr x r, ev = (Exit mgr (Some x), r) ∧
    match r with
    | Raise _ => True
    | Return a => truthy a = true
    end.

(** [m] neither makes nor keeps an exception: the requests of a run extend the
    log; an exception that [m] ends with was raised, as it is, by one of the
    requests; and an exception raised by a request is what [m] ends with,
    unless a context manager of the platform stepped in. *)
Definition transparent {A} (m : M P A) : Prop :=
  ∀ s, ∃ new,
    st_log (m s).2 = new ++ st_log s ∧
    (∀ e, (m s).1 = Raise e → ∃ o, (o, Raise e) ∈ new) ∧
    (∀ o e, (o, Raise e) ∈ new → (m s).1 = Raise e ∨ Exists intervened new).

(** [Q] holds of the outcome and the final state of [m] run from [s]. *)
Definition wp {A} (m : M P A) (Q : outcome A → state P → Prop) (s : state P) : Prop :=
  Q (m s).1 (m s).2.

(** The plug-in layers have the width they are asked for: a call of what the
    attribute [fully_connected] answered, on a tensor and a number of
    outputs, answers a tensor of that width. *)
Definition dense_layers (width : world P → value → option Z) : Prop :=
  ∀ layers w0 fc w1, exec P (GetAttr layers "fully_connected") w0 = (Return fc, w1) →
  ∀ x n w y w', exec P (Call fc [x; VInt n] []) w = (Return y, w') →
  width w' y = Some n.

End Logic.
End Logic.

(** ** A small platform to run the notebooks on *)

Module Toy.

(** The platform answers every import, attribute and call with a value that
    names what was asked: a module or attribute is its name, a bound method
    is the pair of its object and name.  Its state counts the objects it has
    made and the training passes it has run; [loss k] is the loss it reports
    after [k] passes. *)
Definition method_name (f : value) : string :=
  match f with
  | VTuple [_; VStr a] => a
  | VStr a => a
  | VBuiltin a => a
  | _ => EmptyString
  end.

Definition exec (loss : nat → float) (o : op) (w : nat * nat) : outcome value * (nat * nat) :=
  let '(n, k) := w in
  match o with
  | Global x => (Raise (VStr "NameError"), w)
  | Import m => (Return (VStr m), w)
  | ImportFrom m x => (Return (VStr x), w)
  | Magic _ => (Return VNone, w)
  | GetAttr o a => (Return (VTuple [o; VStr a]), w)
  | SetAttr _ _ _ => (Return VNone, w)
  | GetItem _ _ => (Return (VRef n), (S n, k))
  | BinOp _ _ _ => (Raise (VStr "TypeError"), w)
  | Iter _ => (Raise (VStr "TypeError"), w)
  | Unpack _ _ => (Raise (VStr "ValueError"), w)
  | Call f args _ =>
      let m := method_name f in
      if String.eqb m "loss" then (Return (VFloat (loss k)), w)
      else if String.eqb m "train" then (Return VNone, (n, S k))
      else if String.eqb m "fully_connected" then
        match args with
        | [_; VInt width] => (Return (VTuple [VStr "Tensor"; VInt width]), w)
        | _ => (Raise (VStr "TypeError"), w)
        end
      else if String.eqb m "subplots" || String.eqb m "tuning_curves" then
        (Return (VTuple [VRef n; VRef (S n)]), (S (S n), k))
      else if String.eqb m "print" then (Return VNone, w)
      else (Return (VRef n), (S n, k))
  | Enter mgr => (Return mgr, w)
  | Exit _ _ => (Return VNone, w)
  end.

Definition platform (loss : nat → float) : platform := Platform (nat * nat) (exec loss).

(** The width of the tensors this platform makes. *)
Definition width (w : nat * nat) (v : value) : option Z :=
  match v with
  | VTuple [VStr tag; VInt n] => if String.eqb tag "Tensor" then Some n else None
  | _ => None
  end.

(** Training halves the loss with every pass, or leaves it where it is. *)
Fixpoint halving (k : nat) : float :=
  match k with
  | O => 1%float
  | S k' => (halving k' / 2)%float
  end.

Definition stuck (k : nat) : float := 1%float.

(** The state in which a fresh kernel ends after the cells [cells]. *)
Definition after (loss : nat → float) (cells : list (M (platform loss) unit))
  : state (platform loss) :=
  (Kernel.run_all cells (Kernel.fresh (P := platform loss) (0, 0)%nat)).2.

End Toy.
(** * More of the notebooks *)

(** ** Checks on the stored documents *)

Module Lint.
Import Notebook.

(** A code cell as it is stored before any run: no execution count and no
    outputs. *)
Definition unexecuted (c : json) : bool :=
  match jget "execution_count" c, jget "outputs" c with
  | Some JNull, Some (JArr []) => true
  | _, _ => false
  end.

Definition is_quote (a : ascii) : bool :=
  let n := Ascii.nat_of_ascii a in ((n =? 34) || (n =? 39))%nat.

(** The code of a line: the text up to its comment, with a blank in place of
    every string literal; [quote] is the quote character of the literal that
    is open. *)
Fixpoint code_part (quote : option ascii) (s : string) : string :=
  match s with
  | EmptyString => EmptyString
  | String a s' =>
      match quote with
      | Some q => if Ascii.eqb a q then String " " (code_part None s') else code_part quote s'
      | None =>
          if Ascii.eqb a "#" then EmptyString
          else if is_quote a then code_part (Some a) s'
          else String a (code_part None s')
      end
  end.

(** The part of a dotted name before its first dot. *)
Definition first_component (m : string) : string :=
  hd EmptyString (runs (λ a, negb (Ascii.eqb a ".")) m).

(** The name that an import line binds: [import m] binds the first component
    of [m]; [import m as x] and [from m import x] bind [x]. *)
Definition imported_name (line : string) : option string :=
  match fields (code_part None line) with
  | [kw; m] => if String.eqb kw "import" then Some (first_component m) else None
  | [kw; m; link; x] =>
      if String.eqb kw "import" && String.eqb link "as" then Some x
      else if String.eqb kw "from" && String.eqb link "import" then Some x
      else None
  | _ => None
  end.

Definition is_import (line : string) : bool :=
  match imported_name line with
  | Some _ => true
  | None => false
  end.

(** The names an import binds, over all code cells. *)
Definition imported_names (doc : json) : list string :=
  omap imported_name (concat (code_cells doc)).

(** The words of the code outside the import lines, comments and string
    literals left out. *)
Definition code_words (doc : json) : list string :=
  concat (words <$> (code_part None <$>
                     List.filter (λ l, negb (is_import l)) (concat (code_cells doc)))).

(** The imported names that the code never mentions again. *)
Definition unused_imports (doc : json) : list string :=
  List.filter (λ x, negb (existsb (String.eqb x) (code_words doc))) (imported_names doc).

End Lint.

(** ** What a run shows *)

Module Observe.

(** The context managers that are open after the requests [evs], innermost
    first, when [open] were open before them; [None] when a manager is left
    that is not the innermost open one. *)
Fixpoint contexts (evs : list event) (open : list value) : option (list value) :=
  match evs with
  | [] => Some open
  | (Enter mgr, Return _) :: rest => contexts rest (mgr :: open)
  | (Exit mgr _, _) :: rest =>
      match open with
      | m :: open' => if same m mgr then contexts rest open' else None
      | [] => None
      end
  | _ :: rest => contexts rest open
  end.

(** A request that is no part of a [with] statement. *)
Definition plain (o : op) : bool :=
  match o with
  | Enter _ | Exit _ _ => false
  | _ => true
  end.

(** The keys of the subscript requests [o[k]], in order. *)
Definition item_keys (evs : list event) : list value :=
  omap (λ ev : event, match ev.1 with GetItem _ k => Some k | _ => None end) evs.

(** The attributes that were set on objects of the platform, with their
    values, in order. *)
Definition settings (evs : list event) : list (string * value) :=
  omap (λ ev : event, match ev.1 with SetAttr _ a v => Some (a, v) | _ => None end) evs.

(** The subscript requests that were answered: object, key and answer. *)
Definition sliced (evs : list event) : list (value * value * value) :=
  omap (λ ev : event,
          match ev with
          | (GetItem o k, Return v) => Some (o, k, v)
          | _ => None
          end) evs.

(** The dictionaries handed over as [input_feeds=...]. *)
Definition input_feeds (evs : list event) : list value :=
  omap (λ ev : event,
          match ev.1 with
          | Call _ [] [(k, d)] => if String.eqb k "input_feeds" then Some d else None
          | _ => None
          end) evs.

(** For every time the method [step] is asked for, the number of calls of
    a method [train] before it, counted from [k]. *)
Fixpoint trained_before_steps (k : nat) (evs : list event) : list nat :=
  match evs with
  | [] => []
  | (GetAttr _ a, _) :: rest =>
      if String.eqb a "step" then k :: trained_before_steps k rest
      else
        match rest with
        | (Call _ _ _, _) :: _ =>
            if String.eqb a "train" then trained_before_steps (S k) rest
            else trained_before_steps k rest
        | _ => trained_before_steps k rest
        end
  | _ :: rest => trained_before_steps k rest
  end.

(** The items of a value that the notebook holds itself. *)
Definition own_items (v : value) : option (list value) :=
  match v with
  | VTuple l | VList l => Some l
  | VRange n => Some (VInt <$> seqZ 0 n)
  | _ => None
  end.

(** What [f( *v )] does with [v]: the requests [asked] and the arguments
    [args] of the call.  A value of the notebook is taken apart as it is; for
    any other value the platform is asked for the items. *)
Definition starred (v : value) (asked : list event) (args : list value) : Prop :=
  match own_items v with
  | Some l => asked = [] ∧ args = l
  | None =>
      ∃ items, asked = [(Iter v, Return items)] ∧
               args = match items with VTuple l | VList l => l | _ => [] end
  end.

(** The objects that were asked for their attribute [a], in order. *)
Definition asked_of (a : string) (evs : list event) : list value :=
  omap (λ ev : event,
          match ev.1 with
          | GetAttr o a' => if String.eqb a' a then Some o else None
          | _ => None
          end) evs.

(** The pairs of integers that were handed over as the second of two
    arguments, as in [np.reshape(array, (h, w))]. *)
Definition reshaped (evs : list event) : list (Z * Z) :=
  omap (λ ev : event,
          match ev.1 with
          | Call _ [_; VTuple [VInt h; VInt w]] [] => Some (h, w)
          | _ => None
          end) evs.

(** The subscripts of column [i] of the figure: for each of the three rows,
    the row of the grid, the column in it, the probe in the recorded data and
    the position [0, i] in the recording. *)
Definition column_keys (input_probe encode_probe decode_probe : value) (i : Z)
  : list value :=
  [VInt 0; VInt i; input_probe; VTuple [VInt 0; VInt i];
   VInt 1; VInt i; encode_probe; VTuple [VInt 0; VInt i];
   VInt 2; VInt i; decode_probe; VTuple [VInt 0; VInt i]].

Section Programs.
Context {P : platform}.

(** [m] leaves the context managers as it finds them: the requests of every
    run enter and leave in pairs, innermost first. *)
Definition bracketed {A} (m : M P A) : Prop :=
  ∀ s, ∃ new,
    st_log (m s).2 = new ++ st_log s ∧
    ∀ open, contexts (rev new) open = Some open.

End Programs.

End Observe.

(** ** Names and where they are bound *)

Module Names.

(** The [__exit__] of a context manager, called with an exception, answered
    true: the exception stops there and the statements after the [with]
    block run although the block did not finish. *)
Definition swallowed (ev : event) : bool :=
  match ev with
  | (Exit _ (Some _), Return a) => truthy a
  | _ => false
  end.

(** A request for a name that the namespace does not bind and that is no
    builtin: the interpreter's NameError. *)
Definition asks_global (ev : event) : bool :=
  match ev.1 with
  | Global _ => true
  | _ => false
  end.

(** The targets of [with ... as target]. *)
Definition targets (target : option string) : list string :=
  match target with
  | Some x => [x]
  | None => []
  end.

(** The interpreter's contract for [x, y = e]: taking a value apart into two
    items gives two items or raises. *)
Definition unpacks_pairs (P : platform) : Prop :=
  ∀ o w r w', exec P (Unpack o 2) w = (Return r, w') →
  ∃ a b, r = VTuple [a; b] ∨ r = VList [a; b].

(** The interpreter's contract for a name that is neither bound nor a
    builtin: a NameError. *)
Definition name_errors (P : platform) : Prop :=
  ∀ x w, ∃ e w', exec P (Global x) w = (Raise e, w').

Section Programs.
Context {P : platform}.

(** The namespace binds every name of [N]. *)
Definition bound (N : list string) (s : state P) : Prop :=
  ∀ x, x ∈ N → is_Some (lookup_var x s).

(** No binding is lost from [s] to [s']. *)
Definition keeps (s s' : state P) : Prop :=
  ∀ x, is_Some (lookup_var x s) → is_Some (lookup_var x s').

(** Run where the names [N] are bound, [m] asks for no unbound name and,
    when it ends normally, has bound the names [N']; unless a context manager
    swallowed an exception on the way.  In every run [m] adds its requests
    to the log and loses no binding. *)
Definition scoped (N : list string) {A} (m : M P A) (N' : list string) : Prop :=
  ∀ s, ∃ new,
    st_log (m s).2 = new ++ st_log s ∧
    keeps s (m s).2 ∧
    (bound N s →
     Exists (λ ev, swallowed ev = true) (rev new) ∨
     Forall (λ ev, asks_global ev = false) (rev new) ∧
     ∀ a, (m s).1 = Return a → bound N' (m s).2).

(** [m] binds no names but those of [N]: in every run the namespace it
    leaves is the one it found with bindings of names of [N] put before. *)
Definition touches (N : list string) {A} (m : M P A) : Prop :=
  ∀ s, ∃ front,
    st_vars (m s).2 = front ++ st_vars s ∧
    forallb (λ b : string * value, existsb (String.eqb b.1) N) front = true.

End Programs.

End Names.

(** ** The loops of the autoencoder notebook *)

Module Loops.
Section Loops.
Context {P : platform}.

(** [for e in range(repetitions): ...], the loop of the training cell. *)
Definition training_loop : M P unit :=
  for_ "e" (invoke (name "range") [name "repetitions"] []) Autoencoder.repetition.

(** One column of the figure: the three [imshow] lines. *)
Definition column : M P unit :=
  Autoencoder.show 0 "input_probe" 28 28;;
  Autoencoder.show 1 "encode_probe" 6 6;;
  Autoencoder.show 2 "decode_probe" 28 28.

(** [for i in range(repetitions+1): ...], the loop of the plotting cell. *)
Definition plot_loop : M P unit :=
  for_ "i" (invoke (name "range") [binop "+" (name "repetitions") (lit (VInt 1))] [])
    column.

(** The names that the training loop reads, bound as the cells before it
    bind them. *)
Definition prepared (c : Autoencoder.training) (s : state P) : Prop :=
  lookup_var "sim" s = Some (Autoencoder.sim c) ∧
  lookup_var "inp" s = Some (Autoencoder.inp c) ∧
  lookup_var "test_inputs" s = Some (Autoencoder.test_inputs c) ∧
  (∃ entries, Autoencoder.test_inputs c = VDict entries ∧
              dict_get (Autoencoder.inp c) entries = Some (Autoencoder.test_images c)) ∧
  lookup_var "test_targets" s = Some (Autoencoder.test_targets c) ∧
  lookup_var "train_inputs" s = Some (Autoencoder.train_inputs c) ∧
  lookup_var "train_targets" s = Some (Autoencoder.train_targets c) ∧
  lookup_var "optimizer" s = Some (Autoencoder.optimizer c) ∧
  lookup_var "n_examples" s = Some (VInt 100) ∧
  lookup_var "print" s = None.

End Loops.
End Loops.

(** ** A platform that is interrupted *)

Module Interrupted.

(** The small platform with the halving loss, interrupted after a number of
    requests: its state is the number of requests that are still answered
    and the state of the small platform; every later request raises. *)
Definition exec (o : op) (w : nat * (nat * nat)) : outcome value * (nat * (nat * nat)) :=
  match w.1 with
  | O => (Raise (VStr "KeyboardInterrupt"), w)
  | S budget => let '(r, w') := Toy.exec Toy.halving o w.2 in (r, (budget, w'))
  end.

Definition platform : platform := Platform (nat * (nat * nat)) exec.

(** The objects of a kernel that is about to train, each named by what it
    is. *)
Definition objects : Autoencoder.training :=
  Autoencoder.Training (VStr "Simulator") (VStr "manager") (VStr "sim")
    (VStr "train", VStr "MomentumOptimizer") (VStr "optimizer") (VStr "inp")
    (VDict [(VStr "inp", VStr "test images")]) (VDict [(VStr "probe", VStr "test images")])
    (VDict [(VStr "inp", VStr "train images")]) (VDict [(VStr "probe", VStr "train images")])
    (VStr "test images").

(** A kernel inside the training cell before its loop, with [n] repetitions
    ahead and [budget] requests until the interrupt. *)
Definition before_loop (n : Z) (budget : nat) : state platform :=
  State (P := platform) (budget, (0, 0)%nat) []
    [("optimizer", Autoencoder.optimizer objects);
     ("sim", Autoencoder.sim objects);
     ("repetitions", VInt n);
     ("learning_rate", VFloat 0.05);
     ("losses", VList []);
     ("n_examples", VInt 100);
     ("test_targets", Autoencoder.test_targets objects);
     ("test_inputs", Autoencoder.test_inputs objects);
     ("train_targets", Autoencoder.train_targets objects);
     ("train_inputs", Autoencoder.train_inputs objects);
     ("inp", Autoencoder.inp objects)].

(** A kernel before the data cell, with [budget] requests until the
    interrupt. *)
Definition before_data (budget : nat) : state platform :=
  State (P := platform) (budget, (0, 0)%nat) []
    [("decode_probe", VStr "probe"); ("inp", VStr "inp"); ("mnist", VStr "mnist")].

End Interrupted.

(** ** An interpreter without the libraries *)

Module Bare.

(** Nothing that the notebooks ask of their platform exists: every request
    raises the error the interpreter has for it. *)
Definition error (o : op) : string :=
  match o with
  | Global _ => "NameError"
  | Import _ | ImportFrom _ _ => "ImportError"
  | Magic _ => "UsageError"
  | GetAttr _ _ | SetAttr _ _ _ | Enter _ | Exit _ _ => "AttributeError"
  | GetItem (VDict _) _ => "KeyError"
  | GetItem (VTuple _) _ | GetItem (VList _) _ => "IndexError"
  | GetItem _ _ | BinOp _ _ _ | Iter _ | Call _ _ _ => "TypeError"
  | Unpack _ _ => "ValueError"
  end.

Definition exec (o : op) (w : unit) : outcome value * unit := (Raise (VStr (error o)), w).

Definition platform : platform := Platform unit exec.

End Bare.

(** * Facts *)

Import Notebook Kernel Logic.

Ltac head_of t :=
  lazymatch t with
  | ?f _ => head_of f
  | _ => t
  end.

(** ** Exceptions pass through the statements and expressions *)

Section Transparent.
Context {P : platform}.
Local Abbreviation transparent := (@Logic.transparent P _).

Lemma transparent_ret {A} (a : A) : transparent (mret a).
Proof.
  intros s. exists []. cbn. split_and!; [done | discriminate | ].
  intros o e H. by apply elem_of_nil in H.
Qed.

Lemma transparent_ext (o : op) : transparent (ext o).
Proof.
  intros s. unfold ext. destruct (exec P o (st_world s)) as [r w] eqn:E.
  exists [(o, r)]. cbn. split_and!; [done | | ].
  - intros e ->. exists o. apply list_elem_of_singleton. done.
  - intros o' e H. apply list_elem_of_singleton in H. left. congruence.
Qed.

Lemma transparent_store x v : transparent (store x v).
Proof.
  intros s. exists []. cbn. split_and!; [done | discriminate | ].
  intros o e H. by apply elem_of_nil in H.
Qed.

Lemma transparent_bind {A B} (m : M P A) (k : A → M P B) :
  transparent m → (∀ a, transparent (k a)) → transparent (m ≫= k).
Proof.
  intros Hm Hk s. unfold mbind, M_bind.
  destruct (Hm s) as (new1 & Hlog1 & Hr1 & Hp1).
  destruct (m s) as [[a | e] s1] eqn:E; cbn in *.
  - destruct (Hk a s1) as (new2 & Hlog2 & Hr2 & Hp2).
    exists (new2 ++ new1). split_and!.
    + rewrite Hlog2, Hlog1. by rewrite app_assoc.
    + intros e He. destruct (Hr2 e He) as [o Ho]. exists o.
      apply elem_of_app. by left.
    + intros o e [H | H]%elem_of_app.
      * destruct (Hp2 o e H) as [? | ?]; [by left | right].
        apply Exists_app. by left.
      * destruct (Hp1 o e H) as [? | ?]; [done | right].
        apply Exists_app. by right.
  - exists new1. cbn. split_and!; [done | | ].
    + intros e' [= <-]. by apply Hr1.
    + intros o e' H. destruct (Hp1 o e' H) as [[= <-] | ?]; [by left | by right].
Qed.

Lemma transparent_name x : transparent (name x).
Proof.
  intros s. unfold name. destruct (lookup_var x s).
  - apply (transparent_ret v s).
  - destruct (existsb _ _).
    + apply (transparent_ret (VBuiltin x) s).
    + apply transparent_ext.
Qed.

Lemma transparent_with (e : M P value) target (body : M P unit) :
  transparent e → transparent body → transparent (with_ e target body).
Proof.
  intros He Hbody. unfold with_.
  apply transparent_bind; [done | intros mgr].
  apply transparent_bind; [apply transparent_ext | intros v].
  apply transparent_bind.
  { destruct target; [apply transparent_store | apply transparent_ret]. }
  intros _ s. unfold mbind, M_bind, attempt.
  destruct (Hbody s) as (new1 & Hlog1 & Hr1 & Hp1).
  destruct (body s) as [[u | x] s1]; cbn in *.
  - unfold ext. destruct (exec P (Exit mgr None) (st_world s1)) as [[a | e'] w]; cbn.
    + exists ((Exit mgr None, Return a) :: new1). split_and!.
      * by rewrite Hlog1.
      * discriminate.
      * intros o e0 [[= ] | H]%elem_of_cons. right. apply Exists_cons_tl.
        by destruct (Hp1 o e0 H).
    + exists ((Exit mgr None, Raise e') :: new1). split_and!.
      * by rewrite Hlog1.
      * intros e0 [= <-]. exists (Exit mgr None). apply elem_of_cons. by left.
      * intros o e0 [[= -> ->] | H]%elem_of_cons; [by left | right].
        apply Exists_cons_tl. by destruct (Hp1 o e0 H).
  - unfold ext. destruct (exec P (Exit mgr (Some x)) (st_world s1)) as [[a | e'] w]; cbn.
    + exists ((Exit mgr (Some x), Return a) :: new1).
      destruct (truthy a) eqn:Ha; cbn; split_and!; try by rewrite Hlog1.
      * discriminate.
      * intros o e0 _. right. apply Exists_cons_hd. by exists mgr, x, (Return a).
      * intros e0 [= <-]. destruct (Hr1 x eq_refl) as [o Ho]. exists o.
        apply elem_of_cons. by right.
      * intros o e0 [[= ] | H]%elem_of_cons.
        destruct (Hp1 o e0 H) as [[= <-] | ?]; [by left | right].
        by apply Exists_cons_tl.
    + exists ((Exit mgr (Some x), Raise e') :: new1). split_and!.
      * by rewrite Hlog1.
      * intros e0 [= <-]. exists (Exit mgr (Some x)). apply elem_of_cons. by left.
      * intros o e0 _. right. apply Exists_cons_hd. by exists mgr, x, (Raise e').
Qed.

Lemma transparent_sequence (es : list (M P value)) :
  Forall transparent es → transparent (sequence es).
Proof.
  induction 1 as [| e es He _ IH]; cbn.
  - apply transparent_ret.
  - apply transparent_bind; [done | intros v].
    apply transparent_bind; [done | intros vs]. apply transparent_ret.
Qed.

Lemma transparent_sequence_kw (es : list (string * M P value)) :
  Forall (λ ke, transparent ke.2) es → transparent (sequence_kw es).
Proof.
  induction 1 as [| [k e] es He _ IH]; cbn.
  - apply transparent_ret.
  - apply transparent_bind; [done | intros v].
    apply transparent_bind; [done | intros vs]. apply transparent_ret.
Qed.

Lemma transparent_each x items (body : M P unit) :
  transparent body → transparent (each x items body).
Proof.
  intros Hbody. induction items as [| v items IH]; cbn.
  - apply transparent_ret.
  - apply transparent_bind; [apply transparent_store | intros _].
    by apply transparent_bind.
Qed.

Ltac pieces :=
  repeat first
    [ assumption
    | apply transparent_ret
    | apply transparent_ext
    | apply transparent_store
    | apply transparent_name
    | apply transparent_sequence
    | apply transparent_sequence_kw
    | apply transparent_each
    | apply transparent_with
    | apply transparent_bind
    | lazymatch goal with
      | |- ∀ _, _ => intro
      | |- transparent (match ?x with _ => _ end) => destruct x
      | |- transparent (if ?b then _ else _) => destruct b
      | |- transparent (let _ := _ in _) => cbv zeta
      end ].

Lemma transparent_lit v : transparent (lit v).
Proof. unfold lit. pieces. Qed.

Lemma transparent_attr e a : transparent e → transparent (attr e a).
Proof. intros. unfold attr. pieces. Qed.

Lemma transparent_self_attr self a : transparent (self_attr self a).
Proof. unfold self_attr. pieces. Qed.

Lemma transparent_index o k : transparent (index o k).
Proof. unfold index. pieces. Qed.

Lemma transparent_subscript e k :
  transparent e → transparent k → transparent (subscript e k).
Proof. intros. unfold subscript. pieces. Qed.

Lemma transparent_item e k : transparent e → transparent k → transparent (item e k).
Proof. intros. unfold item. pieces. apply transparent_index. Qed.

Lemma transparent_binop sym a b :
  transparent a → transparent b → transparent (binop sym a b).
Proof. intros. unfold binop. pieces. Qed.

Lemma transparent_call_value f args kwargs : transparent (call_value f args kwargs).
Proof. unfold call_value. pieces. Qed.

Lemma transparent_call f args kwargs :
  transparent f → Forall transparent args → Forall (λ ke, transparent ke.2) kwargs →
  transparent (call f args kwargs).
Proof. intros. unfold call. pieces. Qed.

Lemma transparent_invoke f args kwargs :
  transparent f → Forall transparent args → Forall (λ ke, transparent ke.2) kwargs →
  transparent (invoke f args kwargs).
Proof. intros. unfold invoke. pieces. apply transparent_call_value. Qed.

Lemma transparent_items_of v : transparent (items_of v).
Proof. unfold items_of. pieces. Qed.

Lemma transparent_call_star f e :
  transparent f → transparent e → transparent (call_star f e).
Proof.
  intros. unfold call_star. pieces. apply transparent_items_of.
Qed.

Lemma transparent_tuple es : Forall transparent es → transparent (tuple_ es).
Proof. intros. unfold tuple_. pieces. Qed.

Lemma transparent_list es : Forall transparent es → transparent (list_ es).
Proof. intros. unfold list_. pieces. Qed.

Lemma transparent_dict1 k v : transparent k → transparent v → transparent (dict1 k v).
Proof. intros. unfold dict1. pieces. Qed.

Lemma transparent_assign x e : transparent e → transparent (assign x e).
Proof. intros. unfold assign. pieces. Qed.

Lemma transparent_expr e : transparent e → transparent (expr e).
Proof. intros. unfold expr. pieces. Qed.

Lemma transparent_setattr o a e :
  transparent o → transparent e → transparent (setattr_ o a e).
Proof. intros. unfold setattr_. pieces. Qed.

Lemma transparent_assign2 x y e : transparent e → transparent (assign2 x y e).
Proof. intros. unfold assign2. pieces. Qed.

Lemma transparent_append x e : transparent e → transparent (append_ x e).
Proof. intros. unfold append_. pieces. Qed.

Lemma transparent_import_as m x : transparent (import_as m x).
Proof. unfold import_as. pieces. Qed.

Lemma transparent_from_import m x : transparent (from_import m x).
Proof. unfold from_import. pieces. Qed.

Lemma transparent_magic line : transparent (magic line).
Proof. unfold magic. pieces. Qed.

Lemma transparent_class c bases : Forall transparent bases → transparent (class_ c bases).
Proof. intros. unfold class_. pieces. Qed.

Lemma transparent_for x e body :
  transparent e → transparent body → transparent (for_ x e body).
Proof. intros. unfold for_. pieces. apply transparent_items_of. Qed.

Lemma transparent_set_self self a v : transparent (Autoencoder.set_self self a v).
Proof. unfold Autoencoder.set_self. pieces. Qed.

End Transparent.

(** Takes a program apart into the statements and expressions above. *)
Ltac transparency :=
  repeat lazymatch goal with
  | |- Forall _ [] => apply Forall_nil_2
  | |- Forall _ (_ :: _) => apply Forall_cons_2
  | |- Forall _ (_ ++ _) => apply Forall_app
  | |- Forall _ ?l => let h := head_of l in progress unfold h
  | |- _ ∧ _ => split
  | |- ∀ _, _ => intro
  | |- Logic.transparent (_, _).2 => cbn [snd]
  | |- Logic.transparent (mbind _ _) => apply transparent_bind
  | |- Logic.transparent (mret _) => apply transparent_ret
  | |- Logic.transparent (ext _) => apply transparent_ext
  | |- Logic.transparent (store _ _) => apply transparent_store
  | |- Logic.transparent (name _) => apply transparent_name
  | |- Logic.transparent (lit _) => apply transparent_lit
  | |- Logic.transparent (attr _ _) => apply transparent_attr
  | |- Logic.transparent (self_attr _ _) => apply transparent_self_attr
  | |- Logic.transparent (Autoencoder.set_self _ _ _) => apply transparent_set_self
  | |- Logic.transparent (index _ _) => apply transparent_index
  | |- Logic.transparent (item _ _) => apply transparent_item
  | |- Logic.transparent (subscript _ _) => apply transparent_subscript
  | |- Logic.transparent (binop _ _ _) => apply transparent_binop
  | |- Logic.transparent (call _ _ _) => apply transparent_call
  | |- Logic.transparent (invoke _ _ _) => apply transparent_invoke
  | |- Logic.transparent (call_star _ _) => apply transparent_call_star
  | |- Logic.transparent (tuple_ _) => apply transparent_tuple
  | |- Logic.transparent (list_ _) => apply transparent_list
  | |- Logic.transparent (dict1 _ _) => apply transparent_dict1
  | |- Logic.transparent (assign _ _) => apply transparent_assign
  | |- Logic.transparent (assign2 _ _ _) => apply transparent_assign2
  | |- Logic.transparent (expr _) => apply transparent_expr
  | |- Logic.transparent (setattr_ _ _ _) => apply transparent_setattr
  | |- Logic.transparent (append_ _ _) => apply transparent_append
  | |- Logic.transparent (import_as _ _) => apply transparent_import_as
  | |- Logic.transparent (from_import _ _) => apply transparent_from_import
  | |- Logic.transparent (magic _) => apply transparent_magic
  | |- Logic.transparent (class_ _ _) => apply transparent_class
  | |- Logic.transparent (for_ _ _ _) => apply transparent_for
  | |- Logic.transparent (with_ _ _ _) => apply transparent_with
  | |- Logic.transparent ?m => let h := head_of m in progress unfold h
  end.

(** ** Running a program step by step *)

Section Steps.
Context {P : platform}.
Local Abbreviation wp := (@Logic.wp P _).

Lemma wp_run {A} (m : M P A) Q s r s' : m s = (r, s') → wp m Q s → Q r s'.
Proof. unfold Logic.wp. by intros ->. Qed.

Lemma wp_ret {A} (a : A) (Q : outcome A → state P → Prop) s :
  Q (Return a) s → wp (mret a) Q s.
Proof. done. Qed.

Lemma wp_bind {A B} (m : M P A) (k : A → M P B) Q s :
  wp m (λ r s', match r with
                | Return a => wp (k a) Q s'
                | Raise e => Q (Raise e) s'
                end) s →
  wp (m ≫= k) Q s.
Proof. unfold Logic.wp, mbind, M_bind. by destruct (m s) as [[a | e] s']. Qed.

Lemma wp_ext o Q s :
  (∀ r w, exec P o (st_world s) = (r, w) →
          Q r (State w ((o, r) :: st_log s) (st_vars s))) →
  wp (ext o) Q s.
Proof.
  unfold Logic.wp, ext. intros H.
  destruct (exec P o (st_world s)) as [r w]. by apply H.
Qed.

Lemma wp_store x v Q s :
  Q (Return tt) (State (st_world s) (st_log s) ((x, v) :: st_vars s)) →
  wp (store x v) Q s.
Proof. done. Qed.

Lemma wp_name_bound x v Q s :
  lookup_var x s = Some v → Q (Return v) s → wp (name x) Q s.
Proof. unfold Logic.wp, name. by intros ->. Qed.

Lemma wp_name_builtin x Q s :
  lookup_var x s = None → existsb (String.eqb x) builtins = true →
  Q (Return (VBuiltin x)) s → wp (name x) Q s.
Proof. unfold Logic.wp, name. by intros -> ->. Qed.

Lemma wp_attempt {A} (m : M P A) Q s :
  wp m (λ r s', Q (Return r) s') s → wp (attempt m) Q s.
Proof. unfold Logic.wp, attempt. by destruct (m s). Qed.

Lemma wp_raise {A} e (Q : outcome A → state P → Prop) s :
  Q (Raise e) s → wp (raise e) Q s.
Proof. done. Qed.

Lemma since_app (s s' : state P) new :
  st_log s' = new ++ st_log s → since s s' = rev new.
Proof.
  intros H. unfold since. rewrite H, length_app.
  replace (length new + length (st_log s) - length (st_log s))%nat
    with (length new) by lia.
  by rewrite take_app_length.
Qed.

End Steps.

Lemma float_same_refl x : float_same x x = true.
Proof.
  unfold float_same. destruct (Prim2SF x); try done.
  - apply Bool.eqb_reflx.
  - apply Bool.eqb_reflx.
  - by rewrite Bool.eqb_reflx, Pos.eqb_refl, Z.eqb_refl.
Qed.

(** A value is the same as itself, so a dictionary finds the key it was
    built with. *)
Lemma same_refl : ∀ v, same v v = true.
Proof.
  fix IH 1. intros [ | b | z | f | str | h | nm | items | items | entries
                   | lo hi step | n | [] | nm | cls attrs]; cbn; try done.
  - apply Bool.eqb_reflx.
  - apply Z.eqb_refl.
  - apply float_same_refl.
  - apply String.eqb_refl.
  - apply Nat.eqb_refl.
  - apply String.eqb_refl.
  - induction items as [| x xs IHxs]; [done |]. by rewrite (IH x), IHxs.
  - induction items as [| x xs IHxs]; [done |]. by rewrite (IH x), IHxs.
  - induction entries as [| [k x] xs IHxs]; [done |]. by rewrite (IH k), (IH x), IHxs.
  - by rewrite !IH.
  - apply Z.eqb_refl.
  - apply String.eqb_refl.
  - rewrite String.eqb_refl. cbn.
    induction attrs as [| [k x] xs IHxs]; [done |].
    by rewrite String.eqb_refl, (IH x), IHxs.
Qed.

Lemma dict_get_here k v rest : dict_get k ((k, v) :: rest) = Some v.
Proof. cbn. by rewrite same_refl. Qed.

(** [l] without its tail [t] *)
Ltac log_prefix l t :=
  lazymatch l with
  | t => constr:(@nil event)
  | ?e :: ?l' => let r := log_prefix l' t in constr:(e :: r)
  end.

(** Writes [since s s'] out when the log of [s'] is that of [s] with known
    requests in front. *)
Ltac since_known :=
  repeat match goal with
  | |- context [@since ?P ?s (State ?w ?l ?v)] =>
      let t := constr:(st_log s) in
      let new := log_prefix l t in
      rewrite (since_app s (State w l v) new eq_refl); cbn [rev app]
  | H : context [@since ?P ?s (State ?w ?l ?v)] |- _ =>
      let t := constr:(st_log s) in
      let new := log_prefix l t in
      rewrite (since_app s (State w l v) new eq_refl) in H; cbn [rev app] in H
  end.

Ltac find_name :=
  unfold lookup_var; cbn; first [reflexivity | eassumption].

(** A request is answered with a value or an exception; [wp_request] forgets
    what the platform was asked, [wp_request_eq] keeps the equation. *)
Ltac wp_request :=
  let v := fresh "v" in let w := fresh "w" in
  apply wp_ext; intros [v | v] w _;
  cbn [st_world st_log st_vars]; lazy beta iota.

Ltac wp_request_eq :=
  let v := fresh "v" in let w := fresh "w" in let E := fresh "E" in
  apply wp_ext; intros [v | v] w E;
  cbn [st_world st_log st_vars] in E |- *; lazy beta iota.

(** One step of a run: the head of the program decides. *)
Ltac wp_step_with request :=
  lazymatch goal with
  | |- Logic.wp (mbind _ _) _ _ => apply wp_bind
  | |- Logic.wp (mret _) _ _ => apply wp_ret; lazy beta iota
  | |- Logic.wp (ext _) _ _ => request
  | |- Logic.wp (store _ _) _ _ =>
      apply wp_store; cbn [st_world st_log st_vars]; lazy beta iota
  | |- Logic.wp (name _) _ _ =>
      first [ eapply wp_name_bound; [find_name |]
            | eapply wp_name_builtin; [find_name | reflexivity |] ];
      lazy beta iota
  | |- Logic.wp (attempt _) _ _ => apply wp_attempt
  | |- Logic.wp (raise _) _ _ => apply wp_raise; lazy beta iota
  | |- Logic.wp (if truthy ?a then _ else _) _ _ => destruct (truthy a) eqn:?
  | |- Logic.wp (if ?b then _ else _) _ _ =>
      let b' := eval vm_compute in b in change b with b'; lazy beta iota
  | |- Logic.wp (sequence _) _ _ => cbn [sequence]
  | |- Logic.wp (sequence_kw _) _ _ => cbn [sequence_kw]
  | |- Logic.wp (each _ ?items _) _ _ =>
      first [ progress cbn [each]
            | let l := eval vm_compute in items in change items with l ]
  | |- Logic.wp (match dict_get ?k ?d with _ => _ end) _ _ =>
      first [ rewrite dict_get_here
            | match goal with H : dict_get k d = _ |- _ => rewrite H end ]
  | |- Logic.wp (match field_get ?a ?l with _ => _ end) _ _ =>
      first [ match goal with H : field_get a l = _ |- _ => rewrite H end
            | let x' := eval cbn in (field_get a l) in
              progress change (field_get a l) with x' ]
  | |- Logic.wp (let _ := _ in _) _ _ => cbv zeta
  | |- Logic.wp (match ?x with _ => _ end) _ _ =>
      first [ progress lazy beta iota
            | let x' := eval cbn in x in progress change x with x'
            | let x' := eval lazy in x in progress change x with x' ]
  | |- Logic.wp ?m _ _ => let h := head_of m in progress unfold h
  end.

Ltac wp_step := wp_step_with wp_request.
Ltac wp_step_eq := wp_step_with wp_request_eq.

(** Runs the program of [Hrun] to its end, in every way the platform may
    answer. *)
Ltac run_through Hrun :=
  unfold lookup_var in *;
  match type of Hrun with
  | _ = (?r, ?s') => pattern r, s'; eapply wp_run; [exact Hrun |]
  end;
  repeat wp_step.

(** Closes the runs in which a request raised. *)
Ltac not_quiet :=
  let Hq := fresh "Hq" in
  intros Hq; since_known; try discriminate Hq.

(** ** The documents *)

Lemma well_formed_cellb_sound c : well_formed_cellb c = true → well_formed_cell c.
Proof.
  unfold well_formed_cellb, well_formed_cell. intros H.
  destruct (jget "cell_type" c) as [[| | | ty | |] |]; try done.
  destruct (jget "metadata" c) as [[| | | | | md] |]; try done.
  destruct (jget "source" c) as [[| | | | src |] |]; try done.
  exists ty, md, src. split_and!; try done.
  apply Forall_forall. intros j Hj%list_elem_of_In.
  apply (proj1 (forallb_forall _ _) H) in Hj.
  destruct j; try done. by eexists.
Qed.

Lemma well_formed_notebookb_sound doc :
  well_formed_notebookb doc = true → well_formed_notebook doc.
Proof.
  unfold well_formed_notebookb, well_formed_notebook. intros H.
  destruct doc as [| | | | | members]; try done.
  destruct (jget "cells" _) as [[| | | | cs |] |]; try done.
  destruct (jget "metadata" _) as [[| | | | | md] |]; try done.
  destruct (jget "nbformat" _) as [[| | [| [| [| [] | ] | ] | ] | | |] |]; try done.
  apply andb_prop in H as [Hcells Hks].
  split_and!; [by eexists | | | done].
  - exists cs. split; [done |]. apply Forall_forall. intros c Hc.
    apply well_formed_cellb_sound, (proj1 (forallb_forall _ _) Hcells).
    by apply list_elem_of_In.
  - exists md. cbn. destruct (assoc "kernelspec" md) as [[| | | | | ks] |]; try done.
    by exists ks.
Qed.

(** C6. Each of the two notebook documents is a JSON object with a list
    ["cells"] of cells that each have a cell type, a metadata object and a
    source, with a ["metadata"] object that holds a kernel specification,
    and with ["nbformat"] 4. *)
Theorem documents_are_notebooks :
  well_formed_notebook ch2_scalars_ipynb ∧ well_formed_notebook autoencoder_ipynb.
Proof. split; apply well_formed_notebookb_sound; vm_compute; reflexivity. Qed.

(** C4. The classes that the notebooks define are [Encoder] and [Decoder],
    both in the autoencoder notebook; the body of each consists of the two
    methods [pre_build(self, shape_in, shape_out)] and [__call__(self, t, x)]
    and of nothing else.  These are all the classes and functions there are:
    the words [class] and [def] occur in the code cells only in these two
    class statements and four method definitions. *)
Theorem plug_in_blocks_have_two_methods :
  classes ch2_scalars_ipynb = [] ∧
  classes autoencoder_ipynb =
    [ClassDef "class Encoder(object):"
       ["def pre_build(self, shape_in, shape_out):"; "def __call__(self, t, x):"] [];
     ClassDef "class Decoder(object):"
       ["def pre_build(self, shape_in, shape_out):"; "def __call__(self, t, x):"] []] ∧
  uses ["class"; "def"] ch2_scalars_ipynb = [] ∧
  uses ["class"; "def"] autoencoder_ipynb = ["class"; "def"; "def"; "class"; "def"; "def"].
Proof. split_and!; vm_compute; reflexivity. Qed.

(** C8. No code cell names anything that starts a thread, a process or an
    asynchronous task, and the modules that the notebooks import are the
    numerical, plotting, simulation and display libraries listed here: what
    runs concurrently runs inside them. *)
Theorem cells_start_nothing_concurrent :
  uses concurrency_words ch2_scalars_ipynb = [] ∧
  uses concurrency_words autoencoder_ipynb = [] ∧
  imports ch2_scalars_ipynb =
    ["numpy"; "matplotlib.pyplot"; "nengo"; "nengo.dists"; "nengo.utils.matplotlib";
     "nengo.utils.ensemble"; "nengo_gui.ipython"; "IPython.display"; "nengo.dists"] ∧
  imports autoencoder_ipynb =
    ["nengo"; "nengo_dl"; "numpy"; "tensorflow"; "matplotlib.pyplot";
     "tensorflow.examples.tutorials.mnist"].
Proof. split_and!; vm_compute; reflexivity. Qed.

(** C2. No code cell has a statement that catches, raises or re-routes an
    exception, or a conditional.  Accordingly every code cell, the lambda and
    the four methods are transparent to exceptions: an exception that one of
    them ends with is the exception that a request to the platform raised,
    and an exception raised by a request is what the program ends with,
    unless the [__exit__] of a context manager of the platform, called with
    the exception, answers true or raises. *)
Theorem exceptions_pass_through :
  uses (handler_keywords ++ branch_keywords) ch2_scalars_ipynb = [] ∧
  uses (handler_keywords ++ branch_keywords) autoencoder_ipynb = [] ∧
  ∀ P : platform,
    Forall transparent (@Scalars.code P ++ @Autoencoder.code P) ∧
    (∀ t, transparent (@Scalars.input_sine P t)) ∧
    (∀ self shape_in shape_out,
       transparent (@Autoencoder.Encoder.pre_build P self shape_in shape_out) ∧
       transparent (@Autoencoder.Decoder.pre_build P self shape_in shape_out)) ∧
    (∀ self t x,
       transparent (@Autoencoder.Encoder.__call__ P self t x) ∧
       transparent (@Autoencoder.Decoder.__call__ P self t x)).
Proof.
  split_and!; [vm_compute; reflexivity .. |].
  intros P. split_and!; transparency.
Qed.

(** ** The scalar notebook *)

(** C3. The simulation cell hands the simulator the model and the run length
    [1] and nothing else.  In every run, each call that the cell makes has no
    keyword argument and has the model, or the number 1, as its one argument.
    In a run in which no request raises, the cell asks for [nengo.Simulator],
    calls it on the model, enters it, asks the simulator for [run], calls
    that on [1], and leaves; the stepping is what the platform does in that
    call.  The cell then ends normally and binds one name, [sim], to the
    simulator (which holds what was recorded); the answer of [run] is
    dropped. *)
Theorem simulation_cell_requests {P} (s s' : state P) r nengo model :
  lookup_var "nengo" s = Some nengo → lookup_var "model" s = Some model →
  Scalars.cell_run s = (r, s') →
  Forall (λ ev : event, ∀ f args kwargs, ev.1 = Call f args kwargs →
            kwargs = [] ∧ (args = [model] ∨ args = [VInt 1]))
         (since s s') ∧
  (quiet (since s s') →
   ∃ simulator mgr sim run ran left,
     since s s' =
       [(GetAttr nengo "Simulator", Return simulator);
        (Call simulator [model] [], Return mgr);
        (Enter mgr, Return sim);
        (GetAttr sim "run", Return run);
        (Call run [VInt 1] [], Return ran);
        (Exit mgr None, Return left)] ∧
     r = Return tt ∧
     st_vars s' = ("sim", sim) :: st_vars s).
Proof.
  intros Hn Hm Hrun. split.
  - run_through Hrun.
    all: since_known; repeat apply Forall_cons_2; try apply Forall_nil_2.
    all: cbn; intros f args kwargs [= <- <- <-]; auto.
  - run_through Hrun. all: not_quiet.
    by eexists _, _, _, _, _, _.
Qed.

Lemma simulation_cell_requests_witness :
  let s := Toy.after Toy.halving [Scalars.cell_setup; Scalars.cell_model] in
  ∃ simulator mgr sim run ran left,
    since s (Scalars.cell_run s).2 =
      [(GetAttr (VStr "nengo") "Simulator", Return simulator);
       (Call simulator [VRef 0] [], Return mgr);
       (Enter mgr, Return sim);
       (GetAttr sim "run", Return run);
       (Call run [VInt 1] [], Return ran);
       (Exit mgr None, Return left)] ∧
    (Scalars.cell_run s).1 = Return tt ∧
    st_vars (Scalars.cell_run s).2 = ("sim", sim) :: st_vars s.
Proof.
  intros s.
  apply (simulation_cell_requests s (Scalars.cell_run s).2 (Scalars.cell_run s).1
           (VStr "nengo") (VRef 0)); vm_compute; reflexivity.
Defined.

(** C5. The construction cell takes the time function, the population size
    and the distribution of the maximal rates and only describes a network.
    In every run, none of its requests builds or runs a simulator.  In a run
    in which no request raises, the requests are exactly: make the network
    labelled "Many Neurons" and enter it; make a node from the lambda; make
    [Uniform(100, 200)] and an ensemble of [100] neurons with
    [dimensions=1] and these maximal rates; connect the node to the ensemble;
    leave the network.  The cell binds [model], [input] and [x].  The lambda,
    called on a time [t], answers what [np.sin] answers on the product
    [16 * t]. *)
Theorem construction_cell_requests {P} (s s' : state P) r nengo uniform :
  lookup_var "nengo" s = Some nengo → lookup_var "Uniform" s = Some uniform →
  Scalars.cell_model s = (r, s') →
  forallb (λ ev, negb (simulates ev.1)) (since s s') = true ∧
  (quiet (since s s') →
   ∃ network model entered node input ensemble rates x connection c left,
     since s s' =
       [(GetAttr nengo "Network", Return network);
        (Call network [] [("label", VStr "Many Neurons")], Return model);
        (Enter model, Return entered);
        (GetAttr nengo "Node", Return node);
        (Call node [VLambda InputSine] [], Return input);
        (GetAttr nengo "Ensemble", Return ensemble);
        (Call uniform [VInt 100; VInt 200] [], Return rates);
        (Call ensemble [VInt 100] [("dimensions", VInt 1); ("max_rates", rates)],
         Return x);
        (GetAttr nengo "Connection", Return connection);
        (Call connection [input; x] [], Return c);
        (Exit model None, Return left)] ∧
     r = Return tt ∧
     st_vars s' = [("x", x); ("input", input); ("model", model)] ++ st_vars s) ∧
  (∀ (s1 s1' : state P) r1 np t,
     lookup_var "np" s1 = Some np → Scalars.input_sine (VFloat t) s1 = (r1, s1') →
     quiet (since s1 s1') →
     ∃ sin product y,
       since s1 s1' =
         [(GetAttr np "sin", Return sin);
          (BinOp "*" (VInt 16) (VFloat t), Return product);
          (Call sin [product] [], Return y)] ∧
       r1 = Return y).
Proof.
  intros Hn Hu Hrun. split_and!.
  - run_through Hrun. all: since_known; reflexivity.
  - run_through Hrun. all: not_quiet.
    by eexists _, _, _, _, _, _, _, _, _, _, _.
  - clear. intros s1 s1' r1 np t Hnp Hrun. run_through Hrun. all: not_quiet.
    by eexists _, _, _.
Qed.

Lemma construction_cell_requests_witness :
  let s := Toy.after Toy.halving [Scalars.cell_setup] in
  let s' := (Scalars.cell_model s).2 in
  forallb (λ ev, negb (simulates ev.1)) (since s s') = true ∧
  ∃ network model entered node input ensemble rates x connection c left,
    since s s' =
      [(GetAttr (VStr "nengo") "Network", Return network);
       (Call network [] [("label", VStr "Many Neurons")], Return model);
       (Enter model, Return entered);
       (GetAttr (VStr "nengo") "Node", Return node);
       (Call node [VLambda InputSine] [], Return input);
       (GetAttr (VStr "nengo") "Ensemble", Return ensemble);
       (Call (VStr "Uniform") [VInt 100; VInt 200] [], Return rates);
       (Call ensemble [VInt 100] [("dimensions", VInt 1); ("max_rates", rates)],
        Return x);
       (GetAttr (VStr "nengo") "Connection", Return connection);
       (Call connection [input; x] [], Return c);
       (Exit model None, Return left)] ∧
    (Scalars.cell_model s).1 = Return tt ∧
    st_vars s' = [("x", x); ("input", input); ("model", model)] ++ st_vars s.
Proof.
  intros s s'.
  destruct (construction_cell_requests s s' (Scalars.cell_model s).1
              (VStr "nengo") (VStr "Uniform")) as (H1 & H2 & _);
    [vm_compute; reflexivity .. |].
  split; [exact H1 |]. apply H2. vm_compute. reflexivity.
Defined.

(** ** The autoencoder notebook *)

(** The training cell, run without a raised request: its requests and its
    bindings. *)
Lemma train_cell_run {P} (s s' : state P) r nengo_dl net tf inp entries b tg tri trt :
  lookup_var "nengo_dl" s = Some nengo_dl → lookup_var "net" s = Some net →
  lookup_var "tf" s = Some tf → lookup_var "inp" s = Some inp →
  lookup_var "test_inputs" s = Some (VDict entries) → dict_get inp entries = Some b →
  lookup_var "test_targets" s = Some tg →
  lookup_var "train_inputs" s = Some tri →
  lookup_var "train_targets" s = Some trt →
  lookup_var "print" s = None → lookup_var "range" s = None →
  Autoencoder.cell_train s = (r, s') → quiet (since s s') →
  ∃ c p1 p2 p3 p4 p5 last left,
    Autoencoder.inp c = inp ∧ Autoencoder.test_inputs c = VDict entries ∧
    Autoencoder.test_targets c = tg ∧ Autoencoder.train_inputs c = tri ∧
    Autoencoder.train_targets c = trt ∧ Autoencoder.test_images c = b ∧
    since s s' = Autoencoder.train_events nengo_dl net tf c [p1; p2; p3; p4; p5] last left ∧
    r = Return tt ∧
    st_vars s' = Autoencoder.train_vars c [p1; p2; p3; p4; p5] ++ st_vars s.
Proof.
  intros ? ? ? ? ? ? ? ? ? ? ? Hrun.
  run_through Hrun. all: not_quiet.
  eexists (Autoencoder.Training _ _ _ (_, _) _ _ _ _ _ _ _),
    (Autoencoder.Pass _ _ _ _ _ _ _ _), (Autoencoder.Pass _ _ _ _ _ _ _ _),
    (Autoencoder.Pass _ _ _ _ _ _ _ _), (Autoencoder.Pass _ _ _ _ _ _ _ _),
    (Autoencoder.Pass _ _ _ _ _ _ _ _), (_, _, _), _.
  cbn. split_and!; reflexivity.
Qed.


(** The data cell: what the four dictionaries are bound to when the cell
    ends normally. *)
Lemma data_cell_run {P} (s s' : state P) r mnist inp probe :
  lookup_var "mnist" s = Some mnist → lookup_var "inp" s = Some inp →
  lookup_var "decode_probe" s = Some probe →
  Autoencoder.cell_data s = (r, s') → r = Return tt →
  ∃ a b,
    st_vars s' =
      [("test_targets", VDict [(probe, b)]); ("test_inputs", VDict [(inp, b)]);
       ("train_targets", VDict [(probe, a)]); ("train_inputs", VDict [(inp, a)])] ++
      st_vars s.
Proof.
  intros Hm Hi Hp Hrun. run_through Hrun. all: intros [=].
  by eexists _, _.
Qed.

(** C9. The target dictionaries alias the input dictionaries.  When the data
    cell ends normally, [train_targets] binds [decode_probe] to the very
    array that [train_inputs] binds to [inp], and [test_targets] binds it to
    the array of [test_inputs].  In a run of the training cell that follows
    (no request raising), each of the five [sim.loss] calls and each of the
    five [sim.train] calls receives the two dictionaries of its kind: in
    every evaluation and training batch the target is the input. *)
Theorem targets_alias_inputs {P} (s s1 s2 : state P) r
    mnist inp probe nengo_dl net tf :
  lookup_var "mnist" s = Some mnist → lookup_var "inp" s = Some inp →
  lookup_var "decode_probe" s = Some probe →
  lookup_var "nengo_dl" s = Some nengo_dl → lookup_var "net" s = Some net →
  lookup_var "tf" s = Some tf →
  lookup_var "print" s = None → lookup_var "range" s = None →
  Autoencoder.cell_data s = (Return tt, s1) →
  Autoencoder.cell_train s1 = (r, s2) → quiet (since s1 s2) →
  ∃ a b,
    lookup_var "train_inputs" s1 = Some (VDict [(inp, a)]) ∧
    lookup_var "train_targets" s1 = Some (VDict [(probe, a)]) ∧
    lookup_var "test_inputs" s1 = Some (VDict [(inp, b)]) ∧
    lookup_var "test_targets" s1 = Some (VDict [(probe, b)]) ∧
    (∃ optimizer,
       calls_of "loss" (since s1 s2) =
         replicate 5 ([VDict [(inp, b)]; VDict [(probe, b)]; VStr "mse"], []) ∧
       calls_of "train" (since s1 s2) =
         replicate 5 ([VDict [(inp, a)]; VDict [(probe, a)]; optimizer], [])).
Proof.
  intros Hm Hi Hp Hn Hnet Htf Hpr Hrg Hdata Htrain Hq.
  destruct (data_cell_run s s1 (Return tt) mnist inp probe) as (a & b & Hv); try done.
  unfold lookup_var in *.
  exists a, b. rewrite Hv. split_and!; try done.
  destruct (train_cell_run s1 s2 r nengo_dl net tf inp [(inp, b)] b
              (VDict [(probe, b)]) (VDict [(inp, a)]) (VDict [(probe, a)]))
    as (c & p1 & p2 & p3 & p4 & p5 & last & left
        & Hc1 & Hc2 & Hc3 & Hc4 & Hc5 & Hc6 & Hev & _);
    unfold lookup_var; rewrite ?Hv; cbn; try done.
  { by rewrite same_refl. }
  destruct c; cbn in Hc1, Hc2, Hc3, Hc4, Hc5, Hc6; subst.
  exists optimizer. rewrite Hev. done.
Qed.

Lemma targets_alias_inputs_witness :
  let s := Toy.after Toy.halving
             [Autoencoder.cell_setup; Autoencoder.cell_mnist;
              Autoencoder.cell_parameters; Autoencoder.cell_network] in
  let s1 := (Autoencoder.cell_data s).2 in
  let s2 := (Autoencoder.cell_train s1).2 in
  ∃ a b,
    lookup_var "train_inputs" s1 = Some (VDict [(VRef 10, a)]) ∧
    lookup_var "train_targets" s1 = Some (VDict [(VRef 17, a)]) ∧
    lookup_var "test_inputs" s1 = Some (VDict [(VRef 10, b)]) ∧
    lookup_var "test_targets" s1 = Some (VDict [(VRef 17, b)]) ∧
    (∃ optimizer,
       calls_of "loss" (since s1 s2) =
         replicate 5 ([VDict [(VRef 10, b)]; VDict [(VRef 17, b)]; VStr "mse"], []) ∧
       calls_of "train" (since s1 s2) =
         replicate 5 ([VDict [(VRef 10, a)]; VDict [(VRef 17, a)]; optimizer], [])).
Proof.
  intros s s1 s2.
  apply (targets_alias_inputs s s1 s2 (Autoencoder.cell_train s1).1
           (VRef 0) (VRef 10) (VRef 17) (VStr "nengo_dl") (VRef 1) (VStr "tensorflow"));
    vm_compute; reflexivity.
Defined.

(** C1, as amended.  The list [losses] holds, in order, the five values
    that [sim.loss] answered on the test data, the e-th of them asked for
    before the e-th [sim.train]; the cell itself neither compares nor orders
    them, so the list falls strictly exactly when the losses that the
    platform reports do. *)
Theorem losses_are_the_reported_losses {P} (s s' : state P) r
    nengo_dl net tf inp entries b tg tri trt :
  lookup_var "nengo_dl" s = Some nengo_dl → lookup_var "net" s = Some net →
  lookup_var "tf" s = Some tf → lookup_var "inp" s = Some inp →
  lookup_var "test_inputs" s = Some (VDict entries) → dict_get inp entries = Some b →
  lookup_var "test_targets" s = Some tg →
  lookup_var "train_inputs" s = Some tri →
  lookup_var "train_targets" s = Some trt →
  lookup_var "print" s = None → lookup_var "range" s = None →
  Autoencoder.cell_train s = (r, s') → quiet (since s s') →
  ∃ ls,
    lookup_var "losses" s' = Some (VList ls) ∧
    length ls = 5%nat ∧
    ls = answers_of "loss" (since s s') ∧
    methods_called ["loss"; "train"] (since s s') = concat (replicate 5 ["loss"; "train"]) ∧
    (strictly_decreasing ls = true ↔
     strictly_decreasing (answers_of "loss" (since s s')) = true).
Proof.
  intros H1 H2 H3 H4 H5 H6 H7 H8 H9 H10 H11 Hrun Hq.
  destruct (train_cell_run s s' r nengo_dl net tf inp entries b tg tri trt)
    as (c & p1 & p2 & p3 & p4 & p5 & last & left & _ & _ & _ & _ & _ & _ & Hev & _ & Hv);
    try done.
  exists (Autoencoder.loss <$> [p1; p2; p3; p4; p5]).
  unfold lookup_var. rewrite Hv, Hev. done.
Qed.

Lemma losses_are_the_reported_losses_witness :
  let s := Toy.after Toy.halving
             [Autoencoder.cell_setup; Autoencoder.cell_mnist;
              Autoencoder.cell_parameters; Autoencoder.cell_network;
              Autoencoder.cell_data] in
  let s' := (Autoencoder.cell_train s).2 in
  ∃ ls,
    lookup_var "losses" s' = Some (VList ls) ∧
    length ls = 5%nat ∧
    ls = answers_of "loss" (since s s') ∧
    methods_called ["loss"; "train"] (since s s') = concat (replicate 5 ["loss"; "train"]) ∧
    (strictly_decreasing ls = true ↔
     strictly_decreasing (answers_of "loss" (since s s')) = true).
Proof.
  intros s s'.
  apply (losses_are_the_reported_losses s s' (Autoencoder.cell_train s).1
           (VStr "nengo_dl") (VRef 1) (VStr "tensorflow") (VRef 10)
           [(VRef 10, VRef 19)] (VRef 19) (VDict [(VRef 17, VRef 19)])
           (VDict [(VRef 10, VRef 18)]) (VDict [(VRef 17, VRef 18)]));
    vm_compute; reflexivity.
Defined.

(** C1 as stated fails: on a platform whose training leaves the loss where
    it is, the notebook runs through the training cell without a raised
    request and [losses] ends as five equal values. *)
Lemma losses_can_stay_level :
  let run := Kernel.run_all Autoencoder.through_training
               (Kernel.fresh (P := Toy.platform Toy.stuck) (0, 0)%nat) in
  run.1 = Return tt ∧ quiet (Kernel.trace run.2) ∧
  lookup_var "losses" run.2 = Some (VList (replicate 5 (VFloat 1))) ∧
  strictly_decreasing (replicate 5 (VFloat 1)) = false.
Proof. vm_compute. done. Qed.

Lemma history_app {P} x (s s' : state P) new :
  st_vars s' = new ++ st_vars s →
  history x s' =
    history x s ++
    rev (omap (λ b : string * value, if String.eqb b.1 x then Some b.2 else None) new).
Proof. unfold history. intros ->. by rewrite omap_app, rev_app_distr. Qed.

Lemma history_untouched {P} x names (s s' : state P) new :
  st_vars s' = new ++ st_vars s →
  forallb (λ b : string * value, existsb (String.eqb b.1) names) new = true →
  x ∉ names → history x s' = history x s.
Proof.
  intros Hv Hall Hx. rewrite (history_app _ _ _ _ Hv).
  replace (omap _ new) with (@nil value); [by rewrite app_nil_r |].
  clear Hv. induction new as [| [y v] new IH]; [done |].
  cbn in Hall |- *. apply andb_prop in Hall as [Hy Hall].
  destruct (String.eqb_spec y x) as [-> | _]; [| by apply IH].
  exfalso. apply Hx. apply existsb_exists in Hy as (z & Hz & ->%String.eqb_eq).
  by apply list_elem_of_In.
Qed.

(** C7, as amended.  The values that the training cell configures
    ([n_examples], [learning_rate], [repetitions], the simulator and the
    optimizer) are bound once and go to the library as they are, and nothing
    else that the notebook holds (the four data dictionaries among it) is
    touched.  The list [losses] is the one value of the notebook that
    evolves: bound to the empty list, it then takes, repetition by
    repetition, the first 1, 2, ..., 5 of its final items, so every
    repetition appends one item and changes none.  The loop variable [e]
    runs through 0, ..., 4. *)
Theorem losses_grows_and_nothing_else_changes {P} (s s' : state P) r
    nengo_dl net tf inp entries b tg tri trt :
  lookup_var "nengo_dl" s = Some nengo_dl → lookup_var "net" s = Some net →
  lookup_var "tf" s = Some tf → lookup_var "inp" s = Some inp →
  lookup_var "test_inputs" s = Some (VDict entries) → dict_get inp entries = Some b →
  lookup_var "test_targets" s = Some tg →
  lookup_var "train_inputs" s = Some tri →
  lookup_var "train_targets" s = Some trt →
  lookup_var "print" s = None → lookup_var "range" s = None →
  Autoencoder.cell_train s = (r, s') → quiet (since s s') →
  ∃ ls,
    length ls = 5%nat ∧
    history "losses" s' =
      history "losses" s ++ ((λ k, VList (take k ls)) <$> seq 0 6) ∧
    history "e" s' = history "e" s ++ (VInt <$> seqZ 0 5) ∧
    (∀ x, x ∈ ["n_examples"; "learning_rate"; "repetitions"; "sim"; "optimizer"] →
          ∃ v, history x s' = history x s ++ [v]) ∧
    (∀ x, x ∉ ["n_examples"; "losses"; "learning_rate"; "repetitions"; "sim";
               "optimizer"; "e"] →
          history x s' = history x s).
Proof.
  intros H1 H2 H3 H4 H5 H6 H7 H8 H9 H10 H11 Hrun Hq.
  destruct (train_cell_run s s' r nengo_dl net tf inp entries b tg tri trt)
    as (c & p1 & p2 & p3 & p4 & p5 & last & left & _ & _ & _ & _ & _ & _ & _ & _ & Hv);
    try done.
  exists (Autoencoder.loss <$> [p1; p2; p3; p4; p5]). split_and!.
  - done.
  - by rewrite (history_app _ _ _ _ Hv).
  - by rewrite (history_app _ _ _ _ Hv).
  - intros x Hx. rewrite (history_app _ _ _ _ Hv).
    repeat (apply elem_of_cons in Hx as [-> | Hx]); [by eexists .. |].
    by apply elem_of_nil in Hx.
  - intros x Hx. eapply history_untouched; [exact Hv | | exact Hx]. reflexivity.
Qed.

Lemma losses_grows_and_nothing_else_changes_witness :
  let s := Toy.after Toy.halving
             [Autoencoder.cell_setup; Autoencoder.cell_mnist;
              Autoencoder.cell_parameters; Autoencoder.cell_network;
              Autoencoder.cell_data] in
  let s' := (Autoencoder.cell_train s).2 in
  ∃ ls,
    length ls = 5%nat ∧
    history "losses" s' =
      history "losses" s ++ ((λ k, VList (take k ls)) <$> seq 0 6) ∧
    history "e" s' = history "e" s ++ (VInt <$> seqZ 0 5) ∧
    (∀ x, x ∈ ["n_examples"; "learning_rate"; "repetitions"; "sim"; "optimizer"] →
          ∃ v, history x s' = history x s ++ [v]) ∧
    (∀ x, x ∉ ["n_examples"; "losses"; "learning_rate"; "repetitions"; "sim";
               "optimizer"; "e"] →
          history x s' = history x s).
Proof.
  intros s s'.
  apply (losses_grows_and_nothing_else_changes s s' (Autoencoder.cell_train s).1
           (VStr "nengo_dl") (VRef 1) (VStr "tensorflow") (VRef 10)
           [(VRef 10, VRef 19)] (VRef 19) (VDict [(VRef 17, VRef 19)])
           (VDict [(VRef 10, VRef 18)]) (VDict [(VRef 17, VRef 18)]));
    vm_compute; reflexivity.
Defined.

(** C7 as stated fails: the list that the training cell creates empty is
    not the list it ends with; it goes through six values. *)
Lemma losses_changes_after_creation :
  let h := history "losses" (Toy.after Toy.halving Autoencoder.through_training) in
  h = [VList [];
       VList [VFloat 1];
       VList [VFloat 1; VFloat 0.5];
       VList [VFloat 1; VFloat 0.5; VFloat 0.25];
       VList [VFloat 1; VFloat 0.5; VFloat 0.25; VFloat 0.125];
       VList [VFloat 1; VFloat 0.5; VFloat 0.25; VFloat 0.125; VFloat 0.0625]] ∧
  ¬ (∀ v, v ∈ h → v = VList []).
Proof.
  split; [vm_compute; reflexivity |].
  intros H. specialize (H (VList [VFloat 1])).
  assert (VList [VFloat 1] = VList []) as [=].
  apply H. vm_compute. apply elem_of_cons. right. apply elem_of_cons. by left.
Qed.

(** C10. [Encoder.__call__] answers a tensor as wide as the global
    [n_hidden_2], whatever [size_out] the instance holds; [Decoder.__call__]
    answers one as wide as the [size_out] of its instance.  Driven as the
    blocks of the two TensorNodes (the encoder declared with
    [size_out=n_hidden_2], the decoder with [size_out=n_input]), each block
    answers a tensor as wide as the declared [size_out].  The parameter cell
    sets [n_hidden_2] to 36 and [n_input] to 784, and the network cell
    declares the TensorNodes with these sizes. *)
Theorem tensor_node_output_widths {P} (width : world P → value → option Z)
    (s : state P) tf h1 h2 :
  dense_layers width →
  lookup_var "tf" s = Some tf → lookup_var "n_hidden_1" s = Some h1 →
  lookup_var "n_hidden_2" s = Some (VInt h2) →
  (∀ self t x y s',
     Autoencoder.Encoder.__call__ self t x s = (Return y, s') →
     width (st_world s') y = Some h2) ∧
  (∀ cls attrs n t x y s',
     field_get "size_out" attrs = Some (VInt n) →
     Autoencoder.Decoder.__call__ (VInst cls attrs) t x s = (Return y, s') →
     width (st_world s') y = Some n) ∧
  (∀ n_mini size_in t x y s',
     Autoencoder.drive Autoencoder.Encoder.pre_build Autoencoder.Encoder.__call__
       (VInst "Encoder" []) n_mini size_in (VInt h2) t x s = (Return y, s') →
     width (st_world s') y = Some h2) ∧
  (∀ n_mini size_in n_input t x y s',
     Autoencoder.drive Autoencoder.Decoder.pre_build Autoencoder.Decoder.__call__
       (VInst "Decoder" []) n_mini size_in (VInt n_input) t x s = (Return y, s') →
     width (st_world s') y = Some n_input) ∧
  (∀ s0 : state P,
     lookup_var "n_hidden_2" (Autoencoder.cell_parameters s0).2 = Some (VInt 36) ∧
     lookup_var "n_input" (Autoencoder.cell_parameters s0).2 = Some (VInt 784)) ∧
  (∀ (s0 s0' : state P) r nengo nengo_dl mnist n_input,
     lookup_var "nengo" s0 = Some nengo → lookup_var "nengo_dl" s0 = Some nengo_dl →
     lookup_var "mnist" s0 = Some mnist → lookup_var "object" s0 = None →
     lookup_var "n_input" s0 = Some n_input →
     lookup_var "n_hidden_2" s0 = Some (VInt h2) →
     Autoencoder.cell_network s0 = (r, s0') → quiet (since s0 s0') →
     calls_of "TensorNode" (since s0 s0') =
       [([VInst "Encoder" []],
         [("size_in", n_input); ("size_out", VInt h2); ("label", VStr "H1")]);
        ([VInst "Decoder" []],
         [("size_in", VInt h2); ("size_out", n_input); ("label", VStr "H2")])]).
Proof.
  intros Hdense Htf Hh1 Hh2.
  assert (Hwidth : ∀ (m : M P value) s',
            Logic.wp m (λ r s', ∀ y, r = Return y → width (st_world s') y = Some h2) s' →
            ∀ y s'', m s' = (Return y, s'') → width (st_world s'') y = Some h2).
  { intros m s' Hwp y s'' Hrun. by apply (wp_run _ _ _ _ _ Hrun Hwp). }
  unfold lookup_var in *. split_and!.
  - intros self t x. apply Hwidth. repeat wp_step_eq.
    all: intros y' [= <-]; cbn. by eapply Hdense.
  - intros cls attrs n t x y s' Hn Hrun.
    enough (Logic.wp (Autoencoder.Decoder.__call__ (VInst cls attrs) t x)
              (λ r s', ∀ y, r = Return y → width (st_world s') y = Some n) s) as Hwp.
    { by apply (wp_run _ _ _ _ _ Hrun Hwp). }
    repeat wp_step_eq. all: intros y' [= <-]; cbn. by eapply Hdense.
  - intros n_mini size_in t x. apply Hwidth. repeat wp_step_eq.
    all: intros y' [= <-]; cbn. by eapply Hdense.
  - intros n_mini size_in n_input t x y s' Hrun.
    enough (Logic.wp (Autoencoder.drive Autoencoder.Decoder.pre_build
                        Autoencoder.Decoder.__call__ (VInst "Decoder" [])
                        n_mini size_in (VInt n_input) t x)
              (λ r s', ∀ y, r = Return y → width (st_world s') y = Some n_input) s)
      as Hwp.
    { by apply (wp_run _ _ _ _ _ Hrun Hwp). }
    repeat wp_step_eq. all: intros y' [= <-]; cbn. by eapply Hdense.
  - done.
  - clear. intros s0 s0' r nengo nengo_dl mnist n_input ? ? ? ? ? ? Hrun.
    run_through Hrun. all: not_quiet. reflexivity.
Qed.

Lemma toy_dense_layers loss : dense_layers (P := Toy.platform loss) Toy.width.
Proof.
  intros layers [n k] fc w1 [= <- _] x m [n' k'] y w' [= <- _]. done.
Qed.

Lemma tensor_node_output_widths_witness :
  let s := Toy.after Toy.halving
             [Autoencoder.cell_setup; Autoencoder.cell_mnist;
              Autoencoder.cell_parameters] in
  let encoded := Autoencoder.Encoder.__call__ (VInst "Encoder" []) (VFloat 0) (VRef 0) s in
  encoded.1 = Return (VTuple [VStr "Tensor"; VInt 36]) ∧
  Toy.width (st_world encoded.2) (VTuple [VStr "Tensor"; VInt 36]) = Some 36.
Proof.
  intros s encoded. split; [vm_compute; reflexivity |].
  refine (proj1 (tensor_node_output_widths (P := Toy.platform Toy.halving) Toy.width s (VStr "tensorflow") (VInt 128) 36
                   (toy_dense_layers _) _ _ _)
            (VInst "Encoder" []) (VFloat 0) (VRef 0) _ _ _);
    vm_compute; reflexivity.
Defined.

(** * More facts *)

Import Lint Observe Names Loops.

(** ** More on running a program step by step *)

Section MoreSteps.
Context {P : platform}.

Lemma wp_name_global x Q (s : state P) :
  lookup_var x s = None → existsb (String.eqb x) builtins = false →
  Logic.wp (ext (Global x)) Q s → Logic.wp (name x) Q s.
Proof. unfold Logic.wp, name. by intros -> ->. Qed.

(** [x, y = v]: either the two names are bound, or the platform was asked
    for the items, and then they may be bound. *)
Lemma wp_unpack x y v Q (s : state P) :
  (∀ a b, Q (Return tt) (State (st_world s) (st_log s) ((y, b) :: (x, a) :: st_vars s))) →
  (∀ r w,
     match r with
     | Raise e => Q (Raise e) (State w ((Unpack v 2, r) :: st_log s) (st_vars s))
     | Return _ =>
         Q (Return tt) (State w ((Unpack v 2, r) :: st_log s) (st_vars s)) ∧
         ∀ a b, Q (Return tt)
                  (State w ((Unpack v 2, r) :: st_log s) ((y, b) :: (x, a) :: st_vars s))
     end) →
  Logic.wp (match v with
            | VTuple [a; b] | VList [a; b] => store x a;; store y b
            | _ => r ← ext (Unpack v 2);
                   match r with
                   | VTuple [a; b] | VList [a; b] => store x a;; store y b
                   | _ => mret tt
                   end
            end) Q s.
Proof.
  intros Hpair Hask.
  assert (Hasked : Logic.wp (r ← ext (Unpack v 2);
                             match r with
                             | VTuple [a; b] | VList [a; b] => store x a;; store y b
                             | _ => mret tt
                             end) Q s).
  { apply wp_bind, wp_ext. intros r w _. specialize (Hask r w).
    destruct r as [u | e]; [| exact Hask]. destruct Hask as [Hnone Hboth].
    destruct u as [ | | | | | | | [| a [| b [| ? ?]]] | [| a [| b [| ? ?]]] | | | | | | ];
      first [exact Hnone | apply Hboth]. }
  destruct v as [ | | | | | | | [| a [| b [| ? ?]]] | [| a [| b [| ? ?]]] | | | | | | ];
    first [exact Hasked | apply Hpair].
Qed.

End MoreSteps.

(** A step that also follows a name the namespace does not bind. *)
Ltac wp_step_any :=
  first [ wp_step | eapply wp_name_global; [find_name | reflexivity |] ].

Lemma wp_mono {P A} (m : M P A) (Q Q' : outcome A → state P → Prop) s :
  Logic.wp m Q s → (∀ r s', Q r s' → Q' r s') → Logic.wp m Q' s.
Proof. unfold Logic.wp. auto. Qed.

Lemma since_trans {P} (s s1 s2 : state P) n1 n2 :
  st_log s1 = n1 ++ st_log s → st_log s2 = n2 ++ st_log s1 →
  since s s2 = since s s1 ++ since s1 s2.
Proof.
  intros H1 H2. rewrite (since_app _ _ _ H1), (since_app _ _ _ H2).
  rewrite (since_app s s2 (n2 ++ n1)); [by rewrite rev_app_distr |].
  by rewrite H2, H1, app_assoc.
Qed.

Lemma log_grows {P A} (m : M P A) (s : state P) :
  transparent m → ∃ new, st_log (m s).2 = new ++ st_log s.
Proof. intros H. destruct (H s) as (new & Hlog & _). by exists new. Qed.

Lemma quiet_app a b : quiet (a ++ b) ↔ quiet a ∧ quiet b.
Proof. unfold quiet. rewrite forallb_app. apply andb_true_iff. Qed.

Lemma since_same {P} (s : state P) : since s s = [].
Proof. by rewrite (since_app s s []). Qed.

(** Runs a program up to its loop. *)
Ltac up_to_the_loop :=
  repeat lazymatch goal with
  | |- Logic.wp (each _ _ _) _ _ => fail
  | |- _ => wp_step
  end.

Lemma wp_equation {P A} (m : M P A) (s : state P) t :
  Logic.wp m (λ r s', (r, s') = t) s → m s = t.
Proof. unfold Logic.wp. by destruct (m s). Qed.

(** The training cell is its four assignments and the simulator's block,
    which holds the optimizer, the loop and the last step. *)
Lemma cell_train_has_the_loop {P} :
  @Autoencoder.cell_train P =
  (assign "n_examples" (lit (VInt 100));;
   assign "losses" (list_ []);;
   assign "learning_rate" (lit (VFloat 0.05));;
   assign "repetitions" (lit (VInt 5));;
   with_ (call (attr (name "nengo_dl") "Simulator") [name "net"]
            [("minibatch_size", name "n_examples"); ("device", lit (VStr "/cpu:0"))])
     (Some "sim")
     (assign "optimizer"
        (call (attr (attr (name "tf") "train") "MomentumOptimizer")
           [name "learning_rate"; lit (VFloat 0.9)] []);;
      training_loop;;
      Autoencoder.step_test_batch)).
Proof. reflexivity. Qed.

(** Names the log of a state that extends the log of [s]. *)
Ltac log_known :=
  cbn [st_log];
  lazymatch goal with
  | |- ?l = _ ++ ?t => let new := log_prefix l t in exact (eq_refl : l = new ++ t)
  end.

(** ** The stored documents *)

(** X1. Both notebooks are stored unexecuted: each has eight code cells, and
    every code cell has a null execution count and an empty list of outputs,
    so the stored documents hold code only and nothing of an earlier run. *)
Theorem notebooks_are_stored_unexecuted :
  forallb unexecuted (List.filter is_code (cells ch2_scalars_ipynb)) = true ∧
  forallb unexecuted (List.filter is_code (cells autoencoder_ipynb)) = true ∧
  length (List.filter is_code (cells ch2_scalars_ipynb)) = 8%nat ∧
  length (List.filter is_code (cells autoencoder_ipynb)) = 8%nat.
Proof. split_and!; vm_compute; reflexivity. Qed.

(** X2. What the imports are for.  The scalar notebook binds nine names by
    imports and never mentions one of them, [rasterplot], again (outside
    comments and string literals); the autoencoder notebook binds six names
    by imports and uses every one of them. *)
Theorem one_import_is_never_used :
  imported_names ch2_scalars_ipynb =
    ["np"; "plt"; "nengo"; "Uniform"; "rasterplot"; "tuning_curves"; "IPythonViz";
     "Image"; "Choice"] ∧
  unused_imports ch2_scalars_ipynb = ["rasterplot"] ∧
  imported_names autoencoder_ipynb = ["nengo"; "nengo_dl"; "np"; "tf"; "plt"; "input_data"] ∧
  unused_imports autoencoder_ipynb = [].
Proof. split_and!; vm_compute; reflexivity. Qed.

(** ** Context managers are left as they are entered *)

Lemma contexts_app evs1 evs2 open :
  contexts (evs1 ++ evs2) open = contexts evs1 open ≫= contexts evs2.
Proof.
  revert open. induction evs1 as [| [o r] evs1 IH]; intros open; [done |].
  destruct o; cbn; try apply IH.
  - destruct r; apply IH.
  - destruct open as [| m open]; [done |]. destruct (same m mgr); [apply IH | done].
Qed.

Section Bracketed.
Context {P : platform}.
Local Abbreviation bracketed := (@Observe.bracketed P _).

Lemma bracketed_ret {A} (a : A) : bracketed (mret a).
Proof. intros s. by exists []. Qed.

Lemma bracketed_ext (o : op) : plain o = true → bracketed (ext o).
Proof.
  intros Ho s. unfold ext. destruct (exec P o (st_world s)) as [r w].
  exists [(o, r)]. split; [done |]. intros open. by destruct o.
Qed.

Lemma bracketed_store x v : bracketed (store x v).
Proof. intros s. by exists []. Qed.

Lemma bracketed_raise {A} e : bracketed (raise (A := A) e).
Proof. intros s. by exists []. Qed.

Lemma bracketed_bind {A B} (m : M P A) (k : A → M P B) :
  bracketed m → (∀ a, bracketed (k a)) → bracketed (m ≫= k).
Proof.
  intros Hm Hk s. unfold mbind, M_bind.
  destruct (Hm s) as (new1 & Hlog1 & H1).
  destruct (m s) as [[a | e] s1]; cbn in *; [| exists new1; split; [exact Hlog1 | exact H1]].
  destruct (Hk a s1) as (new2 & Hlog2 & H2).
  exists (new2 ++ new1). split.
  - by rewrite Hlog2, Hlog1, app_assoc.
  - intros open. rewrite rev_app_distr, contexts_app, H1. apply H2.
Qed.

Lemma bracketed_name x : bracketed (name x).
Proof.
  intros s. unfold name. destruct (lookup_var x s).
  - apply (bracketed_ret v s).
  - destruct (existsb _ _).
    + apply (bracketed_ret (VBuiltin x) s).
    + by apply bracketed_ext.
Qed.

Lemma bracketed_each x items (body : M P unit) :
  bracketed body → bracketed (each x items body).
Proof.
  intros Hbody. induction items as [| v items IH]; cbn.
  - apply bracketed_ret.
  - apply bracketed_bind; [apply bracketed_store | intros _].
    by apply bracketed_bind.
Qed.

Lemma bracketed_with (e : M P value) target (body : M P unit) :
  bracketed e → bracketed body → bracketed (with_ e target body).
Proof.
  intros He Hbody s. unfold with_, mbind, M_bind.
  destruct (He s) as (new0 & Hlog0 & H0).
  destruct (e s) as [[mgr | x] s0]; cbn in *; [| exists new0; split; [exact Hlog0 | exact H0]].
  unfold ext at 1. destruct (exec P (Enter mgr) (st_world s0)) as [[v | x] w].
  2:{ exists ((Enter mgr, Raise x) :: new0). cbn. split; [by rewrite Hlog0 |].
      intros open. by rewrite contexts_app, H0. }
  cbn.
  assert (Hrest : ∀ s1 : state P, st_log s1 = (Enter mgr, Return v) :: st_log s0 →
            ∃ new, st_log ((r ← attempt body;
                            match r with
                            | Return _ => ext (Exit mgr None);; mret tt
                            | Raise x => a ← ext (Exit mgr (Some x));
                                         if truthy a then mret tt else raise x
                            end) s1).2 = new ++ st_log s ∧
                   ∀ open, contexts (rev new) open = Some open).
  { intros s1 Hl1. unfold mbind, M_bind, attempt.
    destruct (Hbody s1) as (new1 & Hlog1 & H1).
    assert (Hopen : ∀ open, contexts (rev (new1 ++ (Enter mgr, Return v) :: new0)) open
                            = Some (mgr :: open)).
    { intros open. rewrite rev_app_distr. cbn. rewrite <- app_assoc, contexts_app, H0. cbn.
      apply H1. }
    assert (Hclose : ∀ exc a open,
              contexts (rev ((Exit mgr exc, a) :: new1 ++ (Enter mgr, Return v) :: new0)) open
              = Some open).
    { intros exc a open. cbn [rev]. rewrite contexts_app, Hopen. cbn. by rewrite same_refl. }
    destruct (body s1) as [[u | x] s2]; cbn in *.
    - unfold ext. destruct (exec P (Exit mgr None) (st_world s2)) as [[a | x] w2]; cbn;
        eexists (_ :: new1 ++ _ :: new0);
        (split; [cbn [app]; by rewrite Hlog1, Hl1, Hlog0, <- app_assoc |]); apply Hclose.
    - unfold ext. destruct (exec P (Exit mgr (Some x)) (st_world s2)) as [[a | x'] w2]; cbn;
        [destruct (truthy a) |];
        eexists (_ :: new1 ++ _ :: new0);
        (split; [cbn [app]; by rewrite Hlog1, Hl1, Hlog0, <- app_assoc |]); apply Hclose. }
  destruct target as [x |]; cbn; by apply Hrest.
Qed.

End Bracketed.

(** Takes a program apart down to its requests. *)
Ltac bracketing :=
  repeat lazymatch goal with
  | |- Forall _ [] => apply Forall_nil_2
  | |- Forall _ (_ :: _) => apply Forall_cons_2
  | |- Forall _ (_ ++ _) => apply Forall_app
  | |- Forall _ ?l => let h := head_of l in progress unfold h
  | |- _ ∧ _ => split
  | |- ∀ _, _ => intro
  | |- Observe.bracketed (mbind _ _) => apply bracketed_bind
  | |- Observe.bracketed (mret _) => apply bracketed_ret
  | |- Observe.bracketed (ext _) => apply bracketed_ext; reflexivity
  | |- Observe.bracketed (store _ _) => apply bracketed_store
  | |- Observe.bracketed (name _) => apply bracketed_name
  | |- Observe.bracketed (each _ _ _) => apply bracketed_each
  | |- Observe.bracketed (with_ _ _ _) => apply bracketed_with
  | |- Observe.bracketed (sequence _) => cbn [sequence]
  | |- Observe.bracketed (sequence_kw _) => cbn [sequence_kw]
  | |- Observe.bracketed (match ?x with _ => _ end) => destruct x
  | |- Observe.bracketed (if ?b then _ else _) => destruct b
  | |- Observe.bracketed (let _ := _ in _) => cbv zeta
  | |- Observe.bracketed ?m => let h := head_of m in progress unfold h
  end.

(** X3. Every context manager that a code cell enters is left before the cell
    ends, innermost first, in every run and on every platform: also when a
    request inside the [with] block raises.  Whatever managers were open when
    the cell started are open when it ends, and no others. *)
Theorem contexts_are_left (P : platform) :
  Forall (λ c : M P unit, ∀ s open, contexts (since s (c s).2) open = Some open)
         (Scalars.code ++ Autoencoder.code).
Proof.
  assert (H : Forall (@Observe.bracketed P unit) (Scalars.code ++ Autoencoder.code)).
  { bracketing. }
  eapply Forall_impl; [exact H |]. intros c Hc s open.
  destruct (Hc s) as (new & Hlog & Hnew). by rewrite (since_app _ _ _ Hlog).
Qed.

(** ** Names are bound before they are used *)

(** Membership in lists put together from given lists. *)
Ltac members :=
  let x := fresh "x" in
  intros x; cbn [app]; rewrite ?elem_of_app, ?elem_of_cons, ?elem_of_nil; tauto.

Section Scoped.
Context {P : platform}.
Local Abbreviation scoped := (@Names.scoped P).
Local Abbreviation bound := (@Names.bound P).

Lemma keeps_refl (s s' : state P) : st_vars s' = st_vars s → keeps s s'.
Proof. intros Hv x. unfold lookup_var. by rewrite Hv. Qed.

Lemma keeps_trans (s1 s2 s3 : state P) : keeps s1 s2 → keeps s2 s3 → keeps s1 s3.
Proof. intros H1 H2 x Hx. by apply H2, H1. Qed.

Lemma keeps_store x v (s : state P) :
  keeps s (State (st_world s) (st_log s) ((x, v) :: st_vars s)).
Proof. intros y Hy. unfold lookup_var. cbn. by destruct (String.eqb x y). Qed.

Lemma bound_keeps N (s s' : state P) : keeps s s' → bound N s → bound N s'.
Proof. intros Hk H x Hx. by apply Hk, H. Qed.

Lemma bound_sub N N' (s : state P) : (∀ x, x ∈ N' → x ∈ N) → bound N s → bound N' s.
Proof. intros Hsub H x Hx. by apply H, Hsub. Qed.

Lemma bound_app N N' (s : state P) : bound N s → bound N' s → bound (N ++ N') s.
Proof. intros H H' x [Hx | Hx]%elem_of_app; [by apply H | by apply H']. Qed.

Lemma bound_nil (s : state P) : bound [] s.
Proof. intros x Hx. by apply elem_of_nil in Hx. Qed.

Lemma bound_store x v (s : state P) :
  bound [x] (State (st_world s) (st_log s) ((x, v) :: st_vars s)).
Proof.
  intros y Hy. apply list_elem_of_singleton in Hy. subst y.
  unfold lookup_var. cbn [st_vars field_get]. by rewrite String.eqb_refl.
Qed.

Lemma scoped_ret {A} N (a : A) : scoped N (mret a) [].
Proof.
  intros s. exists []. split_and!; [done | by apply keeps_refl |].
  intros Hs. right. split; [done |]. intros _ _. apply bound_nil.
Qed.

Lemma scoped_ext N (o : op) : (∀ r, asks_global (o, r) = false) → scoped N (ext o) [].
Proof.
  intros Ho s. unfold ext. destruct (exec P o (st_world s)) as [r w].
  exists [(o, r)]. split_and!; [done | by apply keeps_refl |]. intros Hs. right. split.
  - repeat constructor. apply Ho.
  - intros _ _. apply bound_nil.
Qed.

Lemma scoped_store N x v : scoped N (store x v) [x].
Proof.
  intros s. exists []. split_and!; [done | apply keeps_store |].
  intros Hs. right. split; [done |]. intros _ _. apply bound_store.
Qed.

Lemma scoped_name N x : existsb (String.eqb x) (N ++ builtins) = true → scoped N (name x) [].
Proof.
  intros Hx s. unfold name.
  destruct (lookup_var x s) as [v |] eqn:E; [apply (scoped_ret N v s) |].
  destruct (existsb (String.eqb x) builtins) eqn:Eb; [apply (scoped_ret N (VBuiltin x) s) |].
  unfold ext. destruct (exec P (Global x) (st_world s)) as [r w].
  exists [(Global x, r)]. split_and!; [done | by apply keeps_refl |]. intros Hs. exfalso.
  rewrite existsb_app, Eb, orb_false_r in Hx.
  apply existsb_exists in Hx as (y & Hy & <-%String.eqb_eq).
  destruct (Hs x) as [v Hv]; [by apply list_elem_of_In | congruence].
Qed.

Lemma scoped_bind {A B} N (m : M P A) (k : A → M P B) N1 N2 :
  scoped N m N1 → (∀ a, scoped (N1 ++ N) (k a) N2) → scoped N (m ≫= k) (N2 ++ N1).
Proof.
  intros Hm Hk s. unfold mbind, M_bind.
  destruct (Hm s) as (new1 & Hlog1 & Hk1 & H1).
  destruct (m s) as [[a | e] s1]; cbn in *.
  2:{ exists new1. split_and!; [done .. |]. intros Hs.
      destruct (H1 Hs) as [? | [? _]]; [by left | right]. by split. }
  destruct (Hk a s1) as (new2 & Hlog2 & Hk2 & H2).
  exists (new2 ++ new1). split_and!.
  - by rewrite Hlog2, Hlog1, app_assoc.
  - by eapply keeps_trans.
  - intros Hs. rewrite rev_app_distr.
    destruct (H1 Hs) as [Hsw | [Hg1 Hb1]]; [left; apply Exists_app; by left |].
    destruct H2 as [Hsw | [Hg2 Hb2]].
    { apply bound_app; [by eapply Hb1 | by eapply bound_keeps]. }
    { left. apply Exists_app. by right. }
    right. split; [by apply Forall_app |]. intros b Hb.
    apply bound_app; [by eapply Hb2 | eapply bound_keeps; [exact Hk2 | by eapply Hb1]].
Qed.

Lemma scoped_sub {A} N N0 (m : M P A) N1 N2 :
  scoped N m N1 → (∀ x, x ∈ N → x ∈ N0) → (∀ x, x ∈ N2 → x ∈ N1 ++ N0) →
  scoped N0 m N2.
Proof.
  intros Hm Hctx Hsub s. destruct (Hm s) as (new & Hlog & Hkeep & H).
  exists new. split_and!; [done .. |]. intros Hs.
  destruct H as [? | [Hg Hb]]; [by eapply bound_sub | by left | right]. split; [done |].
  intros a Ha. eapply bound_sub; [exact Hsub |].
  apply bound_app; [by eapply Hb | by eapply bound_keeps].
Qed.

Lemma scoped_each N x items (body : M P unit) Nb :
  scoped ([x] ++ N) body Nb → scoped N (each x items body) [].
Proof.
  intros Hbody. induction items as [| v items IH]; cbn [each]; [apply scoped_ret |].
  eapply scoped_sub.
  { eapply scoped_bind; [apply scoped_store | intros _].
    eapply scoped_bind; [exact Hbody | intros _].
    eapply scoped_sub; [exact IH | members | members]. }
  all: members.
Qed.

Lemma scoped_with N (e : M P value) target (body : M P unit) Ne Nb :
  scoped N e Ne → scoped (targets target ++ N) body Nb →
  scoped N (with_ e target body) (Nb ++ targets target).
Proof.
  intros He Hbody. unfold with_.
  eapply scoped_sub; [| shelve | shelve].
  eapply scoped_bind; [exact He | intros mgr].
  eapply scoped_bind; [by apply scoped_ext | intros v].
  eapply (scoped_bind _ _ _ (targets target) Nb).
  { destruct target; [apply scoped_store | apply scoped_ret]. }
  intros _ s. unfold mbind, M_bind, attempt.
  destruct (Hbody s) as (new1 & Hlog1 & Hk1 & H1).
  assert (Hctx : bound (targets target ++ [] ++ Ne ++ N) s → bound (targets target ++ N) s).
  { apply bound_sub. members. }
  destruct (body s) as [[u | x] s1]; cbn in *.
  - unfold ext. destruct (exec P (Exit mgr None) (st_world s1)) as [r w]. cbn.
    exists ((Exit mgr None, r) :: new1).
    split_and!; [destruct r; cbn; by rewrite Hlog1
                | destruct r; (eapply keeps_trans; [exact Hk1 | by apply keeps_refl]) |].
    intros Hs. cbn [rev].
    destruct (H1 (Hctx Hs)) as [Hsw | [Hg1 Hb1]]; [left; apply Exists_app; by left |].
    right. split; [apply Forall_app; split; [done | by repeat constructor] |].
    destruct r; cbn; [| done]. intros _ _.
    eapply bound_keeps; [by apply keeps_refl | by eapply Hb1].
  - unfold ext. destruct (exec P (Exit mgr (Some x)) (st_world s1)) as [r w]. cbn.
    exists ((Exit mgr (Some x), r) :: new1).
    split_and!; [destruct r as [a |]; [destruct (truthy a) |]; cbn; by rewrite Hlog1
                | destruct r as [a |]; [destruct (truthy a) |];
                  (eapply keeps_trans; [exact Hk1 | by apply keeps_refl]) |].
    intros Hs. cbn [rev].
    destruct (H1 (Hctx Hs)) as [Hsw | [Hg1 Hb1]]; [left; apply Exists_app; by left |].
    destruct r as [a | x']; cbn.
    + destruct (truthy a) eqn:Ha; cbn.
      * left. apply Exists_app. right. by repeat constructor.
      * right. split; [apply Forall_app; split; [done | by repeat constructor] | done].
    + right. split; [apply Forall_app; split; [done | by repeat constructor] | done].
  Unshelve. all: members.
Qed.

Lemma scoped_assign2 N x y (e : M P value) Ne :
  unpacks_pairs P → scoped N e Ne → scoped N (assign2 x y e) [y; x].
Proof.
  intros Hpairs He. unfold assign2.
  eapply scoped_sub; [| shelve | shelve].
  eapply scoped_bind; [exact He | intros v].
  assert (Hstore : ∀ a b, scoped (Ne ++ N) (store x a;; store y b) ([y] ++ [x])).
  { intros a b. eapply scoped_bind; [apply scoped_store | intros _; apply scoped_store]. }
  assert (Hask : scoped (Ne ++ N)
            (r ← ext (Unpack v 2);
             match r with
             | VTuple [a; b] | VList [a; b] => store x a;; store y b
             | _ => mret tt
             end) ([y] ++ [x])).
  { intros s. unfold mbind, M_bind, ext.
    destruct (exec P (Unpack v 2) (st_world s)) as [[r | err] w] eqn:E.
    - destruct (Hpairs _ _ _ _ E) as (a & b & Hr).
      destruct (Hstore a b (State w ((Unpack v 2, Return r) :: st_log s) (st_vars s)))
        as (new & Hlog & Hkeep & H).
      exists (new ++ [(Unpack v 2, Return r)]).
      assert (Hs' : bound (Ne ++ N) s →
                    bound (Ne ++ N)
                      (State w ((Unpack v 2, Return r) :: st_log s) (st_vars s))).
      { apply bound_keeps. by apply keeps_refl. }
      destruct Hr as [-> | ->]; cbn [fst snd] in *;
        (split_and!; [rewrite <- app_assoc; exact Hlog
                     | eapply keeps_trans; [| exact Hkeep]; by apply keeps_refl |]);
        intros Hs; rewrite rev_app_distr;
        (destruct (H (Hs' Hs)) as [Hsw | [Hg Hb]]; [left; apply Exists_app; by right |]);
        right; (split; [apply Forall_app; split; [by repeat constructor | done] | done]).
    - exists [(Unpack v 2, Raise err)]. split_and!; [done | by apply keeps_refl |].
      intros Hs. right. split; [by repeat constructor | done]. }
  destruct v as [ | | | | | | | [| a [| b [| ? ?]]] | [| a [| b [| ? ?]]] | | | | | | ];
    first [apply Hstore | apply Hask].
  Unshelve. all: members.
Qed.

End Scoped.

Lemma scoped_drop {P A} N (m : M P A) N1 : Names.scoped N m N1 → Names.scoped N m [].
Proof.
  intros Hm. eapply scoped_sub; [exact Hm | done |]. intros x Hx. by apply elem_of_nil in Hx.
Qed.

(** Takes a program apart statement by statement, collecting the names that
    are bound on the way; [contract] is the evidence that the platform
    unpacks pairs, where the program has a tuple assignment. *)
Ltac scoping contract :=
  lazymatch goal with
  | |- ∀ _, _ => intro; scoping contract
  | |- Names.scoped ?N ?m ?out =>
      tryif is_evar out then
        lazymatch m with
        | mbind _ _ => eapply scoped_bind; [scoping contract | scoping contract]
        | mret _ => apply scoped_ret
        | ext _ => apply scoped_ext; intros; reflexivity
        | store _ _ => apply scoped_store
        | name _ => apply scoped_name; vm_compute; reflexivity
        | each _ _ _ => eapply scoped_each; scoping contract
        | with_ _ _ _ => eapply scoped_with; [scoping contract | scoping contract]
        | assign2 _ _ _ => eapply scoped_assign2; [exact contract | scoping contract]
        | sequence _ => cbn [sequence]; scoping contract
        | sequence_kw _ => cbn [sequence_kw]; scoping contract
        | run_all ?l => let h := head_of l in unfold h; cbn [run_all]; scoping contract
        | match ?x with _ => _ end =>
            unify out (@nil string); destruct x; scoping contract
        | if ?b then _ else _ =>
            unify out (@nil string); destruct b; scoping contract
        | let _ := _ in _ => cbv zeta; scoping contract
        | _ => let h := head_of m in unfold h; scoping contract
        end
      else (eapply scoped_drop; scoping contract)
  end.

(** X4. The scalar notebook binds every name before it uses it.  Run in
    document order from any state of the kernel (up to the first cell that
    raises), on any platform, the cells never ask for a name that is neither
    bound nor a builtin, unless the [__exit__] of a context manager swallowed
    an exception before. *)
Theorem scalar_cells_find_their_names (P : platform) (s : state P) :
  let s' := (run_all Scalars.code s).2 in
  Exists (λ ev, swallowed ev = true) (since s s') ∨
  Forall (λ ev, asks_global ev = false) (since s s').
Proof.
  intros s'.
  eassert (H : Names.scoped [] (run_all (@Scalars.code P)) _) by scoping I.
  destruct (H s) as (new & Hlog & _ & Hn). unfold s'. rewrite (since_app _ _ _ Hlog).
  destruct Hn as [? | [? _]]; [apply bound_nil | by left | by right].
Qed.

(** X5. The autoencoder notebook binds every name before it uses it, on a
    platform that takes a value apart into two items or raises (the
    interpreter's contract for [figure, axis = ...]).  Run in document order
    from any state of the kernel (up to the first cell that raises), the
    cells never ask for a name that is neither bound nor a builtin, unless
    the [__exit__] of a context manager swallowed an exception before. *)
Theorem autoencoder_cells_find_their_names (P : platform) (s : state P) :
  unpacks_pairs P →
  let s' := (run_all Autoencoder.code s).2 in
  Exists (λ ev, swallowed ev = true) (since s s') ∨
  Forall (λ ev, asks_global ev = false) (since s s').
Proof.
  intros Hpairs s'.
  eassert (H : Names.scoped [] (run_all (@Autoencoder.code P)) _) by scoping Hpairs.
  destruct (H s) as (new & Hlog & _ & Hn). unfold s'. rewrite (since_app _ _ _ Hlog).
  destruct Hn as [? | [? _]]; [apply bound_nil | by left | by right].
Qed.

Lemma toy_unpacks_pairs loss : unpacks_pairs (Toy.platform loss).
Proof. intros o [n k] r w' [=]. Qed.

Lemma autoencoder_cells_find_their_names_witness :
  let s := Kernel.fresh (P := Toy.platform Toy.halving) (0, 0)%nat in
  let s' := (run_all Autoencoder.code s).2 in
  Exists (λ ev, swallowed ev = true) (since s s') ∨
  Forall (λ ev, asks_global ev = false) (since s s').
Proof.
  intros s.
  exact (autoencoder_cells_find_their_names (Toy.platform Toy.halving) s
           (toy_unpacks_pairs Toy.halving)).
Defined.

(** ** Which cells can run first *)

(** A request on a platform that answers no unbound name. *)
Ltac wp_request_strict Hne :=
  let v := fresh "v" in let w := fresh "w" in let E := fresh "E" in
  apply wp_ext; intros [v | v] w E;
  cbn [st_world st_log st_vars] in E |- *; lazy beta iota;
  lazymatch type of E with
  | exec _ (Global ?x) ?w0 = (Return _, _) =>
      let He := fresh "He" in
      destruct (Hne x w0) as (? & ? & He); rewrite He in E; discriminate E
  | _ => clear E
  end.

Ltac wp_step_strict Hne :=
  first [ wp_step_with ltac:(wp_request_strict Hne)
        | eapply wp_name_global; [find_name | reflexivity |] ].

(** The requests of a known log that ask for a global. *)
Ltac only_global :=
  let y := fresh "y" in let a := fresh "a" in let Hin := fresh "Hin" in
  intros y a Hin; unfold trace in Hin; cbn [st_log rev app] in Hin;
  repeat (apply elem_of_cons in Hin as [Hin | Hin];
          [first [discriminate Hin | by injection Hin as -> _] |]);
  by apply elem_of_nil in Hin.

(** X6. Which cells can run first.  On a platform that raises for a name that
    is neither bound nor a builtin, each cell that reads a name of an earlier
    cell fails when it is run on a fresh kernel: it ends with an exception,
    and the one unbound name it can get to ask for is the name listed with
    it.  The other cells (the two set-up cells, the image cell, the data-set
    cell, the parameter cell and the empty cell) depend on no earlier cell:
    run in any state on any platform, they ask for no unbound name. *)
Theorem later_cells_need_the_earlier_ones {P} (w : world P) :
  name_errors P →
  Forall (λ cx : M P unit * string,
            ∃ e, (cx.1 (fresh w)).1 = Raise e ∧
                 ∀ y a, (Global y, a) ∈ trace (cx.1 (fresh w)).2 → y = cx.2)
    [(Scalars.cell_model, "nengo"); (Scalars.cell_viz, "model");
     (Scalars.cell_run, "nengo"); (Scalars.cell_tuning, "plt");
     (Scalars.cell_intercepts, "x"); (Scalars.cell_encoders, "Choice");
     (Autoencoder.cell_network, "nengo"); (Autoencoder.cell_data, "inp");
     (Autoencoder.cell_train, "nengo_dl"); (Autoencoder.cell_plot, "plt")] ∧
  Forall (λ c : M P unit,
            ∀ s, Forall (λ ev, asks_global ev = false) (since s (c s).2))
    [Scalars.cell_setup; Scalars.cell_image; Autoencoder.cell_setup;
     Autoencoder.cell_mnist; Autoencoder.cell_parameters; Autoencoder.cell_empty].
Proof.
  intros Hne. split.
  - repeat apply Forall_cons_2; try apply Forall_nil_2; cbn [fst snd].
    all: lazymatch goal with
         | |- ∃ e, (?c ?s0).1 = Raise e ∧ ∀ y a, _ ∈ trace (?c ?s0).2 → y = ?x =>
             change (Logic.wp c (λ r s', ∃ e, r = Raise e ∧
                                   ∀ y a, (Global y, a) ∈ trace s' → y = x) s0)
         end.
    all: unfold fresh; repeat wp_step_strict Hne.
    all: eexists; split; [reflexivity | only_global].
  - repeat apply Forall_cons_2; try apply Forall_nil_2; intros s.
    all: lazymatch goal with
         | |- Forall ?Q (since ?s0 (?c ?s0).2) =>
             change (Logic.wp c (λ _ s', Forall Q (since s0 s')) s0)
         end.
    all: repeat wp_step.
    all: first [rewrite since_same; constructor | since_known; repeat constructor].
Qed.

Lemma toy_name_errors loss : name_errors (Toy.platform loss).
Proof. intros x [n k]. by eexists _, _. Qed.

Lemma later_cells_need_the_earlier_ones_witness :
  let s0 := fresh (P := Toy.platform Toy.halving) (0, 0)%nat in
  (Scalars.cell_tuning s0).1 = Raise (VStr "NameError") ∧
  ∀ y a, (Global y, a) ∈ trace (Scalars.cell_tuning s0).2 → y = "plt".
Proof.
  intros s0. split; [vm_compute; reflexivity |].
  pose proof (proj1 (later_cells_need_the_earlier_ones (P := Toy.platform Toy.halving)
                       (0, 0)%nat (toy_name_errors Toy.halving))) as H.
  do 3 apply Forall_cons_1 in H as [_ H]. apply Forall_cons_1 in H as [(e & _ & Hg) _].
  exact Hg.
Defined.

(** ** The loops, for any number of repetitions *)

(** One repetition, with the binding of the loop variable before it: when it
    ends normally its requests are those of a pass and [losses] has one more
    item; when it raises, [losses] has the item if the loss was answered. *)
Lemma repetition_outcomes {P} (s s1 : state P) r1 c ls e0 :
  prepared c s → lookup_var "losses" s = Some (VList ls) →
  (store "e" (VInt e0);; Autoencoder.repetition) s = (r1, s1) →
  match r1 with
  | Return _ =>
      ∃ p, since s s1 = Autoencoder.pass_events c ls p ∧
           st_vars s1 =
             [("losses", VList (ls ++ [Autoencoder.loss p])); ("e", VInt e0)] ++ st_vars s
  | Raise _ =>
      ¬ quiet (since s s1) ∧
      ∃ vs, answers_of "loss" (since s s1) = vs ∧ (length vs ≤ 1)%nat ∧
            lookup_var "losses" s1 = Some (VList (ls ++ vs))
  end.
Proof.
  intros (Hsim & Hinp & Hti & (entries & Hte & Hd) & Htt & Htri & Htrt & Hopt & Hn & Hpr)
    Hl Hrun.
  rewrite Hte in Hti.
  run_through Hrun.
  all: since_known.
  all: try (split; [intros Hq; discriminate Hq |]; eexists; split; [reflexivity |];
            split; [cbn; lia |]; cbn; rewrite ?app_nil_r; first [reflexivity | assumption]).
  eexists (Autoencoder.Pass _ _ _ _ _ _ _ _). unfold Autoencoder.pass_events. cbn.
  rewrite Hte. split; reflexivity.
Qed.

Lemma prepared_after_pass {P} c (s s1 : state P) a b :
  prepared c s → st_vars s1 = [("losses", a); ("e", b)] ++ st_vars s → prepared c s1.
Proof. unfold prepared, lookup_var. intros H ->. exact H. Qed.

Lemma answers_pass c ls p rest :
  answers_of "loss" (Autoencoder.pass_events c ls p ++ rest) =
  Autoencoder.loss p :: answers_of "loss" rest.
Proof. reflexivity. Qed.

Lemma answers_passes c ps : ∀ ls rest,
  answers_of "loss" (Autoencoder.passes_events c ls ps ++ rest) =
  (Autoencoder.loss <$> ps) ++ answers_of "loss" rest.
Proof.
  induction ps as [| p ps IH]; intros ls rest; [done |].
  cbn [Autoencoder.passes_events]. rewrite <- app_assoc, answers_pass, IH. done.
Qed.

Lemma quiet_passes c ps : ∀ ls, quiet (Autoencoder.passes_events c ls ps).
Proof.
  induction ps as [| p ps IH]; intros ls; [done |].
  cbn [Autoencoder.passes_events]. apply quiet_app. split; [done | apply IH].
Qed.

Lemma losses_after_passes ps : ∀ ls e0 vars,
  field_get "losses" vars = Some (VList ls) →
  field_get "losses" (Autoencoder.passes_vars ls e0 ps ++ vars) =
  Some (VList (ls ++ (Autoencoder.loss <$> ps))).
Proof.
  induction ps as [| p ps IH]; intros ls e0 vars Hl; cbn.
  - by rewrite app_nil_r.
  - rewrite <- app_assoc, (IH (ls ++ [Autoencoder.loss p])); [by rewrite <- app_assoc |].
    reflexivity.
Qed.

(** The repetitions over the items [e0, e0 + 1, ...]: either all of them run
    and each is a pass, or one raises and [losses] keeps what was answered up
    to there. *)
Lemma training_passes {P} c k : ∀ e0 ls (s s' : state P) r,
  prepared c s → lookup_var "losses" s = Some (VList ls) →
  each "e" (VInt <$> seqZ e0 (Z.of_nat k)) Autoencoder.repetition s = (r, s') →
  match r with
  | Return _ =>
      ∃ ps, length ps = k ∧ since s s' = Autoencoder.passes_events c ls ps ∧
            st_vars s' = Autoencoder.passes_vars ls e0 ps ++ st_vars s
  | Raise _ =>
      ¬ quiet (since s s') ∧
      ∃ vs, answers_of "loss" (since s s') = vs ∧ (length vs ≤ k)%nat ∧
            lookup_var "losses" s' = Some (VList (ls ++ vs))
  end.
Proof.
  induction k as [| k IH]; intros e0 ls s s' r Hp Hl Hrun.
  - injection Hrun as <- <-. exists []. by rewrite since_same.
  - rewrite Nat2Z.inj_succ, seqZ_cons in Hrun by lia.
    replace (Z.pred (Z.succ (Z.of_nat k))) with (Z.of_nat k) in Hrun by lia.
    cbn [fmap list_fmap each] in Hrun.
    set (rest := each "e" _ _) in Hrun.
    change ((store "e" (VInt e0);; Autoencoder.repetition;; rest) s)
      with (((store "e" (VInt e0);; Autoencoder.repetition) ≫= λ _, rest) s) in Hrun.
    assert (T1 : transparent (store (P := P) "e" (VInt e0);; Autoencoder.repetition))
      by transparency.
    assert (T2 : transparent rest) by (apply transparent_each; transparency).
    destruct (log_grows _ s T1) as [n1 Hn1].
    destruct (log_grows _ ((store "e" (VInt e0);; Autoencoder.repetition) s).2 T2)
      as [n2 Hn2].
    unfold mbind at 1, M_bind at 1 in Hrun.
    destruct ((store "e" (VInt e0);; Autoencoder.repetition) s) as [r1 s1] eqn:E1.
    pose proof (repetition_outcomes s s1 r1 c ls e0 Hp Hl E1) as H1.
    cbn [snd] in Hn1, Hn2. destruct r1 as [u | x].
    + destruct H1 as (p & Hev & Hv).
      assert (Hl1 : lookup_var "losses" s1 = Some (VList (ls ++ [Autoencoder.loss p]))).
      { unfold lookup_var. by rewrite Hv. }
      pose proof (IH (Z.succ e0) _ s1 s' r (prepared_after_pass _ _ _ _ _ Hp Hv) Hl1 Hrun)
        as H2.
      rewrite Hrun in Hn2. cbn [snd] in Hn2.
      rewrite (since_trans s s1 s' _ _ Hn1 Hn2), Hev.
      destruct r as [u' | x].
      * destruct H2 as (ps & Hlen & Hev' & Hv'). exists (p :: ps). split_and!.
        -- cbn. by rewrite Hlen.
        -- by rewrite Hev'.
        -- rewrite Hv', Hv. cbn [Autoencoder.passes_vars]. by rewrite <- app_assoc.
      * destruct H2 as (Hnq & vs & Hvs & Hlen & Hlos). split.
        { intros [_ Hq]%quiet_app. by apply Hnq. }
        exists (Autoencoder.loss p :: vs). split_and!.
        -- by rewrite answers_pass, Hvs.
        -- cbn. lia.
        -- rewrite Hlos. by rewrite <- app_assoc.
    + injection Hrun as <- <-. destruct H1 as (Hnq & vs & Hvs & Hlen & Hlos).
      split; [done |]. exists vs. split_and!; [done | lia | done].
Qed.

(** The loop starts by asking [range] for its items, which is no request. *)
Lemma training_loop_unfolds {P} (s : state P) n :
  lookup_var "repetitions" s = Some (VInt n) → lookup_var "range" s = None →
  training_loop s = each "e" (VInt <$> seqZ 0 (Z.of_nat (Z.to_nat n))) Autoencoder.repetition s.
Proof.
  intros Hn Hr. apply wp_equation. unfold lookup_var in *. up_to_the_loop.
  unfold Logic.wp, seqZ. rewrite Nat2Z.id. by destruct (each _ _ _ _).
Qed.

(** X7. The training loop for any number of repetitions.  With [repetitions]
    bound to the integer [n] and [losses] to a list, a run of the loop in
    which no request raises makes one pass per item of [range(n)] (none when
    [n] is not positive): each pass asks for the loss on the test data,
    prints the list, steps once on the first hundred test images and trains
    once on the training data; the loop variable counts from 0, [losses]
    gets the answered loss of every pass appended in order, and the loop
    ends normally. *)
Theorem training_loop_makes_one_pass_per_item {P} (s s' : state P) r c n ls :
  prepared c s → lookup_var "repetitions" s = Some (VInt n) →
  lookup_var "range" s = None → lookup_var "losses" s = Some (VList ls) →
  training_loop s = (r, s') → quiet (since s s') →
  ∃ ps, length ps = Z.to_nat n ∧ r = Return tt ∧
    since s s' = Autoencoder.passes_events c ls ps ∧
    st_vars s' = Autoencoder.passes_vars ls 0 ps ++ st_vars s ∧
    lookup_var "losses" s' = Some (VList (ls ++ (Autoencoder.loss <$> ps))).
Proof.
  intros Hp Hn Hr Hl Hrun Hq. rewrite (training_loop_unfolds s n Hn Hr) in Hrun.
  pose proof (training_passes c _ 0 ls s s' r Hp Hl Hrun) as H.
  destruct r as [[] | x]; [| by destruct H].
  destruct H as (ps & Hlen & Hev & Hv). exists ps. split_and!; try done.
  unfold lookup_var. rewrite Hv. by apply losses_after_passes.
Qed.

Lemma training_loop_makes_one_pass_per_item_witness :
  let s := Interrupted.before_loop 3 100 in
  let s' := (training_loop s).2 in
  ∃ ps, length ps = Z.to_nat 3 ∧ (training_loop s).1 = Return tt ∧
    since s s' = Autoencoder.passes_events Interrupted.objects [] ps ∧
    st_vars s' = Autoencoder.passes_vars [] 0 ps ++ st_vars s ∧
    lookup_var "losses" s' = Some (VList ([] ++ (Autoencoder.loss <$> ps))).
Proof.
  intros s s'.
  apply (training_loop_makes_one_pass_per_item s s' (training_loop s).1
           Interrupted.objects 3 []).
  - unfold prepared. split_and!; try reflexivity. by eexists.
  - reflexivity.
  - reflexivity.
  - reflexivity.
  - vm_compute. reflexivity.
  - vm_compute. reflexivity.
Defined.

(** X8. What a failing loop leaves behind.  In every run of the training
    loop, whether it ends normally or with an exception, [losses] holds
    afterwards what it held before followed by exactly the losses that were
    answered in this run, at most one per repetition; the loop ends normally
    exactly when no request raised, and then there is one loss for every
    repetition. *)
Theorem training_loop_keeps_the_answered_losses {P} (s s' : state P) r c n ls :
  prepared c s → lookup_var "repetitions" s = Some (VInt n) →
  lookup_var "range" s = None → lookup_var "losses" s = Some (VList ls) →
  training_loop s = (r, s') →
  let vs := answers_of "loss" (since s s') in
  lookup_var "losses" s' = Some (VList (ls ++ vs)) ∧
  (length vs ≤ Z.to_nat n)%nat ∧
  (r = Return tt ↔ quiet (since s s')) ∧
  (r = Return tt → length vs = Z.to_nat n).
Proof.
  intros Hp Hn Hr Hl Hrun vs. rewrite (training_loop_unfolds s n Hn Hr) in Hrun.
  pose proof (training_passes c _ 0 ls s s' r Hp Hl Hrun) as H.
  destruct r as [[] | x].
  - destruct H as (ps & Hlen & Hev & Hv).
    assert (Hvs : vs = Autoencoder.loss <$> ps).
    { unfold vs. rewrite Hev, <- (app_nil_r (Autoencoder.passes_events _ _ _)).
      by rewrite answers_passes, app_nil_r. }
    rewrite Hvs, length_fmap, Hlen. split_and!; try done.
    + unfold lookup_var. rewrite Hv. by apply losses_after_passes.
    + split; [intros _; rewrite Hev; apply quiet_passes | done].
  - destruct H as (Hnq & vs' & Hvs & Hlen & Hlos). fold vs in Hvs. subst vs'.
    split_and!; try done.
Qed.

Lemma training_loop_keeps_the_answered_losses_witness :
  let s := Interrupted.before_loop 3 12 in
  let s' := (training_loop s).2 in
  let vs := answers_of "loss" (since s s') in
  (training_loop s).1 = Raise (VStr "KeyboardInterrupt") ∧
  vs = [VFloat 1; VFloat 0.5] ∧
  lookup_var "losses" s' = Some (VList ([] ++ vs)) ∧
  (length vs ≤ Z.to_nat 3)%nat ∧
  ((training_loop s).1 = Return tt ↔ quiet (since s s')) ∧
  ((training_loop s).1 = Return tt → length vs = Z.to_nat 3).
Proof.
  intros s s' vs. split; [vm_compute; reflexivity |]. split; [vm_compute; reflexivity |].
  apply (training_loop_keeps_the_answered_losses s s' (training_loop s).1
           Interrupted.objects 3 []).
  - unfold prepared. split_and!; try reflexivity. by eexists.
  - reflexivity.
  - reflexivity.
  - reflexivity.
  - vm_compute. reflexivity.
Defined.

Lemma item_keys_app a b : item_keys (a ++ b) = item_keys a ++ item_keys b.
Proof. apply omap_app. Qed.

Lemma asked_of_app x a b : asked_of x (a ++ b) = asked_of x a ++ asked_of x b.
Proof. apply omap_app. Qed.

Lemma reshaped_app a b : reshaped (a ++ b) = reshaped a ++ reshaped b.
Proof. apply omap_app. Qed.

(** One column of the figure, with the binding of the loop variable before
    it. *)
Lemma column_outcomes {P} (s s1 : state P) r1 i np sim ip ep dp :
  lookup_var "np" s = Some np → lookup_var "sim" s = Some sim →
  lookup_var "input_probe" s = Some ip → lookup_var "encode_probe" s = Some ep →
  lookup_var "decode_probe" s = Some dp →
  (store "i" (VInt i);; column) s = (r1, s1) →
  match r1 with
  | Return _ =>
      item_keys (since s s1) = column_keys ip ep dp i ∧
      asked_of "data" (since s s1) = [sim; sim; sim] ∧
      reshaped (since s s1) = [(28, 28); (6, 6); (28, 28)] ∧
      st_vars s1 = ("i", VInt i) :: st_vars s
  | Raise _ => ¬ quiet (since s s1)
  end.
Proof.
  intros Hnp Hsim Hip Hep Hdp Hrun. unfold lookup_var in *.
  destruct (field_get "axis" (st_vars s)) as [axis |] eqn:Hax.
  all: match type of Hrun with
       | _ = (?r, ?s') => pattern r, s'; eapply wp_run; [exact Hrun |]
       end; repeat wp_step_any.
  all: since_known; first [by split_and! | intros Hq; discriminate Hq].
Qed.

Lemma plot_columns {P} np sim ip ep dp k : ∀ i0 (s s' : state P) r,
  lookup_var "np" s = Some np → lookup_var "sim" s = Some sim →
  lookup_var "input_probe" s = Some ip → lookup_var "encode_probe" s = Some ep →
  lookup_var "decode_probe" s = Some dp →
  each "i" (VInt <$> seqZ i0 (Z.of_nat k)) column s = (r, s') →
  match r with
  | Return _ =>
      item_keys (since s s') = (i ← seqZ i0 (Z.of_nat k); column_keys ip ep dp i) ∧
      asked_of "data" (since s s') = (i ← seqZ i0 (Z.of_nat k); [sim; sim; sim]) ∧
      reshaped (since s s') = (i ← seqZ i0 (Z.of_nat k); [(28, 28); (6, 6); (28, 28)])
  | Raise _ => ¬ quiet (since s s')
  end.
Proof.
  induction k as [| k IH]; intros i0 s s' r Hnp Hsim Hip Hep Hdp Hrun.
  - injection Hrun as <- <-. by rewrite since_same.
  - rewrite Nat2Z.inj_succ, seqZ_cons in Hrun |- * by lia.
    replace (Z.pred (Z.succ (Z.of_nat k))) with (Z.of_nat k) in Hrun |- * by lia.
    cbn [fmap list_fmap each] in Hrun.
    set (rest := each "i" _ _) in Hrun.
    change ((store "i" (VInt i0);; column;; rest) s)
      with (((store "i" (VInt i0);; column) ≫= λ _, rest) s) in Hrun.
    assert (T1 : transparent (store (P := P) "i" (VInt i0);; column)) by transparency.
    assert (T2 : transparent rest) by (apply transparent_each; transparency).
    destruct (log_grows _ s T1) as [n1 Hn1].
    destruct (log_grows _ ((store "i" (VInt i0);; column) s).2 T2) as [n2 Hn2].
    unfold mbind at 1, M_bind at 1 in Hrun.
    destruct ((store "i" (VInt i0);; column) s) as [r1 s1] eqn:E1.
    pose proof (column_outcomes s s1 r1 i0 np sim ip ep dp Hnp Hsim Hip Hep Hdp E1) as H1.
    cbn [snd] in Hn1, Hn2. destruct r1 as [u | x].
    + destruct H1 as (Hkeys & Hdata & Hshapes & Hv).
      assert (H2 := IH (Z.succ i0) s1 s' r). unfold lookup_var in *. rewrite Hv in H2.
      specialize (H2 Hnp Hsim Hip Hep Hdp Hrun).
      rewrite Hrun in Hn2. cbn [snd] in Hn2.
      rewrite (since_trans s s1 s' _ _ Hn1 Hn2).
      destruct r as [u' | x].
      * destruct H2 as (H2k & H2d & H2s).
        rewrite item_keys_app, asked_of_app, reshaped_app.
        rewrite Hkeys, Hdata, Hshapes, H2k, H2d, H2s. done.
      * intros [_ Hq]%quiet_app. by apply H2.
    + injection Hrun as <- <-. exact H1.
Qed.

(** The plotting cell is the tuple assignment followed by the loop. *)
Lemma cell_plot_has_the_loop {P} :
  @Autoencoder.cell_plot P =
  (assign2 "figure" "axis"
     (call (attr (name "plt") "subplots")
        [lit (VInt 3); binop "+" (name "repetitions") (lit (VInt 1))]
        [("figsize", lit (VTuple [VInt 10; VInt 5]))]);;
   plot_loop).
Proof. reflexivity. Qed.

(** The loop of the plotting cell, run where the names it reads are bound. *)
Lemma plot_loop_run {P} (s s2 : state P) new n np sim ip ep dp :
  lookup_var "np" s2 = Some np → lookup_var "sim" s2 = Some sim →
  lookup_var "input_probe" s2 = Some ip → lookup_var "encode_probe" s2 = Some ep →
  lookup_var "decode_probe" s2 = Some dp →
  lookup_var "repetitions" s2 = Some (VInt n) → lookup_var "range" s2 = None →
  st_log s2 = new ++ st_log s →
  Logic.wp plot_loop
    (λ r s', since s s' = rev new ++ since s2 s' ∧
       (quiet (since s2 s') →
        r = Return tt ∧
        item_keys (since s2 s') = (i ← seqZ 0 (n + 1); column_keys ip ep dp i) ∧
        asked_of "data" (since s2 s') = (i ← seqZ 0 (n + 1); [sim; sim; sim]) ∧
        reshaped (since s2 s') = (i ← seqZ 0 (n + 1); [(28, 28); (6, 6); (28, 28)]))) s2.
Proof.
  intros Hnp Hsim Hip Hep Hdp Hn Hrange Hlog. unfold lookup_var in *.
  up_to_the_loop. unfold Logic.wp.
  assert (Hitems : seqZ 0 (n + 1) = seqZ 0 (Z.of_nat (Z.to_nat (n + 1)))).
  { unfold seqZ. by rewrite Nat2Z.id. }
  rewrite Hitems.
  assert (T : transparent (each (P := P) "i"
                             (VInt <$> seqZ 0 (Z.of_nat (Z.to_nat (n + 1)))) column))
    by (apply transparent_each; transparency).
  destruct (log_grows _ s2 T) as [n2 Hn2].
  destruct (each "i" _ column s2) as [r2 s2'] eqn:E. cbn [fst snd] in *.
  pose proof (plot_columns np sim ip ep dp (Z.to_nat (n + 1)) 0 s2 s2' r2) as Hcols.
  unfold lookup_var in Hcols. specialize (Hcols Hnp Hsim Hip Hep Hdp E).
  split.
  - by rewrite (since_trans s s2 s2' _ _ Hlog Hn2), (since_app _ _ _ Hlog).
  - intros Hq. by destruct r2 as [[] | x].
Qed.

(** The plotting cell, run without a raised request. *)
Lemma plot_cell_run {P} (s s' : state P) r n plt np sim ip ep dp :
  lookup_var "plt" s = Some plt → lookup_var "np" s = Some np →
  lookup_var "sim" s = Some sim → lookup_var "input_probe" s = Some ip →
  lookup_var "encode_probe" s = Some ep → lookup_var "decode_probe" s = Some dp →
  lookup_var "repetitions" s = Some (VInt n) → lookup_var "range" s = None →
  Autoencoder.cell_plot s = (r, s') → quiet (since s s') →
  r = Return tt ∧
  (∃ subplots grid,
     take 2 (since s s') =
       [(GetAttr plt "subplots", Return subplots);
        (Call subplots [VInt 3; VInt (n + 1)] [("figsize", VTuple [VInt 10; VInt 5])],
         Return grid)]) ∧
  item_keys (since s s') = (i ← seqZ 0 (n + 1); column_keys ip ep dp i) ∧
  asked_of "data" (since s s') = (i ← seqZ 0 (n + 1); [sim; sim; sim]) ∧
  reshaped (since s s') = (i ← seqZ 0 (n + 1); [(28, 28); (6, 6); (28, 28)]).
Proof.
  intros Hplt Hnp Hsim Hip Hep Hdp Hn Hrange Hrun.
  assert (Hloop : ∀ s2 : state P,
            st_vars s2 = st_vars s ∨
            (∃ a b, st_vars s2 = ("axis", b) :: ("figure", a) :: st_vars s) →
            ∀ new, st_log s2 = new ++ st_log s →
            Logic.wp plot_loop
              (λ r s', since s s' = rev new ++ since s2 s' ∧
                 (quiet (since s2 s') →
                  r = Return tt ∧
                  item_keys (since s2 s') = (i ← seqZ 0 (n + 1); column_keys ip ep dp i) ∧
                  asked_of "data" (since s2 s') = (i ← seqZ 0 (n + 1); [sim; sim; sim]) ∧
                  reshaped (since s2 s') =
                    (i ← seqZ 0 (n + 1); [(28, 28); (6, 6); (28, 28)])))
              s2).
  { intros s2 Hv new Hlog.
    apply (plot_loop_run s s2 new n np sim ip ep dp); try done;
      unfold lookup_var in *; by destruct Hv as [-> | (a & b & ->)]. }
  rewrite cell_plot_has_the_loop in Hrun. unfold lookup_var in Hplt, Hn.
  match type of Hrun with
  | _ = (?r, ?s') => pattern r, s'; eapply wp_run; [exact Hrun |]
  end.
  apply wp_bind. unfold assign2. apply wp_bind.
  repeat wp_step.
  all: try solve [not_quiet].
  apply wp_unpack; [intros a b | intros [u | e] w1; [split; [| intros a b] |]];
    cbn [st_world st_log st_vars]; lazy beta iota.
  all: try solve [not_quiet].
  all: (eapply wp_mono; [apply Hloop; [cbn [st_vars]; eauto | log_known] |]).
  all: cbn beta; intros r' s2' [Hsince Hrest]; rewrite Hsince; cbn [rev app].
  all: intros Hq; destruct (Hrest Hq) as (-> & Hkeys & Hdata & Hshapes).
  all: split_and!; [done | by eexists _, _ | exact Hkeys | exact Hdata | exact Hshapes].
Qed.

(** X9. The plotting cell stays inside the grid it asks for.  With
    [repetitions] bound to the integer [n], the cell asks [plt.subplots] for
    a grid of 3 rows and [n + 1] columns, and in a run in which no request
    raises it then subscripts, for [i] from 0 to [n] in turn (not at all
    when [n + 1] is not positive), row 0, 1 and 2 with column [i], and the
    recordings of the three probes at position [[0, i]]: every row index is
    below 3, every column index below [n + 1], each pair is used once, and
    nothing else is subscripted. *)
Theorem plot_cell_stays_in_its_grid {P} (s s' : state P) r n plt np sim ip ep dp :
  lookup_var "plt" s = Some plt → lookup_var "np" s = Some np →
  lookup_var "sim" s = Some sim → lookup_var "input_probe" s = Some ip →
  lookup_var "encode_probe" s = Some ep → lookup_var "decode_probe" s = Some dp →
  lookup_var "repetitions" s = Some (VInt n) → lookup_var "range" s = None →
  Autoencoder.cell_plot s = (r, s') → quiet (since s s') →
  r = Return tt ∧
  (∃ subplots grid,
     take 2 (since s s') =
       [(GetAttr plt "subplots", Return subplots);
        (Call subplots [VInt 3; VInt (n + 1)] [("figsize", VTuple [VInt 10; VInt 5])],
         Return grid)]) ∧
  item_keys (since s s') = i ← seqZ 0 (n + 1); column_keys ip ep dp i.
Proof.
  intros H1 H2 H3 H4 H5 H6 H7 H8 Hrun Hq.
  destruct (plot_cell_run s s' r n plt np sim ip ep dp) as (? & ? & ? & _); done.
Qed.

Lemma plot_cell_stays_in_its_grid_witness :
  let s := Toy.after Toy.halving Autoencoder.through_training in
  let s' := (Autoencoder.cell_plot s).2 in
  (Autoencoder.cell_plot s).1 = Return tt ∧
  (∃ subplots grid,
     take 2 (since s s') =
       [(GetAttr (VStr "matplotlib.pyplot") "subplots", Return subplots);
        (Call subplots [VInt 3; VInt (5 + 1)] [("figsize", VTuple [VInt 10; VInt 5])],
         Return grid)]) ∧
  item_keys (since s s') =
    i ← seqZ 0 (5 + 1); column_keys (VRef 15) (VRef 16) (VRef 17) i.
Proof.
  intros s s'.
  apply (plot_cell_stays_in_its_grid s s' (Autoencoder.cell_plot s).1 5
           (VStr "matplotlib.pyplot") (VStr "numpy") (VRef 20));
    vm_compute; reflexivity.
Defined.

(** X10. The images are as large as the layers.  In a run of the plotting
    cell in which no request raises, every column reshapes the recording of
    the input probe to 28 by 28, that of the encoder probe to 6 by 6 and that
    of the decoder probe to 28 by 28, and nothing else is reshaped; these are
    the sizes that the parameter cell sets, [n_input = 784 = 28 * 28] and
    [n_hidden_2 = 36 = 6 * 6], which are the widths that the network cell
    declares for the probed nodes. *)
Theorem images_are_as_large_as_the_layers {P} (s s' : state P) r n plt np sim ip ep dp :
  lookup_var "plt" s = Some plt → lookup_var "np" s = Some np →
  lookup_var "sim" s = Some sim → lookup_var "input_probe" s = Some ip →
  lookup_var "encode_probe" s = Some ep → lookup_var "decode_probe" s = Some dp →
  lookup_var "repetitions" s = Some (VInt n) → lookup_var "range" s = None →
  Autoencoder.cell_plot s = (r, s') → quiet (since s s') →
  reshaped (since s s') = (i ← seqZ 0 (n + 1); [(28, 28); (6, 6); (28, 28)]) ∧
  ∀ s0 : state P,
    lookup_var "n_input" (Autoencoder.cell_parameters s0).2 = Some (VInt (28 * 28)) ∧
    lookup_var "n_hidden_2" (Autoencoder.cell_parameters s0).2 = Some (VInt (6 * 6)).
Proof.
  intros H1 H2 H3 H4 H5 H6 H7 H8 Hrun Hq.
  destruct (plot_cell_run s s' r n plt np sim ip ep dp) as (_ & _ & _ & _ & ?); done.
Qed.

Lemma images_are_as_large_as_the_layers_witness :
  let s := Toy.after Toy.halving Autoencoder.through_training in
  let s' := (Autoencoder.cell_plot s).2 in
  reshaped (since s s') = (i ← seqZ 0 (5 + 1); [(28, 28); (6, 6); (28, 28)]) ∧
  ∀ s0 : state (Toy.platform Toy.halving),
    lookup_var "n_input" (Autoencoder.cell_parameters s0).2 = Some (VInt (28 * 28)) ∧
    lookup_var "n_hidden_2" (Autoencoder.cell_parameters s0).2 = Some (VInt (6 * 6)).
Proof.
  intros s s'.
  apply (images_are_as_large_as_the_layers s s' (Autoencoder.cell_plot s).1 5
           (VStr "matplotlib.pyplot") (VStr "numpy") (VRef 20) (VRef 15) (VRef 16)
           (VRef 17));
    vm_compute; reflexivity.
Defined.

(** X11. What is plotted is what was trained, read after the simulator has
    been left.  When the training cell and then the plotting cell run
    without a raised request, the simulator that the training cell entered
    is left by the last request of that cell, [sim] stays bound to it, and
    each of the eighteen recordings that the plotting cell shows (three for
    each of the six columns) is read from the attribute [data] of this very
    simulator. *)
Theorem plots_read_the_trained_simulator {P} (s s1 s2 : state P) r1 r2
    nengo_dl net tf inp entries b tg tri trt plt np ip ep dp :
  lookup_var "nengo_dl" s = Some nengo_dl → lookup_var "net" s = Some net →
  lookup_var "tf" s = Some tf → lookup_var "inp" s = Some inp →
  lookup_var "test_inputs" s = Some (VDict entries) → dict_get inp entries = Some b →
  lookup_var "test_targets" s = Some tg →
  lookup_var "train_inputs" s = Some tri →
  lookup_var "train_targets" s = Some trt →
  lookup_var "print" s = None → lookup_var "range" s = None →
  lookup_var "plt" s = Some plt → lookup_var "np" s = Some np →
  lookup_var "input_probe" s = Some ip → lookup_var "encode_probe" s = Some ep →
  lookup_var "decode_probe" s = Some dp →
  Autoencoder.cell_train s = (r1, s1) → quiet (since s s1) →
  Autoencoder.cell_plot s1 = (r2, s2) → quiet (since s1 s2) →
  ∃ mgr sim left,
    (Enter mgr, Return sim) ∈ since s s1 ∧
    last (since s s1) = Some (Exit mgr None, Return left) ∧
    lookup_var "sim" s1 = Some sim ∧
    asked_of "data" (since s1 s2) = replicate 18 sim.
Proof.
  intros H1 H2 H3 H4 H5 H6 H7 H8 H9 H10 H11 Hplt Hnp Hip Hep Hdp Htrain Hq1 Hplot Hq2.
  destruct (train_cell_run s s1 r1 nengo_dl net tf inp entries b tg tri trt)
    as (c & p1 & p2 & p3 & p4 & p5 & final & left & _ & _ & _ & _ & _ & _ & Hev & _ & Hv);
    try done.
  exists (Autoencoder.manager c), (Autoencoder.sim c), left.
  assert (Hsim : lookup_var "sim" s1 = Some (Autoencoder.sim c)).
  { unfold lookup_var. by rewrite Hv. }
  split_and!; [| | done |].
  - rewrite Hev. unfold Autoencoder.train_events. cbn.
    do 2 (apply elem_of_cons; right). apply elem_of_cons. by left.
  - by rewrite Hev.
  - destruct (plot_cell_run s1 s2 r2 5 plt np (Autoencoder.sim c) ip ep dp)
      as (_ & _ & _ & Hdata & _); unfold lookup_var in *; rewrite ?Hv; try done.
Qed.

Lemma plots_read_the_trained_simulator_witness :
  let s := Toy.after Toy.halving
             [Autoencoder.cell_setup; Autoencoder.cell_mnist;
              Autoencoder.cell_parameters; Autoencoder.cell_network;
              Autoencoder.cell_data] in
  let s1 := (Autoencoder.cell_train s).2 in
  let s2 := (Autoencoder.cell_plot s1).2 in
  ∃ mgr sim left,
    (Enter mgr, Return sim) ∈ since s s1 ∧
    last (since s s1) = Some (Exit mgr None, Return left) ∧
    lookup_var "sim" s1 = Some sim ∧
    asked_of "data" (since s1 s2) = replicate 18 sim.
Proof.
  intros s s1 s2.
  apply (plots_read_the_trained_simulator s s1 s2 (Autoencoder.cell_train s).1
           (Autoencoder.cell_plot s1).1
           (VStr "nengo_dl") (VRef 1) (VStr "tensorflow") (VRef 10)
           [(VRef 10, VRef 19)] (VRef 19) (VDict [(VRef 17, VRef 19)])
           (VDict [(VRef 10, VRef 18)]) (VDict [(VRef 17, VRef 18)])
           (VStr "matplotlib.pyplot") (VStr "numpy") (VRef 15) (VRef 16) (VRef 17));
    vm_compute; reflexivity.
Defined.

(** ** The steps of the training cell *)

(** X12. The training cell steps the simulator between the training passes.
    In a run in which no request raises, the cell builds one simulator from
    the network, with a minibatch size of 100 on the device ["/cpu:0"], and
    one optimizer, [MomentumOptimizer(0.05, 0.9)]; it asks for [sim.step] six
    times, after 0, 1, 2, 3, 4 and 5 calls of [sim.train]; and every step is
    fed the dictionary that binds [inp] to what the test images answer to the
    slice [[:100]], taken anew for each step: as many items as the minibatch
    has. *)
Theorem simulator_is_stepped_between_the_passes {P} (s s' : state P) r
    nengo_dl net tf inp entries b tg tri trt :
  lookup_var "nengo_dl" s = Some nengo_dl → lookup_var "net" s = Some net →
  lookup_var "tf" s = Some tf → lookup_var "inp" s = Some inp →
  lookup_var "test_inputs" s = Some (VDict entries) → dict_get inp entries = Some b →
  lookup_var "test_targets" s = Some tg →
  lookup_var "train_inputs" s = Some tri →
  lookup_var "train_targets" s = Some trt →
  lookup_var "print" s = None → lookup_var "range" s = None →
  Autoencoder.cell_train s = (r, s') → quiet (since s s') →
  calls_of "Simulator" (since s s') =
    [([net], [("minibatch_size", VInt 100); ("device", VStr "/cpu:0")])] ∧
  calls_of "MomentumOptimizer" (since s s') = [([VFloat 0.05; VFloat 0.9], [])] ∧
  trained_before_steps 0 (since s s') = [0; 1; 2; 3; 4; 5]%nat ∧
  ∃ batches,
    length batches = 6%nat ∧
    sliced (since s s') = (λ batch, (b, VSlice VNone (VInt 100) VNone, batch)) <$> batches ∧
    input_feeds (since s s') = (λ batch, VDict [(inp, batch)]) <$> batches.
Proof.
  intros H1 H2 H3 H4 H5 H6 H7 H8 H9 H10 H11 Hrun Hq.
  destruct (train_cell_run s s' r nengo_dl net tf inp entries b tg tri trt)
    as (c & p1 & p2 & p3 & p4 & p5 & last & left
        & Hc1 & _ & _ & _ & _ & Hc6 & Hev & _ & _); try done.
  rewrite Hev. destruct c; cbn in Hc1, Hc6; subst. split_and!; try reflexivity.
  by exists [Autoencoder.batch p1; Autoencoder.batch p2; Autoencoder.batch p3;
             Autoencoder.batch p4; Autoencoder.batch p5; last.1.2].
Qed.

Lemma simulator_is_stepped_between_the_passes_witness :
  let s := Toy.after Toy.halving
             [Autoencoder.cell_setup; Autoencoder.cell_mnist;
              Autoencoder.cell_parameters; Autoencoder.cell_network;
              Autoencoder.cell_data] in
  let s' := (Autoencoder.cell_train s).2 in
  calls_of "Simulator" (since s s') =
    [([VRef 1], [("minibatch_size", VInt 100); ("device", VStr "/cpu:0")])] ∧
  calls_of "MomentumOptimizer" (since s s') = [([VFloat 0.05; VFloat 0.9], [])] ∧
  trained_before_steps 0 (since s s') = [0; 1; 2; 3; 4; 5]%nat ∧
  ∃ batches,
    length batches = 6%nat ∧
    sliced (since s s') =
      (λ batch, (VRef 19, VSlice VNone (VInt 100) VNone, batch)) <$> batches ∧
    input_feeds (since s s') = (λ batch, VDict [(VRef 10, batch)]) <$> batches.
Proof.
  intros s s'.
  apply (simulator_is_stepped_between_the_passes s s' (Autoencoder.cell_train s).1
           (VStr "nengo_dl") (VRef 1) (VStr "tensorflow") (VRef 10)
           [(VRef 10, VRef 19)] (VRef 19) (VDict [(VRef 17, VRef 19)])
           (VDict [(VRef 10, VRef 18)]) (VDict [(VRef 17, VRef 18)]));
    vm_compute; reflexivity.
Defined.

(** ** The methods of the plug-in blocks *)

Lemma field_get_set x y v attrs :
  field_get x (field_set y v attrs) =
  if String.eqb x y then Some v else field_get x attrs.
Proof.
  induction attrs as [| [z u] attrs IH]; cbn.
  - by rewrite (String.eqb_sym y x).
  - destruct (String.eqb_spec z y) as [-> | Hzy]; cbn.
    + rewrite (String.eqb_sym y x). by destruct (String.eqb x y).
    + destruct (String.eqb_spec z x) as [-> | Hzx].
      * destruct (String.eqb_spec x y) as [-> | _]; [done | reflexivity].
      * exact IH.
Qed.

(** X13. What [pre_build] records.  Called on an instance with shapes of at
    least two dimensions, [pre_build] of either class asks nothing of the
    platform and changes nothing in the kernel; it hands the instance back
    with [n_mini] set to the first item of [shape_in], [size_in] to its
    second item and [size_out] to the second item of [shape_out], whatever
    these attributes were before, and with every other attribute as it was.
    The first item of [shape_out] is not read. *)
Theorem pre_build_records_the_sizes {P} (s : state P) cls attrs
    n_mini size_in more_in first_out size_out more_out :
  let shape_in := VTuple (n_mini :: size_in :: more_in) in
  let shape_out := VTuple (first_out :: size_out :: more_out) in
  ∃ attrs',
    Autoencoder.Encoder.pre_build (VInst cls attrs) shape_in shape_out s
      = (Return (VInst cls attrs'), s) ∧
    Autoencoder.Decoder.pre_build (VInst cls attrs) shape_in shape_out s
      = (Return (VInst cls attrs'), s) ∧
    ∀ x, field_get x attrs' =
         if String.eqb x "size_out" then Some size_out
         else if String.eqb x "size_in" then Some size_in
         else if String.eqb x "n_mini" then Some n_mini
         else field_get x attrs.
Proof.
  intros shape_in shape_out. eexists. split_and!; [reflexivity | reflexivity |].
  intros x. by rewrite !field_get_set.
Qed.

(** X14. A shape with fewer than two dimensions.  When [shape_in] has no item
    or one item, [pre_build] of either class asks the platform for the first
    item that is missing, and nothing before it; when that request raises (the
    interpreter's IndexError), the method ends with this exception, and no
    name of the kernel is touched. *)
Theorem pre_build_needs_two_dimensions {P} (s : state P) cls attrs items shape_out e w' :
  (length items < 2)%nat →
  let shape_in := VTuple items in
  let missing := GetItem shape_in (VInt (Z.of_nat (length items))) in
  exec P missing (st_world s) = (Raise e, w') →
  Autoencoder.Encoder.pre_build (VInst cls attrs) shape_in shape_out s
    = (Raise e, State w' ((missing, Raise e) :: st_log s) (st_vars s)) ∧
  Autoencoder.Decoder.pre_build (VInst cls attrs) shape_in shape_out s
    = (Raise e, State w' ((missing, Raise e) :: st_log s) (st_vars s)).
Proof.
  intros Hlen shape_in missing Hexec. subst shape_in missing.
  destruct items as [| n [| a rest]]; [| | cbn in Hlen; lia];
    cbv [length Z.of_nat Pos.of_succ_nat] in Hexec;
    (split; apply wp_equation; repeat wp_step_eq);
    match goal with
    | E : exec _ _ _ = _ |- _ =>
        rewrite Hexec in E; first [discriminate E | injection E as <- <-; reflexivity]
    end.
Qed.

Lemma pre_build_needs_two_dimensions_witness :
  let s := Kernel.fresh (P := Bare.platform) tt in
  let shape_in := VTuple [VInt 100] in
  let missing := GetItem shape_in (VInt 1) in
  Autoencoder.Encoder.pre_build (VInst "Encoder" []) shape_in (VTuple [VInt 100; VInt 36]) s
    = (Raise (VStr "IndexError"),
       State (P := Bare.platform) tt
         ((missing, Raise (VStr "IndexError")) :: st_log s) (st_vars s)) ∧
  Autoencoder.Decoder.pre_build (VInst "Encoder" []) shape_in (VTuple [VInt 100; VInt 36]) s
    = (Raise (VStr "IndexError"),
       State (P := Bare.platform) tt
         ((missing, Raise (VStr "IndexError")) :: st_log s) (st_vars s)).
Proof.
  intros s shape_in missing.
  apply (pre_build_needs_two_dimensions (P := Bare.platform) s "Encoder" [] [VInt 100]
           (VTuple [VInt 100; VInt 36]) (VStr "IndexError") tt).
  - cbn. lia.
  - reflexivity.
Defined.

(** X15. The two layers of a block are chained, and the sizes are read when
    the block is called.  In a run in which no request raises, [__call__] of
    either class asks for [tf.contrib.layers.fully_connected] and calls it on
    the input [x] and the current value of the global [n_hidden_1], then asks
    for it again and calls it on the answer of the first call and the second
    size, and hands back the answer of the second call; it binds no name.
    The second size of the encoder is the current value of the global
    [n_hidden_2]; that of the decoder is the attribute [size_out] of the
    instance when the instance has one, and otherwise what the platform
    answers when asked for the attribute.  The time [t] is not used. *)
Theorem layers_are_chained {P} (s s' : state P) r tf h1 h2 t x :
  lookup_var "tf" s = Some tf → lookup_var "n_hidden_1" s = Some h1 →
  lookup_var "n_hidden_2" s = Some h2 →
  (∀ self,
     Autoencoder.Encoder.__call__ self t x s = (r, s') → quiet (since s s') →
     ∃ c1 l1 f1 d1 c2 l2 f2 d2,
       since s s' =
         [(GetAttr tf "contrib", Return c1); (GetAttr c1 "layers", Return l1);
          (GetAttr l1 "fully_connected", Return f1); (Call f1 [x; h1] [], Return d1);
          (GetAttr tf "contrib", Return c2); (GetAttr c2 "layers", Return l2);
          (GetAttr l2 "fully_connected", Return f2); (Call f2 [d1; h2] [], Return d2)] ∧
       r = Return d2 ∧ st_vars s' = st_vars s) ∧
  (∀ cls attrs,
     Autoencoder.Decoder.__call__ (VInst cls attrs) t x s = (r, s') →
     quiet (since s s') →
     ∃ c1 l1 f1 d1 c2 l2 f2 d2 asked size,
       since s s' =
         [(GetAttr tf "contrib", Return c1); (GetAttr c1 "layers", Return l1);
          (GetAttr l1 "fully_connected", Return f1); (Call f1 [x; h1] [], Return d1);
          (GetAttr tf "contrib", Return c2); (GetAttr c2 "layers", Return l2);
          (GetAttr l2 "fully_connected", Return f2)] ++ asked ++
         [(Call f2 [d1; size] [], Return d2)] ∧
       r = Return d2 ∧ st_vars s' = st_vars s ∧
       match field_get "size_out" attrs with
       | Some n => asked = [] ∧ size = n
       | None => asked = [(GetAttr (VInst cls attrs) "size_out", Return size)]
       end).
Proof.
  intros Htf Hh1 Hh2. split.
  - intros self Hrun. run_through Hrun. all: not_quiet.
    by eexists _, _, _, _, _, _, _, _.
  - intros cls attrs Hrun.
    destruct (field_get "size_out" attrs) as [n |] eqn:Hn.
    + run_through Hrun. all: not_quiet.
      by eexists _, _, _, _, _, _, _, _, [], _.
    + run_through Hrun. all: not_quiet.
      by eexists _, _, _, _, _, _, _, _, [_], _.
Qed.

Lemma layers_are_chained_witness :
  let s := Toy.after Toy.halving
             [Autoencoder.cell_setup; Autoencoder.cell_mnist;
              Autoencoder.cell_parameters] in
  let decoder := VInst "Decoder" [("size_out", VInt 784)] in
  let run := Autoencoder.Decoder.__call__ decoder (VFloat 0) (VRef 0) s in
  ∃ c1 l1 f1 d1 c2 l2 f2 d2 asked size,
    since s run.2 =
      [(GetAttr (VStr "tensorflow") "contrib", Return c1); (GetAttr c1 "layers", Return l1);
       (GetAttr l1 "fully_connected", Return f1);
       (Call f1 [VRef 0; VInt 128] [], Return d1);
       (GetAttr (VStr "tensorflow") "contrib", Return c2); (GetAttr c2 "layers", Return l2);
       (GetAttr l2 "fully_connected", Return f2)] ++ asked ++
      [(Call f2 [d1; size] [], Return d2)] ∧
    run.1 = Return d2 ∧ st_vars run.2 = st_vars s ∧
    (asked = [] ∧ size = VInt 784).
Proof.
  intros s decoder run.
  refine (proj2 (layers_are_chained s run.2 run.1 (VStr "tensorflow") (VInt 128) (VInt 36)
                   (VFloat 0) (VRef 0) _ _ _) "Decoder" [("size_out", VInt 784)] _ _);
    vm_compute; reflexivity.
Defined.

(** ** The network cell *)

(** X16. The network cell wires a probed chain.  In a run in which no request
    raises, the cell binds [Encoder] and [Decoder] to the two classes and
    [net] to the entered network; it sets four defaults on the
    configuration ([synapse] to [None], [neuron_type] to the answer of
    [nengo.RectifiedLinear()], [gain] and [bias] to the answers of
    [nengo.dists.Choice([1])] and [nengo.dists.Choice([0])]); it connects the
    input node to the encoder node and the encoder node to the decoder node,
    and nothing else; it probes the input node, the encoder node and the
    decoder node, in this order, and binds [input_probe], [encode_probe] and
    [decode_probe] to these probes. *)
Theorem network_is_a_probed_chain {P} (s s' : state P) r nengo nengo_dl mnist
    n_input n_hidden_2 :
  lookup_var "nengo" s = Some nengo → lookup_var "nengo_dl" s = Some nengo_dl →
  lookup_var "mnist" s = Some mnist → lookup_var "object" s = None →
  lookup_var "n_input" s = Some n_input → lookup_var "n_hidden_2" s = Some n_hidden_2 →
  Autoencoder.cell_network s = (r, s') → quiet (since s s') →
  ∃ net inp enc dec p_in p_enc p_dec rl gain bias,
    r = Return tt ∧
    st_vars s' =
      [("decode_probe", p_dec); ("encode_probe", p_enc); ("input_probe", p_in);
       ("tf_decode", dec); ("tf_encode", enc); ("inp", inp); ("net", net);
       ("Decoder", VClass "Decoder"); ("Encoder", VClass "Encoder")] ++ st_vars s ∧
    answers_of "TensorNode" (since s s') = [enc; dec] ∧
    calls_of "Connection" (since s s') = [([inp; enc], []); ([enc; dec], [])] ∧
    calls_of "Probe" (since s s') = [([inp], []); ([enc], []); ([dec], [])] ∧
    answers_of "Probe" (since s s') = [p_in; p_enc; p_dec] ∧
    settings (since s s') =
      [("synapse", VNone); ("neuron_type", rl); ("gain", gain); ("bias", bias)] ∧
    answers_of "RectifiedLinear" (since s s') = [rl] ∧
    calls_of "Choice" (since s s') = [([VList [VInt 1]], []); ([VList [VInt 0]], [])] ∧
    answers_of "Choice" (since s s') = [gain; bias].
Proof.
  intros Hn Hdl Hm Ho Hi Hh Hrun. run_through Hrun. all: not_quiet.
  eexists _, _, _, _, _, _, _, _, _, _. split_and!; reflexivity.
Qed.

Lemma network_is_a_probed_chain_witness :
  let s := Toy.after Toy.halving
             [Autoencoder.cell_setup; Autoencoder.cell_mnist;
              Autoencoder.cell_parameters] in
  let s' := (Autoencoder.cell_network s).2 in
  ∃ net inp enc dec p_in p_enc p_dec rl gain bias,
    (Autoencoder.cell_network s).1 = Return tt ∧
    st_vars s' =
      [("decode_probe", p_dec); ("encode_probe", p_enc); ("input_probe", p_in);
       ("tf_decode", dec); ("tf_encode", enc); ("inp", inp); ("net", net);
       ("Decoder", VClass "Decoder"); ("Encoder", VClass "Encoder")] ++ st_vars s ∧
    answers_of "TensorNode" (since s s') = [enc; dec] ∧
    calls_of "Connection" (since s s') = [([inp; enc], []); ([enc; dec], [])] ∧
    calls_of "Probe" (since s s') = [([inp], []); ([enc], []); ([dec], [])] ∧
    answers_of "Probe" (since s s') = [p_in; p_enc; p_dec] ∧
    settings (since s s') =
      [("synapse", VNone); ("neuron_type", rl); ("gain", gain); ("bias", bias)] ∧
    answers_of "RectifiedLinear" (since s s') = [rl] ∧
    calls_of "Choice" (since s s') = [([VList [VInt 1]], []); ([VList [VInt 0]], [])] ∧
    answers_of "Choice" (since s s') = [gain; bias].
Proof.
  intros s s'.
  apply (network_is_a_probed_chain s s' (Autoencoder.cell_network s).1
           (VStr "nengo") (VStr "nengo_dl") (VRef 0) (VInt 784) (VInt 36));
    vm_compute; reflexivity.
Defined.

(** ** The cells that change the ensemble *)

Lemma wp_items_of {P} v Q (s : state P) :
  (∀ l, own_items v = Some l → Q (Return l) s) →
  (own_items v = None →
   Logic.wp (r ← ext (Iter v);
             mret (match r with VTuple l | VList l => l | _ => [] end)) Q s) →
  Logic.wp (items_of v) Q s.
Proof.
  intros Hown Hask. unfold items_of.
  destruct v; first [by apply Hask | by apply wp_ret, Hown].
Qed.

(** A step that takes a starred argument apart in the two ways there are. *)
Ltac wp_step_star :=
  lazymatch goal with
  | |- Logic.wp (items_of _) _ _ =>
      let l := fresh "l" in let Hown := fresh "Hown" in
      apply wp_items_of; [intros l Hown | intros Hown]; lazy beta iota
  | |- _ => wp_step
  end.

Ltac run_through_stars Hrun :=
  unfold lookup_var in *;
  match type of Hrun with
  | _ = (?r, ?s') => pattern r, s'; eapply wp_run; [exact Hrun |]
  end;
  repeat wp_step_star.

Lemma starred_own v l : own_items v = Some l → starred v [] l.
Proof. unfold starred. by intros ->. Qed.

Lemma starred_asked v items :
  own_items v = None →
  starred v [(Iter v, Return items)] (match items with VTuple l | VList l => l | _ => [] end).
Proof. unfold starred. intros ->. by exists items. Qed.

(** X17. The intercept cell changes the ensemble before it builds the
    simulator.  In a run in which no request raises, the cell imports
    [Choice], sets [x.intercepts] to the answer of [Choice([-0.2])] on the
    ensemble that [x] is bound to, and only then builds a new simulator from
    the model and enters it; inside the block it asks [tuning_curves] for the
    curves of [x] under this simulator and plots them; it labels the axes
    after the block has been left.  It binds [Choice] and rebinds [sim] to
    the new simulator. *)
Theorem intercepts_are_set_before_the_build {P} (s s' : state P) r
    x model nengo plt tuning_curves :
  lookup_var "x" s = Some x → lookup_var "model" s = Some model →
  lookup_var "nengo" s = Some nengo → lookup_var "plt" s = Some plt →
  lookup_var "tuning_curves" s = Some tuning_curves →
  Scalars.cell_intercepts s = (r, s') → quiet (since s s') →
  ∃ choice c set simulator mgr sim plot curves asked args shown left yl y xl x',
    since s s' =
      [(ImportFrom "nengo.dists" "Choice", Return choice);
       (Call choice [VList [VFloat (-0.2)]] [], Return c);
       (SetAttr x "intercepts" c, Return set);
       (GetAttr nengo "Simulator", Return simulator);
       (Call simulator [model] [], Return mgr);
       (Enter mgr, Return sim);
       (GetAttr plt "plot", Return plot);
       (Call tuning_curves [x; sim] [], Return curves)] ++ asked ++
      [(Call plot args [], Return shown);
       (Exit mgr None, Return left);
       (GetAttr plt "ylabel", Return yl);
       (Call yl [VStr "Firing rate (Hz)"] [], Return y);
       (GetAttr plt "xlabel", Return xl);
       (Call xl [VStr "Input scalar, x"] [], Return x')] ∧
    starred curves asked args ∧
    r = Return tt ∧
    st_vars s' = [("sim", sim); ("Choice", choice)] ++ st_vars s.
Proof.
  intros Hx Hm Hn Hp Ht Hrun. run_through_stars Hrun. all: not_quiet.
  - eexists _, _, _, _, _, _, _, _, [], _, _, _, _, _, _, _.
    split_and!; [reflexivity | by apply starred_own | done | done].
  - eexists _, _, _, _, _, _, _, _, [_], _, _, _, _, _, _, _.
    split_and!; [reflexivity | by apply starred_asked | done | done].
Qed.

Lemma intercepts_are_set_before_the_build_witness :
  let s := Toy.after Toy.halving [Scalars.cell_setup; Scalars.cell_model] in
  let s' := (Scalars.cell_intercepts s).2 in
  ∃ choice c set simulator mgr sim plot curves asked args shown left yl y xl x',
    since s s' =
      [(ImportFrom "nengo.dists" "Choice", Return choice);
       (Call choice [VList [VFloat (-0.2)]] [], Return c);
       (SetAttr (VRef 3) "intercepts" c, Return set);
       (GetAttr (VStr "nengo") "Simulator", Return simulator);
       (Call simulator [VRef 0] [], Return mgr);
       (Enter mgr, Return sim);
       (GetAttr (VStr "matplotlib.pyplot") "plot", Return plot);
       (Call (VStr "tuning_curves") [VRef 3; sim] [], Return curves)] ++ asked ++
      [(Call plot args [], Return shown);
       (Exit mgr None, Return left);
       (GetAttr (VStr "matplotlib.pyplot") "ylabel", Return yl);
       (Call yl [VStr "Firing rate (Hz)"] [], Return y);
       (GetAttr (VStr "matplotlib.pyplot") "xlabel", Return xl);
       (Call xl [VStr "Input scalar, x"] [], Return x')] ∧
    starred curves asked args ∧
    (Scalars.cell_intercepts s).1 = Return tt ∧
    st_vars s' = [("sim", sim); ("Choice", choice)] ++ st_vars s.
Proof.
  intros s s'.
  apply (intercepts_are_set_before_the_build s s' (Scalars.cell_intercepts s).1
           (VRef 3) (VRef 0) (VStr "nengo") (VStr "matplotlib.pyplot")
           (VStr "tuning_curves"));
    vm_compute; reflexivity.
Defined.

(** X18. The encoder cell plots the tuning curves twice, the second time with a
    simulator that has been left.  In a run in which no request raises, the
    cell sets [x.encoders] to the answer of [Choice([[1]])], builds a new
    simulator from the model and enters it, asks [tuning_curves] for the
    curves of [x] under this simulator and plots them, and leaves the
    simulator; after that it asks [tuning_curves] again, for the same [x] and
    the same simulator, and plots the answer again, before it labels the
    axes.  It rebinds [sim] to the new simulator. *)
Theorem encoders_are_plotted_again_after_the_block {P} (s s' : state P) r
    choice x model nengo plt tuning_curves :
  lookup_var "Choice" s = Some choice →
  lookup_var "x" s = Some x → lookup_var "model" s = Some model →
  lookup_var "nengo" s = Some nengo → lookup_var "plt" s = Some plt →
  lookup_var "tuning_curves" s = Some tuning_curves →
  Scalars.cell_encoders s = (r, s') → quiet (since s s') →
  ∃ c set simulator mgr sim plot1 curves1 asked1 args1 shown1 left
    plot2 curves2 asked2 args2 shown2 yl y xl x',
    since s s' =
      [(Call choice [VList [VList [VInt 1]]] [], Return c);
       (SetAttr x "encoders" c, Return set);
       (GetAttr nengo "Simulator", Return simulator);
       (Call simulator [model] [], Return mgr);
       (Enter mgr, Return sim);
       (GetAttr plt "plot", Return plot1);
       (Call tuning_curves [x; sim] [], Return curves1)] ++ asked1 ++
      [(Call plot1 args1 [], Return shown1);
       (Exit mgr None, Return left);
       (GetAttr plt "plot", Return plot2);
       (Call tuning_curves [x; sim] [], Return curves2)] ++ asked2 ++
      [(Call plot2 args2 [], Return shown2);
       (GetAttr plt "ylabel", Return yl);
       (Call yl [VStr "Firing rate (Hz)"] [], Return y);
       (GetAttr plt "xlabel", Return xl);
       (Call xl [VStr "Input scalar, x"] [], Return x')] ∧
    starred curves1 asked1 args1 ∧ starred curves2 asked2 args2 ∧
    r = Return tt ∧
    st_vars s' = ("sim", sim) :: st_vars s.
Proof.
  intros Hc Hx Hm Hn Hp Ht Hrun. run_through_stars Hrun. all: not_quiet.
  - eexists _, _, _, _, _, _, _, [], _, _, _, _, _, [], _, _, _, _, _, _.
    split_and!; [reflexivity | by apply starred_own .. | done | done].
  - eexists _, _, _, _, _, _, _, [], _, _, _, _, _, [_], _, _, _, _, _, _.
    split_and!; [reflexivity | by apply starred_own | by apply starred_asked | done | done].
  - eexists _, _, _, _, _, _, _, [_], _, _, _, _, _, [], _, _, _, _, _, _.
    split_and!; [reflexivity | by apply starred_asked | by apply starred_own | done | done].
  - eexists _, _, _, _, _, _, _, [_], _, _, _, _, _, [_], _, _, _, _, _, _.
    split_and!; [reflexivity | by apply starred_asked .. | done | done].
Qed.

Lemma encoders_are_plotted_again_after_the_block_witness :
  let s := Toy.after Toy.halving
             [Scalars.cell_setup; Scalars.cell_model; Scalars.cell_viz;
              Scalars.cell_image; Scalars.cell_run; Scalars.cell_tuning;
              Scalars.cell_intercepts] in
  let s' := (Scalars.cell_encoders s).2 in
  ∃ c set simulator mgr sim plot1 curves1 asked1 args1 shown1 left
    plot2 curves2 asked2 args2 shown2 yl y xl x',
    since s s' =
      [(Call (VStr "Choice") [VList [VList [VInt 1]]] [], Return c);
       (SetAttr (VRef 3) "encoders" c, Return set);
       (GetAttr (VStr "nengo") "Simulator", Return simulator);
       (Call simulator [VRef 0] [], Return mgr);
       (Enter mgr, Return sim);
       (GetAttr (VStr "matplotlib.pyplot") "plot", Return plot1);
       (Call (VStr "tuning_curves") [VRef 3; sim] [], Return curves1)] ++ asked1 ++
      [(Call plot1 args1 [], Return shown1);
       (Exit mgr None, Return left);
       (GetAttr (VStr "matplotlib.pyplot") "plot", Return plot2);
       (Call (VStr "tuning_curves") [VRef 3; sim] [], Return curves2)] ++ asked2 ++
      [(Call plot2 args2 [], Return shown2);
       (GetAttr (VStr "matplotlib.pyplot") "ylabel", Return yl);
       (Call yl [VStr "Firing rate (Hz)"] [], Return y);
       (GetAttr (VStr "matplotlib.pyplot") "xlabel", Return xl);
       (Call xl [VStr "Input scalar, x"] [], Return x')] ∧
    starred curves1 asked1 args1 ∧ starred curves2 asked2 args2 ∧
    (Scalars.cell_encoders s).1 = Return tt ∧
    st_vars s' = ("sim", sim) :: st_vars s.
Proof.
  intros s s'.
  apply (encoders_are_plotted_again_after_the_block s s' (Scalars.cell_encoders s).1
           (VStr "Choice") (VRef 3) (VRef 0) (VStr "nengo") (VStr "matplotlib.pyplot")
           (VStr "tuning_curves"));
    vm_compute; reflexivity.
Defined.

(** ** The simulation cell and the tuning-curve cell *)

(** X19. The tuning curves are computed with a simulator that has been left.
    When the simulation cell and then the tuning-curve cell run without a
    raised request, the simulation cell builds one simulator from the model,
    enters it, runs it for 1 and leaves it as its last request; the
    tuning-curve cell opens a figure and asks [tuning_curves] for the curves
    of [x] under the simulator that the simulation cell bound to [sim], which
    is closed by then; it builds no simulator of its own, plots the curves
    and labels the axes, and [sim] stays bound to that simulator. *)
Theorem tuning_curves_use_the_left_simulator {P} (s s1 s2 : state P) r1 r2
    x model nengo plt tuning_curves :
  lookup_var "x" s = Some x → lookup_var "model" s = Some model →
  lookup_var "nengo" s = Some nengo → lookup_var "plt" s = Some plt →
  lookup_var "tuning_curves" s = Some tuning_curves →
  Scalars.cell_run s = (r1, s1) → quiet (since s s1) →
  Scalars.cell_tuning s1 = (r2, s2) → quiet (since s1 s2) →
  ∃ simulator mgr sim run ran left figure opened plot curves asked args shown yl y xl x',
    since s s1 =
      [(GetAttr nengo "Simulator", Return simulator);
       (Call simulator [model] [], Return mgr);
       (Enter mgr, Return sim);
       (GetAttr sim "run", Return run);
       (Call run [VInt 1] [], Return ran);
       (Exit mgr None, Return left)] ∧
    since s1 s2 =
      [(GetAttr plt "figure", Return figure);
       (Call figure [] [], Return opened);
       (GetAttr plt "plot", Return plot);
       (Call tuning_curves [x; sim] [], Return curves)] ++ asked ++
      [(Call plot args [], Return shown);
       (GetAttr plt "ylabel", Return yl);
       (Call yl [VStr "Firing rate (Hz)"] [], Return y);
       (GetAttr plt "xlabel", Return xl);
       (Call xl [VStr "Input scalar, x"] [], Return x')] ∧
    starred curves asked args ∧
    r1 = Return tt ∧ r2 = Return tt ∧
    st_vars s2 = ("sim", sim) :: st_vars s.
Proof.
  intros Hx Hm Hn Hp Ht Hrun1 Hq1 Hrun2 Hq2.
  assert (∃ simulator mgr sim run ran left,
            since s s1 =
              [(GetAttr nengo "Simulator", Return simulator);
               (Call simulator [model] [], Return mgr);
               (Enter mgr, Return sim);
               (GetAttr sim "run", Return run);
               (Call run [VInt 1] [], Return ran);
               (Exit mgr None, Return left)] ∧
            r1 = Return tt ∧ st_vars s1 = ("sim", sim) :: st_vars s)
    as (simulator & mgr & sim & run & ran & left & Hs1 & -> & Hv1).
  { clear Hrun2 Hq2. revert Hq1. run_through Hrun1. all: not_quiet.
    by eexists _, _, _, _, _, _. }
  assert (Hx1 : lookup_var "x" s1 = Some x) by (unfold lookup_var in *; by rewrite Hv1).
  assert (Hp1 : lookup_var "plt" s1 = Some plt) by (unfold lookup_var in *; by rewrite Hv1).
  assert (Ht1 : lookup_var "tuning_curves" s1 = Some tuning_curves)
    by (unfold lookup_var in *; by rewrite Hv1).
  assert (Hs : lookup_var "sim" s1 = Some sim) by (unfold lookup_var in *; by rewrite Hv1).
  clear Hrun1 Hq1 Hx Hm Hn Hp Ht. revert Hq2.
  run_through_stars Hrun2. all: not_quiet.
  - eexists _, _, _, _, _, _, _, _, _, _, [], _, _, _, _, _, _.
    split_and!; [exact Hs1 | reflexivity | by apply starred_own | done | done | by rewrite Hv1].
  - eexists _, _, _, _, _, _, _, _, _, _, [_], _, _, _, _, _, _.
    split_and!; [exact Hs1 | reflexivity | by apply starred_asked | done | done | by rewrite Hv1].
Qed.

Lemma tuning_curves_use_the_left_simulator_witness :
  let s := Toy.after Toy.halving
             [Scalars.cell_setup; Scalars.cell_model; Scalars.cell_viz; Scalars.cell_image] in
  let s1 := (Scalars.cell_run s).2 in
  let s2 := (Scalars.cell_tuning s1).2 in
  ∃ simulator mgr sim run ran left figure opened plot curves asked args shown yl y xl x',
    since s s1 =
      [(GetAttr (VStr "nengo") "Simulator", Return simulator);
       (Call simulator [VRef 0] [], Return mgr);
       (Enter mgr, Return sim);
       (GetAttr sim "run", Return run);
       (Call run [VInt 1] [], Return ran);
       (Exit mgr None, Return left)] ∧
    since s1 s2 =
      [(GetAttr (VStr "matplotlib.pyplot") "figure", Return figure);
       (Call figure [] [], Return opened);
       (GetAttr (VStr "matplotlib.pyplot") "plot", Return plot);
       (Call (VStr "tuning_curves") [VRef 3; sim] [], Return curves)] ++ asked ++
      [(Call plot args [], Return shown);
       (GetAttr (VStr "matplotlib.pyplot") "ylabel", Return yl);
       (Call yl [VStr "Firing rate (Hz)"] [], Return y);
       (GetAttr (VStr "matplotlib.pyplot") "xlabel", Return xl);
       (Call xl [VStr "Input scalar, x"] [], Return x')] ∧
    starred curves asked args ∧
    (Scalars.cell_run s).1 = Return tt ∧ (Scalars.cell_tuning s1).1 = Return tt ∧
    st_vars s2 = ("sim", sim) :: st_vars s.
Proof.
  intros s s1 s2.
  apply (tuning_curves_use_the_left_simulator s s1 s2
           (Scalars.cell_run s).1 (Scalars.cell_tuning s1).1
           (VRef 3) (VRef 0) (VStr "nengo") (VStr "matplotlib.pyplot")
           (VStr "tuning_curves"));
    vm_compute; reflexivity.
Defined.

(** ** The data cell in every run *)

(** X20. The data cell binds its dictionaries in pairs.  With [mnist], [inp]
    and [decode_probe] bound (the keys taken as hashable), every run of the
    data cell, on every platform, asks at most six requests, none of them for
    an unbound name, and the only items it asks for are the two slicings
    [[:, None, :]]: [train_inputs[inp]] and [test_inputs[inp]] are found in
    the dictionaries built the line before (no KeyError).  Afterwards the namespace is the one before with
    nothing new, or with [train_inputs] and [train_targets], or with all
    four dictionaries; a targets dictionary never exists without its inputs
    dictionary and always holds the same array; the cell ends normally
    exactly when all four are bound. *)
Theorem data_cell_binds_in_pairs {P} (s s' : state P) r mnist inp probe :
  lookup_var "mnist" s = Some mnist → lookup_var "inp" s = Some inp →
  lookup_var "decode_probe" s = Some probe →
  Autoencoder.cell_data s = (r, s') →
  (length (since s s') ≤ 6)%nat ∧
  Forall (λ ev : event, match ev.1 with
                        | Global _ => False
                        | GetItem _ k =>
                            k = VTuple [Autoencoder.whole; VNone; Autoencoder.whole]
                        | _ => True
                        end) (since s s') ∧
  ∃ a b,
    let train := [("train_targets", VDict [(probe, a)]); ("train_inputs", VDict [(inp, a)])] in
    let test := [("test_targets", VDict [(probe, b)]); ("test_inputs", VDict [(inp, b)])] in
    (st_vars s' = st_vars s ∧ r ≠ Return tt) ∨
    (st_vars s' = train ++ st_vars s ∧ r ≠ Return tt) ∨
    (st_vars s' = test ++ train ++ st_vars s ∧ r = Return tt).
Proof.
  intros Hm Hi Hp Hrun. run_through Hrun.
  all: since_known; cbn [length]; split; [lia |]; split; [by repeat constructor |].
  all: try (exists VNone, VNone; left; split; [reflexivity | discriminate]).
  all: try (eexists _, VNone; right; left; split; [reflexivity | discriminate]).
  eexists _, _. right; right. split; reflexivity.
Qed.

(** On a platform that is interrupted at the fifth request, the cell stops
    with the training pair bound and the test pair not. *)
Lemma data_cell_binds_in_pairs_witness :
  let s := Interrupted.before_data 4 in
  let out := Autoencoder.cell_data s in
  out.1 = Raise (VStr "KeyboardInterrupt") ∧
  ((st_vars out.2).*1 = ["train_targets"; "train_inputs"; "decode_probe"; "inp"; "mnist"]) ∧
  (length (since s out.2) ≤ 6)%nat.
Proof.
  pose proof (data_cell_binds_in_pairs (Interrupted.before_data 4)
                (Autoencoder.cell_data (Interrupted.before_data 4)).2
                (Autoencoder.cell_data (Interrupted.before_data 4)).1
                (VStr "mnist") (VStr "inp") (VStr "probe")
                eq_refl eq_refl eq_refl (surjective_pairing _)) as [Hlen _].
  split_and!; [reflexivity | reflexivity | exact Hlen].
Defined.

(** ** The names a cell binds *)

Section Touches.
Context {P : platform}.

Lemma touches_ret {A} N (a : A) : Names.touches (P := P) N (mret a).
Proof. intros s. by exists []. Qed.

Lemma touches_ext N (o : op) : Names.touches (P := P) N (ext o).
Proof. intros s. unfold ext. destruct (exec P o (st_world s)). by exists []. Qed.

Lemma touches_raise {A} N e : Names.touches (P := P) N (raise (A := A) e).
Proof. intros s. by exists []. Qed.

Lemma touches_store N x v :
  existsb (String.eqb x) N = true → Names.touches (P := P) N (store x v).
Proof. intros Hx s. exists [(x, v)]. split; [done |]. cbn. by rewrite Hx. Qed.

Lemma touches_name N x : Names.touches (P := P) N (name x).
Proof.
  intros s. unfold name. destruct (lookup_var x s); [by exists [] |].
  destruct (existsb _ _); [by exists [] | apply touches_ext].
Qed.

Lemma touches_bind {A B} N (m : M P A) (k : A → M P B) :
  Names.touches (P := P) N m → (∀ a, Names.touches (P := P) N (k a)) →
  Names.touches (P := P) N (m ≫= k).
Proof.
  intros Hm Hk s. unfold mbind, M_bind.
  destruct (Hm s) as (f1 & Hv1 & H1).
  destruct (m s) as [[a | e] s1]; cbn in *; [| by exists f1].
  destruct (Hk a s1) as (f2 & Hv2 & H2).
  exists (f2 ++ f1). split; [by rewrite Hv2, Hv1, app_assoc |].
  by rewrite forallb_app, H2, H1.
Qed.

Lemma touches_attempt {A} N (m : M P A) :
  Names.touches (P := P) N m → Names.touches (P := P) N (attempt m).
Proof.
  intros Hm s. unfold attempt. destruct (Hm s) as (f & Hv & H).
  destruct (m s) as [r s1]. by exists f.
Qed.

Lemma touches_each N x items (body : M P unit) :
  existsb (String.eqb x) N = true → Names.touches (P := P) N body →
  Names.touches (P := P) N (each x items body).
Proof.
  intros Hx Hbody. induction items as [| v items IH]; cbn [each].
  - apply touches_ret.
  - apply touches_bind; [by apply touches_store | intros _].
    by apply touches_bind.
Qed.

End Touches.

(** Takes a program apart down to the names it stores. *)
Ltac touching :=
  repeat lazymatch goal with
  | |- Forall _ [] => apply Forall_nil_2
  | |- Forall _ (_ :: _) => apply Forall_cons_2
  | |- _ ∧ _ => split
  | |- ∀ _, _ => intro
  | |- Names.touches _ (mbind _ _) => apply touches_bind
  | |- Names.touches _ (mret _) => apply touches_ret
  | |- Names.touches _ (ext _) => apply touches_ext
  | |- Names.touches _ (raise _) => apply touches_raise
  | |- Names.touches _ (store _ _) => apply touches_store; reflexivity
  | |- Names.touches _ (name _) => apply touches_name
  | |- Names.touches _ (attempt _) => apply touches_attempt
  | |- Names.touches _ (each _ _ _) => apply touches_each; [reflexivity |]
  | |- Names.touches _ (sequence _) => cbn [sequence]
  | |- Names.touches _ (sequence_kw _) => cbn [sequence_kw]
  | |- Names.touches _ (match ?x with _ => _ end) => destruct x
  | |- Names.touches _ (if ?b then _ else _) => destruct b
  | |- Names.touches _ (let _ := _ in _) => cbv zeta
  | |- Names.touches _ (fst _) => cbn [fst]
  | |- Names.touches _ ?m => let h := head_of m in progress unfold h
  end.

Lemma untouched {P A} N (m : M P A) (s : state P) x :
  Names.touches N m → x ∉ N → history x (m s).2 = history x s.
Proof.
  intros Hm Hx. destruct (Hm s) as (front & Hv & Hfront).
  by eapply history_untouched.
Qed.

(** X21. The names a cell binds.  In every run, on every platform, each code
    cell binds no names but those listed with it here, and every other name
    keeps the values it had, in the order it got them; a cell that is run
    again, or out of order, or that fails half-way, touches nothing else.
    The lambda and the four methods bind no name of the kernel at all. *)
Theorem cells_touch_only_their_names (P : platform) :
  Forall (λ cN : M P unit * list string,
            ∀ s x, x ∉ cN.2 → history x (cN.1 s).2 = history x s)
    [(Scalars.cell_setup,
      ["np"; "plt"; "nengo"; "Uniform"; "rasterplot"; "tuning_curves"]);
     (Scalars.cell_model, ["model"; "input"; "x"]);
     (Scalars.cell_viz, ["IPythonViz"]);
     (Scalars.cell_image, ["Image"]);
     (Scalars.cell_run, ["sim"]);
     (Scalars.cell_tuning, []);
     (Scalars.cell_intercepts, ["Choice"; "sim"]);
     (Scalars.cell_encoders, ["sim"]);
     (Autoencoder.cell_setup, ["nengo"; "nengo_dl"; "np"; "tf"; "plt"]);
     (Autoencoder.cell_mnist, ["input_data"; "mnist"]);
     (Autoencoder.cell_parameters, ["n_hidden_1"; "n_hidden_2"; "n_input"]);
     (Autoencoder.cell_network,
      ["Encoder"; "Decoder"; "net"; "inp"; "tf_encode"; "tf_decode"; "input_probe";
       "encode_probe"; "decode_probe"]);
     (Autoencoder.cell_data,
      ["train_inputs"; "train_targets"; "test_inputs"; "test_targets"]);
     (Autoencoder.cell_train,
      ["n_examples"; "losses"; "learning_rate"; "repetitions"; "sim"; "optimizer"; "e"]);
     (Autoencoder.cell_plot, ["figure"; "axis"; "i"]);
     (Autoencoder.cell_empty, [])] ∧
  (∀ t s x, history x (Scalars.input_sine (P := P) t s).2 = history x s) ∧
  (∀ self shape_in shape_out s x,
     history x (Autoencoder.Encoder.pre_build (P := P) self shape_in shape_out s).2
       = history x s ∧
     history x (Autoencoder.Decoder.pre_build (P := P) self shape_in shape_out s).2
       = history x s) ∧
  (∀ self t y s x,
     history x (Autoencoder.Encoder.__call__ (P := P) self t y s).2 = history x s ∧
     history x (Autoencoder.Decoder.__call__ (P := P) self t y s).2 = history x s).
Proof.
  split_and!.
  - repeat apply Forall_cons_2; try apply Forall_nil_2; cbn [fst snd];
      intros s x; apply untouched; touching.
  - intros t s x. apply (untouched []); [touching | apply not_elem_of_nil].
  - intros self shape_in shape_out s x.
    split; (apply (untouched []); [touching | apply not_elem_of_nil]).
  - intros self t y s x.
    split; (apply (untouched []); [touching | apply not_elem_of_nil]).
Qed.
